(** * PetDance backend: job orchestration and webhook verification

    A shallow embedding of the Cloud Functions of the PetDance backend
    (functions/index.js and functions/helpers/replicate.js) together with the
    properties of the job life cycle proved about it.

    Conventions of the embedding.
    - A JavaScript string is represented by the sequence of its UTF-8 bytes,
      as a [string]; request bodies are taken to be well-formed UTF-8, so that
      [Buffer.toString('utf8')] followed by the UTF-8 encoding done by
      [hmac.update] is the identity on them.
    - A [Buffer] is a [list Z] of bytes (each in 0..255).
    - Time is a number of milliseconds since the epoch, in [Z]. The source
      divides [Date.now()] by 1000 in floating point and compares with 300;
      for every date that a double holds with a precision under half a
      millisecond this is the comparison of the milliseconds with 300000,
      which the model makes.
    - The Job Store (Firestore) is a finite map from document ids to
      documents, without sub-collections; its reads, queries and writes are
      taken to succeed, and a document is only changed by the handlers.
    - Every answer of an external collaborator (identity provider, object
      storage, inference provider, result download) is an input of the
      handler, gathered in an environment record, so that a statement
      quantified over environments covers every behaviour of the
      collaborators.
    - What helpers/replicate.js sends to the inference provider and what the
      page of js/app.js does while it polls are kept as lists of events, the
      answers of the provider and of the server being inputs as above.
    - An invocation of a handler is run as one transition of the store, and
      a sequence of invocations ([exec]) runs them one at a time: what is
      proved of sequences is proved of invocations that do not overlap. The
      handlers hold no lock and run no transaction; [startJob] is also given
      in two parts, cut at its last [await], and what an overlap can do is
      shown on them.
    - The first part of src/unnamed/part_004 after its README is the later
      revision of functions/index.js, the second part the earlier one;
      src/unnamed/part_005 is the later revision of
      functions/helpers/replicate.js. *)

From Stdlib Require Import ZArith String Ascii Lia.
From stdpp Require Import gmap strings list.

Local Open Scope Z_scope.

(** ** Bytes and strings *)

Definition byte_of_ascii (c : ascii) : Z := Z.of_N (N_of_ascii c).

Definition ascii_of_byte (b : Z) : ascii := ascii_of_N (Z.to_N b).

Fixpoint bytes_of_string (s : string) : list Z :=
  match s with
  | EmptyString => []
  | String c r => byte_of_ascii c :: bytes_of_string r
  end.

Fixpoint string_of_bytes (l : list Z) : string :=
  match l with
  | [] => EmptyString
  | b :: r => String (ascii_of_byte b) (string_of_bytes r)
  end.

(** ** SHA-256 and HMAC (what [crypto.createHmac('sha256', key)] computes) *)

Module SHA256.

Definition mask32 : Z := 0xFFFFFFFF.

Definition add32 (a b : Z) : Z := Z.land (a + b) mask32.

Definition rotr (n x : Z) : Z :=
  Z.land (Z.lor (Z.shiftr x n) (Z.shiftl x (32 - n))) mask32.

Definition not32 (x : Z) : Z := Z.lxor x mask32.

Definition Ch (x y z : Z) : Z := Z.lxor (Z.land x y) (Z.land (not32 x) z).

Definition Maj (x y z : Z) : Z :=
  Z.lxor (Z.lxor (Z.land x y) (Z.land x z)) (Z.land y z).

Definition Sigma0 (x : Z) : Z := Z.lxor (Z.lxor (rotr 2 x) (rotr 13 x)) (rotr 22 x).
Definition Sigma1 (x : Z) : Z := Z.lxor (Z.lxor (rotr 6 x) (rotr 11 x)) (rotr 25 x).
Definition sigma0 (x : Z) : Z := Z.lxor (Z.lxor (rotr 7 x) (rotr 18 x)) (Z.shiftr x 3).
Definition sigma1 (x : Z) : Z := Z.lxor (Z.lxor (rotr 17 x) (rotr 19 x)) (Z.shiftr x 10).

(** The constants of the standard: the first 32 bits of the fractional
    parts of the cube roots (for [K]) and of the square roots (for [H0]) of
    the first primes. *)
Definition is_prime (n : Z) : bool :=
  (1 <? n) && forallb (fun d => negb (n mod d =? 0)) (map Z.of_nat (seq 2 (Z.to_nat n - 2))).

Definition primes_below (n : nat) : list Z := List.filter is_prime (map Z.of_nat (seq 0 n)).

(** The integer cube root, by bisection between [lo] and [hi]. *)
Fixpoint cube_root (fuel : nat) (lo hi x : Z) : Z :=
  match fuel with
  | O => lo
  | S fuel' =>
      let mid := (lo + hi) / 2 in
      if mid * mid * mid <=? x then cube_root fuel' mid hi x
      else cube_root fuel' lo mid x
  end.

Definition K : list Z :=
  Eval vm_compute in
    map (fun p => Z.land (cube_root 40 0 (2 ^ 36) (p * 2 ^ 96)) mask32) (primes_below 312).

Definition H0 : list Z :=
  Eval vm_compute in
    map (fun p => Z.land (Z.sqrt (p * 2 ^ 64)) mask32) (primes_below 20).

(** Message padding: a 1 bit, zeros, and the bit length on 64 bits. *)
Definition be_bytes (n : nat) (x : Z) : list Z :=
  map (fun i => Z.land (Z.shiftr x (8 * Z.of_nat i)) 0xFF) (rev (seq 0 n)).

Definition pad (msg : list Z) : list Z :=
  let len := Z.of_nat (length msg) in
  msg ++ [0x80] ++ repeat 0 (Z.to_nat ((55 - len) mod 64)) ++ be_bytes 8 (8 * len).

Fixpoint words_of_bytes (l : list Z) : list Z :=
  match l with
  | a :: b :: c :: d :: r =>
      Z.lor (Z.lor (Z.shiftl a 24) (Z.shiftl b 16)) (Z.lor (Z.shiftl c 8) d)
      :: words_of_bytes r
  | _ => []
  end.

Fixpoint blocks (fuel : nat) (ws : list Z) : list (list Z) :=
  match fuel, ws with
  | S fuel', _ :: _ => firstn 16 ws :: blocks fuel' (skipn 16 ws)
  | _, _ => []
  end.

(** The message schedule, most recent word first. *)
Fixpoint schedule (n : nat) (rw : list Z) : list Z :=
  match n with
  | O => rw
  | S n' =>
      let w := add32 (add32 (sigma1 (nth 1 rw 0)) (nth 6 rw 0))
                     (add32 (sigma0 (nth 14 rw 0)) (nth 15 rw 0)) in
      schedule n' (w :: rw)
  end.

Definition round (st : list Z) (kw : Z * Z) : list Z :=
  match st with
  | [a; b; c; d; e; f; g; h] =>
      let t1 := add32 (add32 (add32 h (Sigma1 e)) (add32 (Ch e f g) kw.1)) kw.2 in
      let t2 := add32 (Sigma0 a) (Maj a b c) in
      [add32 t1 t2; a; b; c; add32 d t1; e; f; g]
  | _ => st
  end.

Definition compress (h : list Z) (block : list Z) : list Z :=
  let w := rev (schedule 48 (rev block)) in
  let st := fold_left round (combine K w) h in
  map (fun p : Z * Z => add32 p.1 p.2) (combine h st).

Definition digest (msg : list Z) : list Z :=
  let ws := words_of_bytes (pad msg) in
  let h := fold_left compress (blocks (length ws) ws) H0 in
  concat (map (be_bytes 4) h).

Definition hmac (key msg : list Z) : list Z :=
  let k0 := if (64 <? Z.of_nat (length key)) then digest key else key in
  let k := k0 ++ repeat 0 (64 - length k0)%nat in
  let ipad := map (Z.lxor 0x36) k in
  let opad := map (Z.lxor 0x5c) k in
  digest (opad ++ digest (ipad ++ msg)).

End SHA256.

Definition hex_of_bytes (l : list Z) : string :=
  let digit (d : Z) : ascii :=
    ascii_of_byte (if d <? 10 then 48 + d else 87 + d) in
  fold_right (fun b acc => String (digit (b / 16)) (String (digit (b mod 16)) acc))
             EmptyString l.

(** ** Base64 as Node's [Buffer] implements it *)

Definition base64_alphabet : string :=
  "ABCDEFGHIJKLMNOPQRSTUVWXYZabcdefghijklmnopqrstuvwxyz0123456789+/".

Definition base64_char (v : Z) : ascii :=
  match String.get (Z.to_nat v) base64_alphabet with
  | Some c => c
  | None => "="%char
  end.

(** [digest('base64')]: the standard alphabet, with padding. *)
Fixpoint base64_encode (l : list Z) : string :=
  match l with
  | a :: b :: c :: r =>
      String (base64_char (Z.shiftr a 2))
        (String (base64_char (Z.lor (Z.shiftl (Z.land a 3) 4) (Z.shiftr b 4)))
           (String (base64_char (Z.lor (Z.shiftl (Z.land b 15) 2) (Z.shiftr c 6)))
              (String (base64_char (Z.land c 63)) (base64_encode r))))
  | [a; b] =>
      String (base64_char (Z.shiftr a 2))
        (String (base64_char (Z.lor (Z.shiftl (Z.land a 3) 4) (Z.shiftr b 4)))
           (String (base64_char (Z.shiftl (Z.land b 15) 2)) "="))
  | [a] =>
      String (base64_char (Z.shiftr a 2))
        (String (base64_char (Z.shiftl (Z.land a 3) 4)) "==")
  | [] => EmptyString
  end.

(** The value of a character in Node's decoding table: the standard and the
    URL-safe alphabets are both accepted. *)
Definition unbase64 (c : ascii) : option Z :=
  let n := byte_of_ascii c in
  if (65 <=? n) && (n <=? 90) then Some (n - 65)
  else if (97 <=? n) && (n <=? 122) then Some (n - 71)
  else if (48 <=? n) && (n <=? 57) then Some (n + 4)
  else if (n =? 43) || (n =? 45) then Some 62
  else if (n =? 47) || (n =? 95) then Some 63
  else None.

(** [Buffer.from(s, 'base64')] never throws: characters outside the alphabet
    are skipped and decoding stops at the first padding character. *)
Fixpoint sextets (s : string) : list Z :=
  match s with
  | EmptyString => []
  | String c r =>
      if Ascii.eqb c "=" then []
      else match unbase64 c with
           | Some v => v :: sextets r
           | None => sextets r
           end
  end.

Fixpoint bytes_of_sextets (l : list Z) : list Z :=
  match l with
  | a :: b :: c :: d :: r =>
      Z.lor (Z.shiftl a 2) (Z.shiftr b 4)
      :: Z.lor (Z.shiftl (Z.land b 15) 4) (Z.shiftr c 2)
      :: Z.lor (Z.shiftl (Z.land c 3) 6) d
      :: bytes_of_sextets r
  | [a; b; c] =>
      [Z.lor (Z.shiftl a 2) (Z.shiftr b 4);
       Z.lor (Z.shiftl (Z.land b 15) 4) (Z.shiftr c 2)]
  | [a; b] => [Z.lor (Z.shiftl a 2) (Z.shiftr b 4)]
  | _ => []
  end.

Definition Buffer_from_base64 (s : string) : list Z := bytes_of_sextets (sextets s).

Fixpoint bytes_eqb (a b : list Z) : bool :=
  match a, b with
  | [], [] => true
  | x :: a', y :: b' => (x =? y) && bytes_eqb a' b'
  | _, _ => false
  end.

(** [crypto.timingSafeEqual] throws a RangeError ([None]) when the two
    buffers differ in length. *)
Definition timingSafeEqual (a b : list Z) : option bool :=
  if (length a =? length b)%nat then Some (bytes_eqb a b) else None.

(** ** The string operations of JavaScript that the helper uses *)

Fixpoint string_drop (n : nat) (s : string) : string :=
  match n, s with
  | O, _ => s
  | S _, EmptyString => EmptyString
  | S n', String _ r => string_drop n' r
  end.

(** [s.replace(pat, rep)] with a string pattern: the first occurrence only. *)
Fixpoint replace_first (pat rep s : string) : string :=
  if String.prefix pat s then rep +:+ string_drop (String.length pat) s
  else match s with
       | EmptyString => EmptyString
       | String c r => String c (replace_first pat rep r)
       end.

(** [s.split(sep)] for a separator of one character. *)
Fixpoint split_char (sep : ascii) (s : string) : list string :=
  match s with
  | EmptyString => [EmptyString]
  | String c r =>
      if Ascii.eqb c sep then EmptyString :: split_char sep r
      else match split_char sep r with
           | h :: t => String c h :: t
           | [] => [String c EmptyString]
           end
  end.

Definition is_digit (c : ascii) : bool :=
  let n := byte_of_ascii c in (48 <=? n) && (n <=? 57).

(** The white space of ECMAScript ([StrWhiteSpaceChar]): the ASCII blanks
    and, in UTF-8, U+00A0, U+1680, U+2000 to U+200A, U+2028, U+2029, U+202F,
    U+205F, U+3000 and U+FEFF. *)
Definition is_space (c : ascii) : bool :=
  let n := byte_of_ascii c in ((9 <=? n) && (n <=? 13)) || (n =? 32).

Definition is_space3 (x y z : Z) : bool :=
  ((x =? 0xE1) && (y =? 0x9A) && (z =? 0x80))
  || ((x =? 0xE2) && (y =? 0x80)
      && (((0x80 <=? z) && (z <=? 0x8A)) || (z =? 0xA8) || (z =? 0xA9) || (z =? 0xAF)))
  || ((x =? 0xE2) && (y =? 0x81) && (z =? 0x9F))
  || ((x =? 0xE3) && (y =? 0x80) && (z =? 0x80))
  || ((x =? 0xEF) && (y =? 0xBB) && (z =? 0xBF)).

Fixpoint skip_spaces (s : string) : string :=
  match s with
  | String a r1 =>
      if is_space a then skip_spaces r1
      else
        match r1 with
        | String b r2 =>
            if (byte_of_ascii a =? 0xC2) && (byte_of_ascii b =? 0xA0) then skip_spaces r2
            else
              match r2 with
              | String c r3 =>
                  if is_space3 (byte_of_ascii a) (byte_of_ascii b) (byte_of_ascii c)
                  then skip_spaces r3
                  else s
              | EmptyString => s
              end
        | EmptyString => s
        end
  | EmptyString => s
  end.

(** The value of the longest prefix of decimal digits, with the number of
    digits read. *)
Fixpoint read_digits (acc : Z) (n : nat) (s : string) : Z * nat :=
  match s with
  | String c r =>
      if is_digit c then read_digits (10 * acc + (byte_of_ascii c - 48)) (S n) r
      else (acc, n)
  | EmptyString => (acc, n)
  end.

(** [parseInt(s, 10)]; [None] stands for NaN. *)
Definition parseInt (s : string) : option Z :=
  let s1 := skip_spaces s in
  let '(neg, s2) :=
    match s1 with
    | String c r =>
        if Ascii.eqb c "-" then (true, r)
        else if Ascii.eqb c "+" then (false, r)
        else (false, s1)
    | EmptyString => (false, s1)
    end in
  match read_digits 0 0 s2 with
  | (_, O) => None
  | (v, S _) => Some (if neg then - v else v)
  end.

(** ** helpers/replicate.js: [verifyWebhookSignature] *)

Definition signedContent (webhookId timestamp body : string) : string :=
  webhookId +:+ "." +:+ timestamp +:+ "." +:+ body.

Definition secretKey (secret : string) : string := replace_first "whsec_" "" secret.

Definition expectedSignature (body webhookId timestamp secret : string) : string :=
  base64_encode (SHA256.hmac (bytes_of_string (secretKey secret))
                             (bytes_of_string (signedContent webhookId timestamp body))).

(** The candidates: the last comma-separated part of every space-separated
    element of the header. *)
Definition signatures (signature : string) : list string :=
  map (fun s => List.last (split_char "," s) EmptyString) (split_char " " signature).

Definition candidate_matches (expected sig : string) : bool :=
  match timingSafeEqual (Buffer_from_base64 sig) (Buffer_from_base64 expected) with
  | Some b => b
  | None => false
  end.

(** [Math.abs(Date.now() / 1000 - parseInt(timestamp, 10)) < 300], with
    [now] the value of [Date.now()]. *)
Definition isRecent (now : Z) (timestamp : string) : bool :=
  match parseInt timestamp with
  | Some ts => Z.abs (now - 1000 * ts) <? 300 * 1000
  | None => false
  end.

Definition verifyWebhookSignature
    (now : Z) (body webhookId timestamp signature secret : string) : bool :=
  let expected := expectedSignature body webhookId timestamp secret in
  let isValid := existsb (candidate_matches expected) (signatures signature) in
  isValid && isRecent now timestamp.

(** ** scripts/test-webhook-signature.js: [signWebhook] *)

(** The script signs with the bytes that the secret encodes in Base64,
    where [verifyWebhookSignature] keys the HMAC with the text itself. *)
Definition signWebhook (body webhookId timestamp secret : string) : string :=
  let secretBase64 := replace_first "whsec_" "" secret in
  let secretBytes := Buffer_from_base64 secretBase64 in
  base64_encode (SHA256.hmac secretBytes
                             (bytes_of_string (signedContent webhookId timestamp body))).

(** ** JavaScript values and [JSON.parse] *)

#[local] Set Warnings "-register-all".

(** A number read by [JSON.parse] is kept as [m * 10 ^ e]. The handlers
    only test whether a number is zero; the double nearest to [m * 10 ^ e] is
    zero when [m] is, or when the value is at most [2 ^ -1075], half the
    smallest positive double. *)
Inductive JsValue : Type :=
  | JUndefined
  | JNull
  | JBool (b : bool)
  | JNum (m e : Z)
  | JStr (s : string)
  | JArr (l : list JsValue)
  | JObj (l : list (string * JsValue)).

Definition rounds_to_zero (m e : Z) : bool :=
  (m =? 0) || ((e <? 0) && (Z.abs m * 2 ^ 1075 <=? 10 ^ (- e))).

(** The conversion to a boolean done by [!v], [a || b] and [if (v)]. *)
Definition truthy (v : JsValue) : bool :=
  match v with
  | JUndefined | JNull => false
  | JBool b => b
  | JNum m e => negb (rounds_to_zero m e)
  | JStr s => negb (String.eqb s "")
  | JArr _ | JObj _ => true
  end.

Definition js_or (a b : JsValue) : JsValue := if truthy a then a else b.

Definition is_string (v : JsValue) : bool :=
  match v with JStr _ => true | _ => false end.

(** [typeof v === 'object'] *)
Definition is_object (v : JsValue) : bool :=
  match v with JNull | JArr _ | JObj _ => true | _ => false end.

Definition isArray (v : JsValue) : bool :=
  match v with JArr _ => true | _ => false end.

(** [JSON.parse] keeps the last of several members with the same name. *)
Fixpoint assoc_last (k : string) (l : list (string * JsValue)) : JsValue :=
  match l with
  | [] => JUndefined
  | (k', v) :: r =>
      match assoc_last k r with
      | JUndefined => if String.eqb k k' then v else JUndefined
      | w => w
      end
  end.

(** [v.k] for a value that is neither [null] nor [undefined] and a name [k]
    that no prototype defines ([id], [status], [output], [error], [url],
    [video], [jobId], [imageUrl], [danceStyle]). *)
Definition get_prop (v : JsValue) (k : string) : JsValue :=
  match v with
  | JObj l => assoc_last k l
  | _ => JUndefined
  end.

(** [v[0]] *)
Definition get_index0 (v : JsValue) : JsValue :=
  match v with
  | JArr (x :: _) => x
  | JArr [] => JUndefined
  | JObj l => assoc_last "0" l
  | _ => JUndefined
  end.

Module Json.

Definition is_ws (c : ascii) : bool :=
  let n := byte_of_ascii c in (n =? 32) || (n =? 9) || (n =? 10) || (n =? 13).

Fixpoint skip_ws (s : string) : string :=
  match s with
  | String c r => if is_ws c then skip_ws r else s
  | EmptyString => s
  end.

Definition hex_val (c : ascii) : option Z :=
  let n := byte_of_ascii c in
  if (48 <=? n) && (n <=? 57) then Some (n - 48)
  else if (97 <=? n) && (n <=? 102) then Some (n - 87)
  else if (65 <=? n) && (n <=? 70) then Some (n - 55)
  else None.

(** The UTF-8 bytes of a code point (a surrogate that stands alone is
    written like any other code point below 0x10000). *)
Definition utf8 (u : Z) : string :=
  string_of_bytes
    (if u <? 0x80 then [u]
     else if u <? 0x800 then [Z.lor 0xC0 (Z.shiftr u 6); Z.lor 0x80 (Z.land u 0x3F)]
     else if u <? 0x10000 then
       [Z.lor 0xE0 (Z.shiftr u 12); Z.lor 0x80 (Z.land (Z.shiftr u 6) 0x3F);
        Z.lor 0x80 (Z.land u 0x3F)]
     else
       [Z.lor 0xF0 (Z.shiftr u 18); Z.lor 0x80 (Z.land (Z.shiftr u 12) 0x3F);
        Z.lor 0x80 (Z.land (Z.shiftr u 6) 0x3F); Z.lor 0x80 (Z.land u 0x3F)]).

Definition hex4 (h1 h2 h3 h4 : ascii) : option Z :=
  match hex_val h1, hex_val h2, hex_val h3, hex_val h4 with
  | Some a, Some b, Some c, Some d => Some (4096 * a + 256 * b + 16 * c + d)
  | _, _, _, _ => None
  end.

(** The characters of a string literal, after its opening quote. *)
Fixpoint parse_string (s : string) : option (string * string) :=
  match s with
  | EmptyString => None
  | String c r =>
      let n := byte_of_ascii c in
      if n =? 34 then Some (EmptyString, r)
      else if n <? 32 then None
      else if n =? 92 then
        match r with
        | String e r1 =>
            let m := byte_of_ascii e in
            let simple (b : Z) :=
              match parse_string r1 with
              | Some (t, rest) => Some (String (ascii_of_byte b) t, rest)
              | None => None
              end in
            if m =? 34 then simple 34
            else if m =? 92 then simple 92
            else if m =? 47 then simple 47
            else if m =? 98 then simple 8
            else if m =? 102 then simple 12
            else if m =? 110 then simple 10
            else if m =? 114 then simple 13
            else if m =? 116 then simple 9
            else if m =? 117 then
              match r1 with
              | String h1 (String h2 (String h3 (String h4 r2))) =>
                  match hex4 h1 h2 h3 h4 with
                  | Some u =>
                      let alone :=
                        match parse_string r2 with
                        | Some (t, rest) => Some (utf8 u +:+ t, rest)
                        | None => None
                        end in
                      match r2 with
                      | String b1 (String b2 (String l1 (String l2 (String l3 (String l4 r3))))) =>
                          match hex4 l1 l2 l3 l4 with
                          | Some lo =>
                              if (0xD800 <=? u) && (u <=? 0xDBFF)
                                 && (byte_of_ascii b1 =? 92) && (byte_of_ascii b2 =? 117)
                                 && (0xDC00 <=? lo) && (lo <=? 0xDFFF)
                              then
                                match parse_string r3 with
                                | Some (t, rest) =>
                                    Some (utf8 (0x10000 + (u - 0xD800) * 1024 + (lo - 0xDC00))
                                          +:+ t, rest)
                                | None => None
                                end
                              else alone
                          | None => alone
                          end
                      | _ => alone
                      end
                  | None => None
                  end
              | _ => None
              end
            else None
        | EmptyString => None
        end
      else
        match parse_string r with
        | Some (t, rest) => Some (String c t, rest)
        | None => None
        end
  end.

(** [-? int frac? exp?]; a leading zero is followed by no other digit. *)
Definition parse_number (s : string) : option (JsValue * string) :=
  let '(neg, s1) :=
    match s with
    | String c r => if Ascii.eqb c "-" then (true, r) else (false, s)
    | EmptyString => (false, s)
    end in
  let '(iv, ilen) := read_digits 0 0 s1 in
  let s2 := string_drop ilen s1 in
  let leading_zero :=
    match s1 with
    | String c _ => Ascii.eqb c "0" && (1 <? ilen)%nat
    | EmptyString => false
    end in
  if (ilen =? 0)%nat || leading_zero then None
  else
    let frac :=
      match s2 with
      | String c r =>
          if Ascii.eqb c "." then
            let '(fv, flen) := read_digits iv 0 r in
            if (flen =? 0)%nat then None else Some (fv, flen, string_drop flen r)
          else Some (iv, O, s2)
      | EmptyString => Some (iv, O, s2)
      end in
    match frac with
    | None => None
    | Some (m, flen, s3) =>
        let m' := if neg then - m else m in
        match s3 with
        | String c r =>
            if Ascii.eqb c "e" || Ascii.eqb c "E" then
              let '(eneg, r1) :=
                match r with
                | String d r' =>
                    if Ascii.eqb d "-" then (true, r')
                    else if Ascii.eqb d "+" then (false, r')
                    else (false, r)
                | EmptyString => (false, r)
                end in
              let '(ev, elen) := read_digits 0 0 r1 in
              if (elen =? 0)%nat then None
              else Some (JNum m' ((if eneg then - ev else ev) - Z.of_nat flen),
                         string_drop elen r1)
            else Some (JNum m' (- Z.of_nat flen), s3)
        | EmptyString => Some (JNum m' (- Z.of_nat flen), s3)
        end
    end.

Fixpoint parse_value (fuel : nat) (s : string) : option (JsValue * string) :=
  match fuel with
  | O => None
  | S fuel' =>
      let s0 := skip_ws s in
      match s0 with
      | EmptyString => None
      | String c r =>
          let n := byte_of_ascii c in
          if n =? 34 then
            match parse_string r with
            | Some (t, rest) => Some (JStr t, rest)
            | None => None
            end
          else if n =? 91 then
            match skip_ws r with
            | String c1 r1 =>
                if Ascii.eqb c1 "]" then Some (JArr [], r1)
                else match parse_elements fuel' r with
                     | Some (l, rest) => Some (JArr l, rest)
                     | None => None
                     end
            | EmptyString => None
            end
          else if n =? 123 then
            match skip_ws r with
            | String c1 r1 =>
                if Ascii.eqb c1 "}" then Some (JObj [], r1)
                else match parse_members fuel' r with
                     | Some (l, rest) => Some (JObj l, rest)
                     | None => None
                     end
            | EmptyString => None
            end
          else if String.prefix "true" s0 then Some (JBool true, string_drop 4 s0)
          else if String.prefix "false" s0 then Some (JBool false, string_drop 5 s0)
          else if String.prefix "null" s0 then Some (JNull, string_drop 4 s0)
          else parse_number s0
      end
  end
with parse_elements (fuel : nat) (s : string) : option (list JsValue * string) :=
  match fuel with
  | O => None
  | S fuel' =>
      match parse_value fuel' s with
      | Some (v, rest) =>
          match skip_ws rest with
          | String c r =>
              if Ascii.eqb c "]" then Some ([v], r)
              else if Ascii.eqb c "," then
                match parse_elements fuel' r with
                | Some (l, rest') => Some (v :: l, rest')
                | None => None
                end
              else None
          | EmptyString => None
          end
      | None => None
      end
  end
with parse_members (fuel : nat) (s : string) : option (list (string * JsValue) * string) :=
  match fuel with
  | O => None
  | S fuel' =>
      match skip_ws s with
      | String q r =>
          if byte_of_ascii q =? 34 then
            match parse_string r with
            | Some (k, rest) =>
                match skip_ws rest with
                | String c r1 =>
                    if Ascii.eqb c ":" then
                      match parse_value fuel' r1 with
                      | Some (v, rest1) =>
                          match skip_ws rest1 with
                          | String c2 r2 =>
                              if Ascii.eqb c2 "}" then Some ([(k, v)], r2)
                              else if Ascii.eqb c2 "," then
                                match parse_members fuel' r2 with
                                | Some (l, rest') => Some ((k, v) :: l, rest')
                                | None => None
                                end
                              else None
                          | EmptyString => None
                          end
                      | None => None
                      end
                    else None
                | EmptyString => None
                end
            | None => None
            end
          else None
      | EmptyString => None
      end
  end.

End Json.

(** [JSON.parse(text)]; [None] when it throws a SyntaxError. *)
Definition JSON_parse (text : string) : option JsValue :=
  match Json.parse_value (2 * String.length text + 2) text with
  | Some (v, rest) =>
      match Json.skip_ws rest with
      | EmptyString => Some v
      | String _ _ => None
      end
  | None => None
  end.

(** The double quote, for writing JSON texts. *)
Definition dq : string := String (ascii_of_byte 34) EmptyString.

(** ** The data model: documents of the [jobs] and [users] collections *)

Inductive Status : Type := pending | processing | completed | failed.

Definition Status_eqb (a b : Status) : bool :=
  match a, b with
  | pending, pending | processing, processing
  | completed, completed | failed, failed => true
  | _, _ => false
  end.

(** The string stored in the [status] field. *)
Definition status_string (s : Status) : string :=
  match s with
  | pending => "pending"
  | processing => "processing"
  | completed => "completed"
  | failed => "failed"
  end.

Record Job : Type := mkJob {
  userId : string;
  inputImagePath : string;
  outputVideoPath : option string;
  status : Status;
  danceStyle : string;
  replicateJobId : option string;
  createdAt : Z;
  completedAt : option Z;
  errorMessage : JsValue
}.

Record User : Type := mkUser {
  email : string;
  user_createdAt : Z;
  subscriptionStatus : string;
  revenuecatUserId : string
}.

(** ** The collaborators, seen from a handler *)

(** The calls a handler makes outside the Job Store, in the order made. *)
Inductive Event : Type :=
  | EvVerifyIdToken (idToken : string)
  | EvValidateSubscription (uid : string)
  | EvStorageProbe (path : string)
  | EvStorageExists (path : string)
  | EvGetSignedUrl (path : string)
  | EvCreatePrediction (imageUrl danceStyle : string) (webhook : option string)
  | EvFetch (url : JsValue)
  | EvStorageSave (path : string) (content : list Z).

Inductive TokenResult : Type :=
  | TokenRejected (msg : string)
  | TokenOk (uid email : string).

Inductive FetchResult : Type :=
  | FetchThrows (msg : string)
  | FetchNotOk (code : string)
  | FetchBodyThrows (msg : string)
  | FetchOk (content : list Z).

Inductive PredictionResult : Type :=
  | PredictionThrows (msg : string)
  | PredictionCreated (id : string).

Inductive WebhookUrlResult : Type :=
  | ConfigThrows (msg : string)
  | WebhookUrl (url : option string).

Inductive ExistsResult : Type :=
  | ExistsThrows
  | ExistsIs (b : bool).

(** What the process environment and the collaborators answer during one
    invocation of a handler. *)
Record Env : Type := mkEnv {
  now : Z;
  REPLICATE_WEBHOOK_SECRET : option string;
  REPLICATE_SKIP_WEBHOOK_VERIFY : option string;
  STORAGE_SKIP_PROBE : option string;
  REPLICATE_MOCK : option string;
  MOCK_VIDEO_URL : option string;
  bucket : bool;
  verifyIdToken_result : TokenResult;
  auto_id : string;
  probe_ok : bool;
  webhookUrl_result : WebhookUrlResult;
  createPrediction_result : PredictionResult;
  fetch_result : FetchResult;
  save_result : option string;
  exists_result : ExistsResult;
  getSignedUrl_result : option string
}.

Record World : Type := mkWorld {
  jobs : gmap string Job;
  users : gmap string User;
  calls : list Event
}.

Inductive Body : Type :=
  | BText (text : string)
  | BJson (v : JsValue).

Record Response : Type := mkResponse {
  code : Z;
  body : Body
}.

(** ** Handlers: state, early [return] after a response, and exceptions *)

Inductive Outcome (A : Type) : Type :=
  | Next (a : A)
  | Sent (r : Response)
  | Thrown (msg : string).

Arguments Next {A} a.
Arguments Sent {A} r.
Arguments Thrown {A} msg.

Definition Handler (A : Type) : Type := World -> Outcome A * World.

Definition ret {A : Type} (a : A) : Handler A := fun w => (Next a, w).

Definition bind {A B : Type} (m : Handler A) (k : A -> Handler B) : Handler B :=
  fun w =>
    match m w with
    | (Next a, w') => k a w'
    | (Sent r, w') => (Sent r, w')
    | (Thrown msg, w') => (Thrown msg, w')
    end.

Declare Scope handler_scope.
Delimit Scope handler_scope with handler.
Bind Scope handler_scope with Handler.

Notation "x <- m ;; k" := (bind m (fun x => k))
  (at level 100, m at next level, right associativity) : handler_scope.
Notation "m ;; k" := (bind m (fun _ => k))
  (at level 100, right associativity) : handler_scope.

Local Open Scope handler_scope.

(** [res.status(code)...; return] *)
Definition reply {A : Type} (c : Z) (b : Body) : Handler A :=
  fun w => (Sent (mkResponse c b), w).

Definition throw {A : Type} (msg : string) : Handler A := fun w => (Thrown msg, w).

(** [try { m } catch (e) { h e.message }] *)
Definition try_catch {A : Type} (m : Handler A) (h : string -> Handler A) : Handler A :=
  fun w =>
    match m w with
    | (Thrown msg, w') => h msg w'
    | other => other
    end.

Definition call (e : Event) : Handler unit :=
  fun w => (Next tt, mkWorld (jobs w) (users w) (calls w ++ [e])).

Definition json_error (msg : string) : Body := BJson (JObj [("error", JStr msg)]).

(** [error.message || 'Internal server error'] *)
Definition message_or_default (msg : string) : string :=
  if String.eqb msg "" then "Internal server error" else msg.

Inductive Reply : Type :=
  | Replied (r : Response)
  | Unhandled (msg : string)
  | NoReply.

(** What the platform observes of an invocation. *)
Definition run (h : Handler unit) (w : World) : Reply * World :=
  match h w with
  | (Sent r, w') => (Replied r, w')
  | (Thrown msg, w') => (Unhandled msg, w')
  | (Next _, w') => (NoReply, w')
  end.

(** ** The Job Store *)

(** [jobRef.set(doc)] *)
Definition job_set (id : string) (j : Job) : Handler unit :=
  fun w => (Next tt, mkWorld (<[id := j]> (jobs w)) (users w) (calls w)).

(** [jobRef.update(fields)]: fails on a document that does not exist. *)
Definition job_update (id : string) (f : Job -> Job) : Handler unit :=
  fun w =>
    match jobs w !! id with
    | Some j => (Next tt, mkWorld (<[id := f j]> (jobs w)) (users w) (calls w))
    | None => (Thrown "NOT_FOUND: no document to update", w)
    end.

Definition user_get (id : string) : Handler (option User) :=
  fun w => (Next (users w !! id), w).

Definition user_set (id : string) (u : User) : Handler unit :=
  fun w => (Next tt, mkWorld (jobs w) (<[id := u]> (users w)) (calls w)).

(** A query without [orderBy] returns its documents by ascending id;
    [limit(1)] keeps the first. *)
Definition first_by_id (l : list (string * Job)) : option (string * Job) :=
  List.fold_right
    (fun kj acc =>
       match acc with
       | Some kj' => if String.ltb kj.1 kj'.1 then Some kj else acc
       | None => Some kj
       end)
    None l.

Definition jobs_where (P : Job -> bool) (m : gmap string Job) : list (string * Job) :=
  List.filter (fun kj : string * Job => P kj.2) (map_to_list m).

(** [where('replicateJobId', '==', v)]: a value that is not a string equals
    no stored id. *)
Definition has_replicateJobId (v : JsValue) (j : Job) : bool :=
  match v, replicateJobId j with
  | JStr s, Some s' => String.eqb s s'
  | _, _ => false
  end.

Definition job_by_replicateJobId (v : JsValue) : Handler (option (string * Job)) :=
  fun w => (Next (first_by_id (jobs_where (has_replicateJobId v) (jobs w))), w).

(** The field updates the handlers write. *)
Definition set_failed (msg : JsValue) (t : Z) (j : Job) : Job :=
  mkJob (userId j) (inputImagePath j) (outputVideoPath j) failed (danceStyle j)
        (replicateJobId j) (createdAt j) (Some t) msg.

Definition set_completed (path : string) (t : Z) (j : Job) : Job :=
  mkJob (userId j) (inputImagePath j) (Some path) completed (danceStyle j)
        (replicateJobId j) (createdAt j) (Some t) JNull.

Definition set_completed_mock (path rid : string) (t : Z) (j : Job) : Job :=
  mkJob (userId j) (inputImagePath j) (Some path) completed (danceStyle j)
        (Some rid) (createdAt j) (Some t) JNull.

Definition set_processing (rid : string) (j : Job) : Job :=
  mkJob (userId j) (inputImagePath j) (outputVideoPath j) processing (danceStyle j)
        (Some rid) (createdAt j) (completedAt j) (errorMessage j).

(** ** functions/index.js: shared helpers *)

Record Request : Type := mkRequest {
  method : string;
  authorization : option string;
  req_body : JsValue
}.

Definition STORAGE_UNAVAILABLE_MSG : string :=
  "Video storage is being configured. Please try again later. (Storage requires billing setup)".

Definition FREE_USER_DAILY_LIMIT : nat := 2.

Definition validStyles : list string :=
  ["hip-hop"; "ballet"; "disco"; "breakdance"; "salsa"; "robot"]%string.

(** An environment variable or header that is set and not empty. *)
Definition truthy_opt (o : option string) : option string :=
  match o with
  | Some s => if String.eqb s "" then None else Some s
  | None => None
  end.

(** [process.env.X === '1'] *)
Definition is_1 (o : option string) : bool :=
  match o with
  | Some s => String.eqb s "1"
  | None => false
  end.

(** The text of [s] before the first occurrence of [sep]. *)
Fixpoint take_until (sep s : string) : string :=
  if String.prefix sep s then EmptyString
  else match s with
       | EmptyString => EmptyString
       | String c r => String c (take_until sep r)
       end.

(** [authHeader.split('Bearer ')[1]] for a header that starts with the
    separator. *)
Definition idToken_of (authHeader : string) : string :=
  take_until "Bearer " (string_drop 7 authHeader).

(** The bearer check and [auth.verifyIdToken]: the caller's uid and email. *)
Definition authenticate (env : Env) (req : Request) : Handler (string * string) :=
  match authorization req with
  | Some authHeader =>
      if String.prefix "Bearer " authHeader then
        call (EvVerifyIdToken (idToken_of authHeader));;
        match verifyIdToken_result env with
        | TokenRejected msg => throw msg
        | TokenOk uid mail => ret (uid, mail)
        end
      else reply 401 (json_error "Missing or invalid Authorization header")
  | None => reply 401 (json_error "Missing or invalid Authorization header")
  end.

Fixpoint has_double_slash (s : string) : bool :=
  match s with
  | String a r =>
      match r with
      | String b _ => (Ascii.eqb a "/" && Ascii.eqb b "/") || has_double_slash r
      | EmptyString => false
      end
  | EmptyString => false
  end.

(** The segments of a path relative to a collection: a slash in front or at
    the end is allowed and dropped. *)
Definition path_segments (p : string) : list string :=
  List.filter (fun seg => negb (String.eqb seg "")) (split_char "/" p).

(** The messages of the Firestore client name the argument it refuses. *)
Definition documentPath_argument : string :=
  "Value for argument " +:+ dq +:+ "documentPath" +:+ dq.

(** [db.collection('jobs').doc(jobId)]: the id of the document of [jobs]
    that the reference names. The path must be a non-empty string without
    [//] and name a document; a path of three segments or more names a
    document of a sub-collection, and none exists ([None]). *)
Definition doc (jobId : JsValue) : Handler (option string) :=
  match jobId with
  | JStr p =>
      if String.eqb p "" then
        throw (documentPath_argument
               +:+ " is not a valid resource path. Path must be a non-empty string.")
      else if has_double_slash p then
        throw (documentPath_argument
               +:+ " is not a valid resource path. Paths must not contain //.")
      else
        match path_segments p with
        | [id] => ret (Some id)
        | segs =>
            if Nat.even (length segs) then
              throw (documentPath_argument +:+ " must point to a document, but was "
                     +:+ dq +:+ p +:+ dq
                     +:+ ". Your path does not contain an even number of components.")
            else ret None
        end
  | _ =>
      throw (documentPath_argument
             +:+ " is not a valid resource path. Path must be a non-empty string.")
  end.

(** [jobRef.get()] *)
Definition doc_get (ref : option string) : Handler (option (string * Job)) :=
  match ref with
  | Some id =>
      fun w =>
        (Next match jobs w !! id with
              | Some job => Some (id, job)
              | None => None
              end, w)
  | None => ret None
  end.

Definition getOrCreateUser (env : Env) (uid mail : string) : Handler unit :=
  userSnap <- user_get uid;;
  match userSnap with
  | Some _ => ret tt
  | None => user_set uid (mkUser mail (now env) "none" uid)
  end.

(** helpers/revenuecat.js catches its own failures; the handlers discard
    its answer. *)
Definition validateSubscription (uid : string) : Handler unit :=
  call (EvValidateSubscription uid).

(** The documents that the quota query of [checkRateLimit] selects. *)
Definition counts_toward_quota (uid : string) (dayAgo : Z) (j : Job) : bool :=
  String.eqb (userId j) uid
  && (Status_eqb (status j) processing || Status_eqb (status j) completed)
  && (dayAgo <=? createdAt j).

Definition quota_used (env : Env) (uid : string) (m : gmap string Job) : nat :=
  length (jobs_where (counts_toward_quota uid (now env - 24 * 60 * 60 * 1000)) m).

Definition is_active (user : option User) : bool :=
  match user with
  | Some u => String.eqb (subscriptionStatus u) "active"
  | None => false
  end.

Definition rate_limit_message : string :=
  "Free tier limit: 2 videos per day. Upgrade for unlimited!".

(** [dayAgo.setDate(dayAgo.getDate() - 1)] is taken in a time zone without
    clock changes: one day is 24 hours. *)
Definition checkRateLimit (env : Env) (uid : string) : Handler bool :=
  userDoc <- user_get uid;;
  if is_active userDoc then ret true
  else fun w =>
    if (FREE_USER_DAILY_LIMIT <=? quota_used env uid (jobs w))%nat
    then throw rate_limit_message w
    else ret true w.

Definition verifyStorageWritable (env : Env) (uid jobId : string) : Handler bool :=
  if negb (bucket env) then ret false
  else if is_1 (STORAGE_SKIP_PROBE env) then ret true
  else
    call (EvStorageProbe ("outputs/" +:+ uid +:+ "/" +:+ jobId +:+ "/.probe"));;
    ret (probe_ok env).

Definition outputPath_of (uid jobId : string) : string :=
  "outputs/" +:+ uid +:+ "/" +:+ jobId +:+ "/dance.mp4".

(** helpers/replicate.js, [createPrediction]: the call to the provider. *)
Definition createPrediction (env : Env) (imageUrl style : string) (webhook : option string)
  : Handler string :=
  call (EvCreatePrediction imageUrl style webhook);;
  match createPrediction_result env with
  | PredictionThrows msg => throw msg
  | PredictionCreated id => ret id
  end.

(** [fetch(url)] followed by the [ok] test and [arrayBuffer()]. *)
Definition fetch_bytes (env : Env) (url : JsValue) (prefix : string) : Handler (list Z) :=
  call (EvFetch url);;
  match fetch_result env with
  | FetchThrows msg => throw msg
  | FetchNotOk c => throw (prefix +:+ c)
  | FetchBodyThrows msg => throw msg
  | FetchOk content => ret content
  end.

(** [outputFile.save(buffer, ...)]: [Some msg] when it throws. *)
Definition storage_save (env : Env) (path : string) (content : list Z)
  : Handler (option string) :=
  call (EvStorageSave path content);;
  ret (save_result env).

Definition webhookUrl_of (env : Env) : Handler (option string) :=
  match webhookUrl_result env with
  | ConfigThrows msg => throw msg
  | WebhookUrl u => ret (truthy_opt u)
  end.

(** ** [exports.createJob] *)

Definition createJob (env : Env) (req : Request) : Handler unit :=
  if String.eqb (method req) "OPTIONS" then reply 204 (BText "")
  else if negb (String.eqb (method req) "POST") then
    reply 405 (json_error "Method not allowed")
  else
    try_catch
      (decodedToken <- authenticate env req;;
       let uid := decodedToken.1 in
       let mail := decodedToken.2 in
       let style := get_prop (req_body req) "danceStyle" in
       match style with
       | JStr danceStyle =>
           if String.eqb danceStyle "" then reply 400 (json_error "danceStyle is required")
           else if negb (existsb (String.eqb danceStyle) validStyles) then
             reply 400 (json_error
               "Invalid danceStyle. Allowed: hip-hop, ballet, disco, breakdance, salsa, robot")
           else
             getOrCreateUser env uid mail;;
             validateSubscription uid;;
             let jobId := auto_id env in
             let uploadPath := "uploads/" +:+ uid +:+ "/" +:+ jobId +:+ "/original.jpg" in
             job_set jobId (mkJob uid uploadPath None pending danceStyle None
                                  (now env) None JNull);;
             reply 200 (BJson (JObj [("jobId", JStr jobId); ("uploadPath", JStr uploadPath)]))
       | _ => reply 400 (json_error "danceStyle is required")
       end)
      (fun msg => reply 500 (json_error (message_or_default msg))).

(** ** [exports.startJob] *)

Definition mock_branch (env : Env) (uid id : string) (jobId : JsValue) : Handler unit :=
  let mockVideoUrl :=
    match truthy_opt (MOCK_VIDEO_URL env) with
    | Some u => u
    | None => "https://download.samplelib.com/mp4/sample-5s.mp4"%string
    end in
  let outputPath := outputPath_of uid id in
  try_catch
    (buffer <- fetch_bytes env (JStr mockVideoUrl) "Mock video fetch failed: ";;
     saved <- storage_save env outputPath buffer;;
     match saved with
     | Some msg => throw msg
     | None =>
         job_update id (set_completed_mock outputPath ("mock-" +:+ id) (now env));;
         reply 200 (BJson (JObj [("jobId", jobId); ("status", JStr "completed");
                                 ("mock", JBool true)]))
     end)
    (fun msg => reply 500 (json_error ("Mock mode failed: " +:+ msg))).

(** The part of [startJob] that follows the quota check. *)
Definition start_processing (env : Env) (uid id : string) (jobId : JsValue) (job : Job)
    (clientImageUrl : JsValue) : Handler unit :=
  match clientImageUrl with
  | JStr imageUrl =>
      if String.eqb imageUrl "" then
        reply 400 (json_error
          "imageUrl is required. Upload image first, then call startJob with the download URL.")
      else if negb (String.prefix "http" imageUrl) then
        reply 400 (json_error "imageUrl must be a valid HTTP URL")
      else if negb (bucket env) then
        reply 503 (json_error STORAGE_UNAVAILABLE_MSG)
      else
        canWrite <- verifyStorageWritable env uid id;;
        if negb canWrite then reply 503 (json_error STORAGE_UNAVAILABLE_MSG)
        else if is_1 (REPLICATE_MOCK env) then mock_branch env uid id jobId
        else
          webhookUrl <- webhookUrl_of env;;
          predictionId <- createPrediction env imageUrl (danceStyle job) webhookUrl;;
          job_update id (set_processing predictionId);;
          reply 200 (BJson (JObj [("jobId", jobId);
                                  ("replicateJobId", JStr predictionId);
                                  ("status", JStr "processing")]))
  | _ =>
      reply 400 (json_error
        "imageUrl is required. Upload image first, then call startJob with the download URL.")
  end.

Definition startJob (env : Env) (req : Request) : Handler unit :=
  if String.eqb (method req) "OPTIONS" then reply 204 (BText "")
  else if negb (String.eqb (method req) "POST") then
    reply 405 (json_error "Method not allowed")
  else
    try_catch
      (decodedToken <- authenticate env req;;
       let uid := decodedToken.1 in
       let jobId := get_prop (req_body req) "jobId" in
       let clientImageUrl := get_prop (req_body req) "imageUrl" in
       if negb (truthy jobId) then reply 400 (json_error "jobId is required")
       else
         jobRef <- doc jobId;;
         jobSnap <- doc_get jobRef;;
         match jobSnap with
         | None => reply 404 (json_error "Job not found")
         | Some (id, job) =>
             if negb (String.eqb (userId job) uid) then reply 403 (json_error "Unauthorized")
             else if negb (Status_eqb (status job) pending) then
               reply 400 (json_error ("Job already " +:+ status_string (status job)))
             else
               validateSubscription (userId job);;
               checkRateLimit env uid;;
               start_processing env uid id jobId job clientImageUrl
         end)
      (fun msg => reply 500 (json_error (message_or_default msg))).

(** ** [exports.replicateWebhook] *)

Record WebhookRequest : Type := mkWebhookRequest {
  wh_method : string;
  rawBody : string;
  webhook_id : option string;
  webhook_timestamp : option string;
  webhook_signature : option string
}.

(** Whether the handler calls [verifyWebhookSignature] at all. *)
Definition verification_runs (env : Env) (req : WebhookRequest) : bool :=
  match truthy_opt (REPLICATE_WEBHOOK_SECRET env), truthy_opt (webhook_id req),
        truthy_opt (webhook_timestamp req), truthy_opt (webhook_signature req) with
  | Some _, Some _, Some _, Some _ => negb (is_1 (REPLICATE_SKIP_WEBHOOK_VERIFY env))
  | _, _, _, _ => false
  end.

(** The value of [isValid] when the call is made. *)
Definition signature_valid (env : Env) (req : WebhookRequest) : bool :=
  match truthy_opt (REPLICATE_WEBHOOK_SECRET env), truthy_opt (webhook_id req),
        truthy_opt (webhook_timestamp req), truthy_opt (webhook_signature req) with
  | Some secret, Some webhookId, Some webhookTimestamp, Some webhookSignature =>
      verifyWebhookSignature (now env) (rawBody req) webhookId webhookTimestamp
                             webhookSignature secret
  | _, _, _, _ => false
  end.

Definition signature_gate (env : Env) (req : WebhookRequest) : Handler unit :=
  if verification_runs env req then
    if signature_valid env req then ret tt
    else reply 401 (BText "Invalid signature")
  else ret tt.

(** The locator of the result in the [output] field of a success payload. *)
Definition videoUrl_of (output : JsValue) : JsValue :=
  let videoUrl := if is_string output then output else JNull in
  if negb (truthy videoUrl) && is_object output then
    let v := js_or (js_or (js_or (get_prop output "url") (get_prop output "video"))
                          (get_prop output "output"))
                   (get_index0 output) in
    if isArray v then get_index0 v else v
  else videoUrl.

Definition is_str (v : JsValue) (s : string) : bool :=
  match v with
  | JStr t => String.eqb t s
  | _ => false
  end.

(** The body of the [try] block, after the job has been found. *)
Definition apply_callback (env : Env) (id : string) (job : Job)
    (status output error : JsValue) : Handler unit :=
  if is_str status "succeeded" && truthy output then
    let videoUrl := videoUrl_of output in
    if negb (truthy videoUrl) then throw "No video URL in Replicate output"
    else if negb (bucket env) then
      job_update id (set_failed (JStr STORAGE_UNAVAILABLE_MSG) (now env));;
      reply 200 (BText "OK")
    else
      let outputPath := outputPath_of (userId job) id in
      buffer <- fetch_bytes env videoUrl "Failed to fetch video: ";;
      saved <- storage_save env outputPath buffer;;
      match saved with
      | Some _ =>
          job_update id (set_failed (JStr STORAGE_UNAVAILABLE_MSG) (now env));;
          reply 200 (BText "OK")
      | None => job_update id (set_completed outputPath (now env))
      end
  else if is_str status "failed" then
    job_update id (set_failed (js_or error (JStr "Replicate job failed")) (now env))
  else if is_str status "canceled" then
    job_update id (set_failed (JStr "Job was canceled") (now env))
  else ret tt.

(** From [const replicateJobId = payload.id] to the end of the handler. *)
Definition process_payload (env : Env) (payload : JsValue) : Handler unit :=
  match payload with
  | JNull => throw "Cannot read properties of null (reading 'id')"
  | _ =>
      let replicateJobId := get_prop payload "id" in
      let status := get_prop payload "status" in
      let output := get_prop payload "output" in
      let error := get_prop payload "error" in
      if negb (truthy replicateJobId) then reply 400 (BText "Missing prediction id")
      else
        try_catch
          (jobsSnapshot <- job_by_replicateJobId replicateJobId;;
           match jobsSnapshot with
           | None => reply 200 (BText "OK")
           | Some (id, job) => apply_callback env id job status output error
           end)
          (fun _ => reply 500 (BText "Processing error"));;
        reply 200 (BText "OK")
  end.

Definition replicateWebhook (env : Env) (req : WebhookRequest) : Handler unit :=
  if negb (String.eqb (wh_method req) "POST") then reply 405 (BText "Method not allowed")
  else
    signature_gate env req;;
    match JSON_parse (rawBody req) with
    | None => reply 400 (BText "Invalid JSON")
    | Some payload => process_payload env payload
    end.

(** ** The earlier revision of functions/index.js *)

Module Legacy.

(** [checkRateLimit] of the earlier revision: every job of the user created
    in the last day counts, whatever its status. *)
Definition counts_toward_quota (uid : string) (dayAgo : Z) (j : Job) : bool :=
  String.eqb (userId j) uid && (dayAgo <=? createdAt j).

Definition checkRateLimit (env : Env) (uid : string) : Handler bool :=
  userDoc <- user_get uid;;
  if is_active userDoc then ret true
  else fun w =>
    if (FREE_USER_DAILY_LIMIT
        <=? length (jobs_where (counts_toward_quota uid (now env - 24 * 60 * 60 * 1000))
                               (jobs w)))%nat
    then throw rate_limit_message w
    else ret true w.

(** The storage part of [startJob]: its own [try] block answers 503 on a
    storage error. *)
Definition signed_input (env : Env) (id : string) (job : Job) : Handler string :=
  try_catch
    (call (EvStorageExists (inputImagePath job));;
     match exists_result env with
     | ExistsThrows => throw "storage"
     | ExistsIs false =>
         job_update id (set_failed (JStr "Image not uploaded") (now env));;
         reply 400 (json_error "Image not found. Please upload first.")
     | ExistsIs true =>
         call (EvGetSignedUrl (inputImagePath job));;
         match getSignedUrl_result env with
         | Some url => ret url
         | None => throw "storage"
         end
     end)
    (fun _ => reply 503 (json_error STORAGE_UNAVAILABLE_MSG)).

Definition startJob (env : Env) (req : Request) : Handler unit :=
  if String.eqb (method req) "OPTIONS" then reply 204 (BText "")
  else if negb (String.eqb (method req) "POST") then
    reply 405 (json_error "Method not allowed")
  else
    try_catch
      (decodedToken <- authenticate env req;;
       let uid := decodedToken.1 in
       let jobId := get_prop (req_body req) "jobId" in
       if negb (truthy jobId) then reply 400 (json_error "jobId is required")
       else
         jobRef <- doc jobId;;
         jobSnap <- doc_get jobRef;;
         match jobSnap with
         | None => reply 404 (json_error "Job not found")
         | Some (id, job) =>
             if negb (String.eqb (userId job) uid) then reply 403 (json_error "Unauthorized")
             else if negb (Status_eqb (status job) pending) then
               reply 400 (json_error ("Job already " +:+ status_string (status job)))
             else
               validateSubscription (userId job);;
               if negb (bucket env) then reply 503 (json_error STORAGE_UNAVAILABLE_MSG)
               else
                 imageUrl <- signed_input env id job;;
                 webhookUrl <- webhookUrl_of env;;
                 predictionId <- createPrediction env imageUrl (danceStyle job) webhookUrl;;
                 job_update id (set_processing predictionId);;
                 reply 200 (BJson (JObj [("jobId", jobId);
                                         ("replicateJobId", JStr predictionId);
                                         ("status", JStr "processing")]))
         end)
      (fun msg => reply 500 (json_error (message_or_default msg))).

(** The webhook of the earlier revision: [rawBody] of the request is the
    value of its first statement, [parsed] is [req.body]. *)
Definition verification_runs (env : Env) (req : WebhookRequest) : bool :=
  match truthy_opt (REPLICATE_WEBHOOK_SECRET env), truthy_opt (webhook_id req),
        truthy_opt (webhook_timestamp req), truthy_opt (webhook_signature req) with
  | Some _, Some _, Some _, Some _ => true
  | _, _, _, _ => false
  end.

Definition signature_gate (env : Env) (req : WebhookRequest) : Handler unit :=
  if verification_runs env req then
    if signature_valid env req then ret tt
    else reply 401 (BText "Invalid signature")
  else ret tt.

Definition replicateWebhook (env : Env) (req : WebhookRequest) (parsed : JsValue)
  : Handler unit :=
  if negb (String.eqb (wh_method req) "POST") then reply 405 (BText "Method not allowed")
  else
    signature_gate env req;;
    if is_object parsed then process_payload env parsed
    else match JSON_parse (rawBody req) with
         | None => reply 400 (BText "Invalid JSON")
         | Some payload => process_payload env payload
         end.

End Legacy.

(** ** Sequences of invocations *)

Inductive Op : Type :=
  | OpCreateJob (env : Env) (req : Request)
  | OpStartJob (env : Env) (req : Request)
  | OpWebhook (env : Env) (req : WebhookRequest).

(** An invocation that runs alone, from its request to its reply: no other
    invocation touches the store in the meantime. *)
Definition step (op : Op) (w : World) : Reply * World :=
  match op with
  | OpCreateJob env req => run (createJob env req) w
  | OpStartJob env req => run (startJob env req) w
  | OpWebhook env req => run (replicateWebhook env req) w
  end.

(** [db.collection('jobs').doc()] draws an id that no document has. *)
Definition auto_id_fresh (op : Op) (w : World) : bool :=
  match op with
  | OpCreateJob env _ =>
      match jobs w !! auto_id env with
      | None => true
      | Some _ => false
      end
  | _ => true
  end.

(** Invocations that run one at a time, in the order of the list. *)
Fixpoint exec (ops : list Op) (w : World) : World :=
  match ops with
  | [] => w
  | op :: rest => exec rest (step op w).2
  end.

Fixpoint admissible (ops : list Op) (w : World) : bool :=
  match ops with
  | [] => true
  | op :: rest => auto_id_fresh op w && admissible rest (step op w).2
  end.

(** The order of the life cycle: [pending], then [processing], then the two
    terminal states. *)
Definition rank (s : Status) : nat :=
  match s with
  | pending => 0
  | processing => 1
  | completed | failed => 2
  end.

Definition terminal (s : Status) : bool :=
  match s with
  | completed | failed => true
  | _ => false
  end.

(** ** Invocations that overlap *)

(** [startJob] holds no lock and runs no transaction: it reads the job,
    awaits the quota, the probe of storage and the provider, and then
    updates the document whatever it has become in the meantime. The
    handler is cut here at its last [await]. [ask_provider] is
    [start_processing] up to the answer of the provider: its result is the
    document and the prediction that remain to be recorded (none in the
    mock mode, which is left in one piece). *)
Definition ask_provider (env : Env) (uid id : string) (jobId : JsValue) (job : Job)
    (clientImageUrl : JsValue) : Handler (option (string * string)) :=
  match clientImageUrl with
  | JStr imageUrl =>
      if String.eqb imageUrl "" then
        reply 400 (json_error
          "imageUrl is required. Upload image first, then call startJob with the download URL.")
      else if negb (String.prefix "http" imageUrl) then
        reply 400 (json_error "imageUrl must be a valid HTTP URL")
      else if negb (bucket env) then
        reply 503 (json_error STORAGE_UNAVAILABLE_MSG)
      else
        canWrite <- verifyStorageWritable env uid id;;
        if negb canWrite then reply 503 (json_error STORAGE_UNAVAILABLE_MSG)
        else if is_1 (REPLICATE_MOCK env) then mock_branch env uid id jobId;; ret None
        else
          webhookUrl <- webhookUrl_of env;;
          predictionId <- createPrediction env imageUrl (danceStyle job) webhookUrl;;
          ret (Some (id, predictionId))
  | _ =>
      reply 400 (json_error
        "imageUrl is required. Upload image first, then call startJob with the download URL.")
  end.

(** The first part of an invocation of [startJob]: from the request to the
    answer of the provider. *)
Definition startJob_asks (env : Env) (req : Request) : Handler (option (string * string)) :=
  if String.eqb (method req) "OPTIONS" then reply 204 (BText "")
  else if negb (String.eqb (method req) "POST") then
    reply 405 (json_error "Method not allowed")
  else
    try_catch
      (decodedToken <- authenticate env req;;
       let uid := decodedToken.1 in
       let jobId := get_prop (req_body req) "jobId" in
       let clientImageUrl := get_prop (req_body req) "imageUrl" in
       if negb (truthy jobId) then reply 400 (json_error "jobId is required")
       else
         jobRef <- doc jobId;;
         jobSnap <- doc_get jobRef;;
         match jobSnap with
         | None => reply 404 (json_error "Job not found")
         | Some (id, job) =>
             if negb (String.eqb (userId job) uid) then reply 403 (json_error "Unauthorized")
             else if negb (Status_eqb (status job) pending) then
               reply 400 (json_error ("Job already " +:+ status_string (status job)))
             else
               validateSubscription (userId job);;
               checkRateLimit env uid;;
               ask_provider env uid id jobId job clientImageUrl
         end)
      (fun msg => reply 500 (json_error (message_or_default msg))).

(** The second part: the update of the document and the reply, under the
    same [catch]. *)
Definition startJob_records (req : Request) (remains : option (string * string))
  : Handler unit :=
  match remains with
  | Some (id, predictionId) =>
      try_catch
        (job_update id (set_processing predictionId);;
         reply 200 (BJson (JObj [("jobId", get_prop (req_body req) "jobId");
                                 ("replicateJobId", JStr predictionId);
                                 ("status", JStr "processing")])))
        (fun msg => reply 500 (json_error (message_or_default msg)))
  | None => ret tt
  end.

(** ** Vocabulary of the statements *)

Definition is_byte (b : Z) : Prop := 0 <= b < 256.

Definition in64 (v : Z) : bool := (0 <=? v) && (v <? 64).

(** A bounded universal quantifier that computes. *)
Definition all_below (n : nat) (P : Z -> bool) : bool :=
  forallb P (map Z.of_nat (seq 0 n)).

Fixpoint contains_char (c : ascii) (s : string) : bool :=
  match s with
  | EmptyString => false
  | String d r => Ascii.eqb d c || contains_char c r
  end.

(** One element of a [webhook-signature] header: a signature, alone or
    after a version tag and a comma. *)
Definition render (c : option string * string) : string :=
  match c.1 with
  | Some tag => tag +:+ "," +:+ c.2
  | None => c.2
  end.

Fixpoint header_of (c : option string * string) (cs : list (option string * string))
  : string :=
  match cs with
  | [] => render c
  | c' :: r => render c +:+ " " +:+ header_of c' r
  end.

Definition well_formed_candidate (c : option string * string) : Prop :=
  match c.1 with
  | Some tag => contains_char " " tag = false
  | None => True
  end
  /\ contains_char " " c.2 = false /\ contains_char "," c.2 = false.

(** The request passes the signature gate of the webhook: the verification
    succeeds or, by configuration or for want of headers, is not run. *)
Definition accepted (env : Env) (req : WebhookRequest) : bool :=
  negb (verification_runs env req) || signature_valid env req.

(** The payload is a success report with an [output] that counts as
    present. *)
Definition is_success (payload : JsValue) : bool :=
  is_str (get_prop payload "status") "succeeded" && truthy (get_prop payload "output").

(** The job that the callback is routed to. *)
Definition routed_job (payload : JsValue) (w : World) : option (string * Job) :=
  first_by_id (jobs_where (has_replicateJobId (get_prop payload "id")) (jobs w)).

Definition with_job (id : string) (j : Job) (w : World) (cs : list Event) : World :=
  mkWorld (<[id := j]> (jobs w)) (users w) (calls w ++ cs).

Definition ok_reply : Reply := Replied (mkResponse 200 (BText "OK")).

Definition processing_error : Reply := Replied (mkResponse 500 (BText "Processing error")).

(** The status of every job of [w] is at least as advanced in [w']. *)
Definition never_backwards (w w' : World) : Prop :=
  forall id j, jobs w !! id = Some j ->
    exists j', jobs w' !! id = Some j' /\ (rank (status j) <= rank (status j'))%nat.

(** The changes of status that one invocation can make: the steps of the
    life cycle, the short cut of the mock mode, and the rewriting of a
    terminal status by a later callback. *)
Definition transition (s s' : Status) : Prop :=
  s' = s
  \/ (s = pending /\ (s' = processing \/ s' = completed))
  \/ (s = processing /\ terminal s' = true)
  \/ (terminal s = true /\ terminal s' = true).

(** A job that was not started has no prediction. *)
Definition pending_unrouted (w : World) : Prop :=
  forall id j, jobs w !! id = Some j -> status j = pending -> replicateJobId j = None.

(** Every completed job points to the output path derived from its owner
    and its id. *)
Definition canonical_output (w : World) : Prop :=
  forall id j, jobs w !! id = Some j -> status j = completed ->
    outputVideoPath j = Some (outputPath_of (userId j) id).

Definition storage_writes (cs : list Event) : nat :=
  length (List.filter (fun e => match e with EvStorageSave _ _ => true | _ => false end) cs).

Definition inference_calls (cs : list Event) : nat :=
  length (List.filter (fun e => match e with EvCreatePrediction _ _ _ => true | _ => false end) cs).

(** ** A worked scenario *)

Definition empty_world : World := mkWorld ∅ ∅ [].

Definition sample_env : Env :=
  {| now := 1700000000000;
     REPLICATE_WEBHOOK_SECRET := Some "whsec_abc"%string;
     REPLICATE_SKIP_WEBHOOK_VERIFY := None;
     STORAGE_SKIP_PROBE := None;
     REPLICATE_MOCK := None;
     MOCK_VIDEO_URL := None;
     bucket := true;
     verifyIdToken_result := TokenOk "u1" "u1@example.com";
     auto_id := "j1"%string;
     probe_ok := true;
     webhookUrl_result :=
       WebhookUrl (Some "https://us-central1-petdance.cloudfunctions.net/replicateWebhook"%string);
     createPrediction_result := PredictionCreated "pred-1";
     fetch_result := FetchOk [0; 0; 0; 24];
     save_result := None;
     exists_result := ExistsIs false;
     getSignedUrl_result := Some "https://storage.example/signed"%string |}.

(** The same environment one minute later. *)
Definition later_env : Env :=
  {| now := 1700000060000;
     REPLICATE_WEBHOOK_SECRET := REPLICATE_WEBHOOK_SECRET sample_env;
     REPLICATE_SKIP_WEBHOOK_VERIFY := None;
     STORAGE_SKIP_PROBE := None;
     REPLICATE_MOCK := None;
     MOCK_VIDEO_URL := None;
     bucket := true;
     verifyIdToken_result := verifyIdToken_result sample_env;
     auto_id := "j2"%string;
     probe_ok := true;
     webhookUrl_result := webhookUrl_result sample_env;
     createPrediction_result := PredictionCreated "pred-2";
     fetch_result := fetch_result sample_env;
     save_result := None;
     exists_result := ExistsIs false;
     getSignedUrl_result := getSignedUrl_result sample_env |}.

Definition bearer_request (b : JsValue) : Request :=
  mkRequest "POST" (Some "Bearer token-of-u1"%string) b.

Definition create_request : Request :=
  bearer_request (JObj [("danceStyle", JStr "disco")]%string).

Definition start_request : Request :=
  bearer_request (JObj [("jobId", JStr "j1"); ("imageUrl", JStr "https://cdn/pet.jpg")]%string).

Definition json_string (s : string) : string := dq +:+ s +:+ dq.

Definition json_member (k v : string) : string := json_string k +:+ ":" +:+ v.

Definition success_body : string :=
  "{" +:+ json_member "id" (json_string "pred-1") +:+ ","
      +:+ json_member "status" (json_string "succeeded") +:+ ","
      +:+ json_member "output" (json_string "https://cdn/vid.mp4") +:+ "}".

Definition failure_body : string :=
  "{" +:+ json_member "id" (json_string "pred-1") +:+ ","
      +:+ json_member "status" (json_string "failed") +:+ ","
      +:+ json_member "error" (json_string "out of memory") +:+ "}".

Definition no_locator_body : string :=
  "{" +:+ json_member "id" (json_string "pred-1") +:+ ","
      +:+ json_member "status" (json_string "succeeded") +:+ ","
      +:+ json_member "output" "{}" +:+ "}".

Definition progress_body : string :=
  "{" +:+ json_member "id" (json_string "pred-1") +:+ ","
      +:+ json_member "status" (json_string "processing") +:+ "}".

(** A callback signed with the secret of [sample_env]. *)
Definition signed_request (b : string) : WebhookRequest :=
  mkWebhookRequest "POST" b (Some "msg_1"%string) (Some "1700000000"%string)
    (Some ("v1," +:+ expectedSignature b "msg_1" "1700000000" "whsec_abc")).

(** A callback without any signature header. *)
Definition unsigned_request (b : string) : WebhookRequest :=
  mkWebhookRequest "POST" b None None None.

(** A job is created, started, and reported as succeeded. *)
Definition scenario : list Op :=
  [OpCreateJob sample_env create_request;
   OpStartJob sample_env start_request;
   OpWebhook sample_env (signed_request success_body)].

(** The store after the job was created and started. *)
Definition started_world : World := exec (firstn 2 scenario) empty_world.

(** The store at the end of the scenario. *)
Definition completed_world : World := exec scenario empty_world.

Definition completed_j1 : Job :=
  {| userId := "u1";
     inputImagePath := "uploads/u1/j1/original.jpg";
     outputVideoPath := Some "outputs/u1/j1/dance.mp4"%string;
     status := completed;
     danceStyle := "disco";
     replicateJobId := Some "pred-1"%string;
     createdAt := 1700000000000;
     completedAt := Some 1700000000000;
     errorMessage := JNull |}.

Definition processing_j1 : Job :=
  {| userId := "u1";
     inputImagePath := "uploads/u1/j1/original.jpg";
     outputVideoPath := None;
     status := processing;
     danceStyle := "disco";
     replicateJobId := Some "pred-1"%string;
     createdAt := 1700000000000;
     completedAt := None;
     errorMessage := JNull |}.

(** The signature of another body: the request fails the verification. *)
Definition tampered_request : WebhookRequest :=
  mkWebhookRequest "POST" failure_body (Some "msg_1"%string) (Some "1700000000"%string)
    (webhook_signature (signed_request success_body)).

(** A free user with two running jobs of the last day and a third, pending
    one. *)
Definition running_job (rid : string) (t : Z) : Job :=
  {| userId := "u1";
     inputImagePath := "uploads/u1/x/original.jpg";
     outputVideoPath := None;
     status := processing;
     danceStyle := "disco";
     replicateJobId := Some rid;
     createdAt := t;
     completedAt := None;
     errorMessage := JNull |}.

Definition pending_j3 : Job :=
  {| userId := "u1";
     inputImagePath := "uploads/u1/j3/original.jpg";
     outputVideoPath := None;
     status := pending;
     danceStyle := "disco";
     replicateJobId := None;
     createdAt := 1700000000000;
     completedAt := None;
     errorMessage := JNull |}.

Definition busy_world : World :=
  {| jobs := <["a1" := running_job "p1" 1699990000000]>
               (<["a2" := running_job "p2" 1699995000000]>
                  (<["j3" := pending_j3]> ∅));
     users := <["u1" := mkUser "u1@example.com" 1690000000000 "none" "u1"]> ∅;
     calls := [] |}.

Definition start_j3_request : Request :=
  bearer_request (JObj [("jobId", JStr "j3"); ("imageUrl", JStr "https://cdn/pet.jpg")]%string).

(** A success report whose [output] is an empty array. *)
Definition empty_output_body : string :=
  "{" +:+ json_member "id" (json_string "pred-1") +:+ ","
      +:+ json_member "status" (json_string "succeeded") +:+ ","
      +:+ json_member "output" "[]" +:+ "}".

(** The store after the job was created, started, and reported as failed. *)
Definition failed_world : World :=
  exec (firstn 2 scenario ++ [OpWebhook sample_env (signed_request failure_body)]) empty_world.

(** The same environment with another answer of the identity provider and
    of the inference provider. *)
Definition sample_env_of (token : TokenResult) (prediction : PredictionResult) : Env :=
  {| now := now sample_env;
     REPLICATE_WEBHOOK_SECRET := REPLICATE_WEBHOOK_SECRET sample_env;
     REPLICATE_SKIP_WEBHOOK_VERIFY := None;
     STORAGE_SKIP_PROBE := None;
     REPLICATE_MOCK := None;
     MOCK_VIDEO_URL := None;
     bucket := true;
     verifyIdToken_result := token;
     auto_id := auto_id sample_env;
     probe_ok := true;
     webhookUrl_result := webhookUrl_result sample_env;
     createPrediction_result := prediction;
     fetch_result := fetch_result sample_env;
     save_result := None;
     exists_result := ExistsIs false;
     getSignedUrl_result := getSignedUrl_result sample_env |}.

(** Another user, whose token is accepted. *)
Definition u2_env : Env :=
  sample_env_of (TokenOk "u2" "u2@example.com") (createPrediction_result sample_env).

(** The provider of an invocation that is overtaken answers [pred-0]. *)
Definition overtaken_env : Env :=
  sample_env_of (verifyIdToken_result sample_env) (PredictionCreated "pred-0").

(** Requests that name no job: without [jobId], and with the path of the
    collection in front of the id. *)
Definition start_without_jobId : Request :=
  bearer_request (JObj [("imageUrl", JStr "https://cdn/pet.jpg")]%string).

Definition start_with_full_path : Request :=
  bearer_request (JObj [("jobId", JStr "jobs/j1");
                        ("imageUrl", JStr "https://cdn/pet.jpg")]%string).

(** The expected signature of the body [{}] without its final padding. *)
Definition unpadded_header : string := "v1,dWBzc6Wq1qY3RhXpsQmvNUUlNaNww3B2e4l6GLDJMZI".

(** ** Proof automation *)

(** One step of the symbolic run of a handler: rewrite a known lookup, else
    split on the innermost test that the goal is waiting for. *)
Ltac step :=
  cbn beta iota; cbn [jobs users calls fst snd];
  match goal with
  | H : jobs ?w !! ?id = Some _ |- context [jobs ?w !! ?id] => rewrite H
  | |- context [match ?x with _ => _ end] =>
      lazymatch x with
      | context [match _ with _ => _ end] => fail
      | _ => destruct x eqn:?
      end
  end.

(** ** Dates: [Date.prototype.toISOString] *)

(** The year, month and day of the day number [z], counted from the first
    of January 1970, in the proleptic Gregorian calendar. *)
Definition civil_of_days (z : Z) : Z * Z * Z :=
  let shifted := z + 719468 in
  let era := shifted / 146097 in
  let doe := shifted - era * 146097 in
  let yoe := (doe - doe / 1460 + doe / 36524 - doe / 146096) / 365 in
  let doy := doe - (365 * yoe + yoe / 4 - yoe / 100) in
  let mp := (5 * doy + 2) / 153 in
  let d := doy - (153 * mp + 2) / 5 + 1 in
  let m := if mp <? 10 then mp + 3 else mp - 9 in
  (yoe + era * 400 + (if m <=? 2 then 1 else 0), m, d).

(** The last [width] decimal digits of [n]. *)
Fixpoint decimal (width : nat) (n : Z) : string :=
  match width with
  | O => EmptyString
  | S k => decimal k (n / 10) +:+ String (ascii_of_byte (48 + n mod 10)) EmptyString
  end.

(** [new Date(t).toISOString()]; [None] when it throws a RangeError, the
    time value being out of the range of [Date]. *)
Definition toISOString (t : Z) : option string :=
  if Z.abs t <=? 8640000000000000 then
    let '(y, m, d) := civil_of_days (t / 86400000) in
    let ms := t mod 86400000 in
    let year :=
      if (0 <=? y) && (y <=? 9999) then decimal 4 y
      else (if y <? 0 then "-" else "+") +:+ decimal 6 (Z.abs y) in
    Some (year +:+ "-" +:+ decimal 2 m +:+ "-" +:+ decimal 2 d
          +:+ "T" +:+ decimal 2 (ms / 3600000)
          +:+ ":" +:+ decimal 2 (ms / 60000 mod 60)
          +:+ ":" +:+ decimal 2 (ms / 1000 mod 60)
          +:+ "." +:+ decimal 3 (ms mod 1000) +:+ "Z")
  else None.


(** ** [exports.getDownloadUrl] *)

(** [job.status === 'completed' && job.outputVideoPath]: the path of the
    video when the job has one to show. *)
Definition ready_video (job : Job) : option string :=
  if Status_eqb (status job) completed then truthy_opt (outputVideoPath job) else None.

Definition getDownloadUrl (env : Env) (req : Request) : Handler unit :=
  if String.eqb (method req) "OPTIONS" then reply 204 (BText "")
  else if negb (String.eqb (method req) "POST") then
    reply 405 (json_error "Method not allowed")
  else
    try_catch
      (decodedToken <- authenticate env req;;
       let uid := decodedToken.1 in
       let jobId := get_prop (req_body req) "jobId" in
       if negb (truthy jobId) then reply 400 (json_error "jobId is required")
       else
         jobRef <- doc jobId;;
         jobSnap <- doc_get jobRef;;
         match jobSnap with
         | None => reply 404 (json_error "Job not found")
         | Some (id, job) =>
             if negb (String.eqb (userId job) uid) then reply 403 (json_error "Unauthorized")
             else
               match ready_video job with
               | Some path =>
                   reply 200 (BJson (JObj [("outputVideoPath", JStr path);
                                           ("expiresIn", JNum 3600 0)]))
               | None => reply 400 (json_error "Video not ready for download")
               end
         end)
      (fun msg => reply 500 (json_error (message_or_default msg))).

(** ** [exports.getJobStatus] *)

(** A GET request: the job is named by the query parameter [jobId], which
    the query parser gives as a string, an array or an object, and leaves
    undefined when the parameter is absent. *)
Record StatusRequest : Type := mkStatusRequest {
  st_method : string;
  st_authorization : option string;
  query_jobId : JsValue
}.

(** [t?.toDate?.()?.toISOString?.()] for a field that holds a timestamp
    or [null]. *)
Definition iso_value (t : option Z) : option JsValue :=
  match t with
  | Some ms => option_map JStr (toISOString ms)
  | None => Some JUndefined
  end.

Definition iso_field (t : option Z) : Handler JsValue :=
  match iso_value t with
  | Some v => ret v
  | None => throw "Invalid time value"
  end.

Definition getJobStatus (env : Env) (req : StatusRequest) : Handler unit :=
  if String.eqb (st_method req) "OPTIONS" then reply 204 (BText "")
  else if negb (String.eqb (st_method req) "GET") then
    reply 405 (json_error "Method not allowed")
  else
    try_catch
      (decodedToken <-
         authenticate env (mkRequest (st_method req) (st_authorization req) JUndefined);;
       let uid := decodedToken.1 in
       let jobId := query_jobId req in
       if negb (truthy jobId) then reply 400 (json_error "jobId query param required")
       else
         jobRef <- doc jobId;;
         jobSnap <- doc_get jobRef;;
         match jobSnap with
         | None => reply 404 (json_error "Job not found")
         | Some (id, job) =>
             if negb (String.eqb (userId job) uid) then reply 403 (json_error "Unauthorized")
             else
               created <- iso_field (Some (createdAt job));;
               finished <- iso_field (completedAt job);;
               let data :=
                 [("jobId", jobId);
                  ("status", JStr (status_string (status job)));
                  ("danceStyle", JStr (danceStyle job));
                  ("createdAt", created);
                  ("completedAt", finished);
                  ("errorMessage", errorMessage job)]%string in
               match ready_video job with
               | Some path =>
                   reply 200 (BJson (JObj (data ++ [("outputVideoPath", JStr path)]%string)))
               | None => reply 200 (BJson (JObj data))
               end
         end)
      (fun msg => reply 500 (json_error (message_or_default msg))).

(** ** The earlier revision: [createJob] and [getDownloadUrl] *)

Module Earlier.

(** The quota is checked when the job is created, and the reply carries a
    signed URL for the upload. [Date.now()] is [now env] at each of its
    uses. *)
Definition createJob (env : Env) (req : Request) : Handler unit :=
  if String.eqb (method req) "OPTIONS" then reply 204 (BText "")
  else if negb (String.eqb (method req) "POST") then
    reply 405 (json_error "Method not allowed")
  else
    try_catch
      (decodedToken <- authenticate env req;;
       let uid := decodedToken.1 in
       let mail := decodedToken.2 in
       let style := get_prop (req_body req) "danceStyle" in
       match style with
       | JStr danceStyle =>
           if String.eqb danceStyle "" then reply 400 (json_error "danceStyle is required")
           else if negb (existsb (String.eqb danceStyle) validStyles) then
             reply 400 (json_error
               "Invalid danceStyle. Allowed: hip-hop, ballet, disco, breakdance, salsa, robot")
           else
             getOrCreateUser env uid mail;;
             Legacy.checkRateLimit env uid;;
             validateSubscription uid;;
             if negb (bucket env) then reply 503 (json_error STORAGE_UNAVAILABLE_MSG)
             else
               let jobId := auto_id env in
               let inputPath := "uploads/" +:+ uid +:+ "/" +:+ jobId +:+ "/original.jpg" in
               job_set jobId (mkJob uid inputPath None pending danceStyle None
                                    (now env) None JNull);;
               call (EvGetSignedUrl inputPath);;
               match getSignedUrl_result env with
               | None => reply 503 (json_error STORAGE_UNAVAILABLE_MSG)
               | Some uploadUrl =>
                   expiresAt <- iso_field (Some (now env + 15 * 60 * 1000));;
                   reply 200 (BJson (JObj [("jobId", JStr jobId);
                                           ("uploadUrl", JStr uploadUrl);
                                           ("expiresAt", expiresAt);
                                           ("inputPath", JStr inputPath)]))
               end
       | _ => reply 400 (json_error "danceStyle is required")
       end)
      (fun msg => reply 500 (json_error (message_or_default msg))).

Definition getDownloadUrl (env : Env) (req : Request) : Handler unit :=
  if String.eqb (method req) "OPTIONS" then reply 204 (BText "")
  else if negb (String.eqb (method req) "POST") then
    reply 405 (json_error "Method not allowed")
  else
    try_catch
      (decodedToken <- authenticate env req;;
       let uid := decodedToken.1 in
       let jobId := get_prop (req_body req) "jobId" in
       if negb (truthy jobId) then reply 400 (json_error "jobId is required")
       else
         jobRef <- doc jobId;;
         jobSnap <- doc_get jobRef;;
         match jobSnap with
         | None => reply 404 (json_error "Job not found")
         | Some (id, job) =>
             if negb (String.eqb (userId job) uid) then reply 403 (json_error "Unauthorized")
             else
               match ready_video job with
               | Some path =>
                   if negb (bucket env) then reply 503 (json_error STORAGE_UNAVAILABLE_MSG)
                   else
                     call (EvGetSignedUrl path);;
                     match getSignedUrl_result env with
                     | None => reply 503 (json_error STORAGE_UNAVAILABLE_MSG)
                     | Some url =>
                         reply 200 (BJson (JObj [("downloadUrl", JStr url);
                                                 ("expiresIn", JNum 3600 0)]))
                     end
               | None => reply 400 (json_error "Video not ready for download")
               end
         end)
      (fun msg => reply 500 (json_error (message_or_default msg))).

End Earlier.

(** ** scripts/grant-pro.js *)

(** The script marks the user document of its argument as ['active'],
    creating it when it is missing. It also stamps [grantedProAt], a field
    that no function reads and that [User] does not keep. An argument that
    names a document of a sub-collection touches no document of [users]. *)
Definition grant_pro (t : Z) (arg : option string) : Handler unit :=
  match truthy_opt arg with
  | None => ret tt
  | Some uid =>
      userRef <- doc (JStr uid);;
      match userRef with
      | Some id =>
          snap <- user_get id;;
          match snap with
          | None => user_set id (mkUser "" t "active" uid)
          | Some u =>
              user_set id (mkUser (email u) (user_createdAt u) "active" (revenuecatUserId u))
          end
      | None => ret tt
      end
  end.

(** ** helpers/replicate.js: [createPrediction] and [getModelVersion] *)

(** [s.includes(pat)] *)
Fixpoint includes (pat s : string) : bool :=
  String.prefix pat s
  || match s with
     | EmptyString => false
     | String _ r => includes pat r
     end.

Module Replicate.

(** The answer to the request for the versions of a model: the request or
    the reading of its body fails; the status is not a success; or the body
    is read, and [latest_id] is the text of [latest.id] when [results[0]]
    counts as present. *)
Inductive VersionsAnswer : Type :=
  | VersionsThrow (msg : string)
  | VersionsNotOk
  | VersionsRead (latest_id : option string).

(** The answer to the creation of a prediction; [status] is the text of
    the status code. *)
Inductive PredictionsAnswer : Type :=
  | PredictionsThrow (msg : string)
  | PredictionsNotOk (status text : string)
  | PredictionsRead (prediction : JsValue).

Record Provider : Type := mkProvider {
  REPLICATE_API_TOKEN : option string;
  REPLICATE_MODEL : option string;
  versions_answer : VersionsAnswer;
  predictions_answer : PredictionsAnswer
}.

(** The requests sent to the provider. *)
Inductive HttpCall : Type :=
  | GetVersions (url authorization : string)
  | PostPrediction (authorization : string) (payload : JsValue).

(** The result of an [async] function: the requests it made, and the
    message of the error it threw or the value it returned. *)
Definition Async (A : Type) : Type := list HttpCall * (string + A).

(** The text of an environment variable inside a template. *)
Definition text_of (o : option string) : string :=
  match o with
  | Some s => s
  | None => "undefined"
  end.

Definition getModelVersion (p : Provider) (modelId : string) : Async string :=
  let apiToken := REPLICATE_API_TOKEN p in
  let parts := split_char "/" modelId in
  let owner := nth_error parts 0 in
  let name := nth_error parts 1 in
  let request :=
    GetVersions ("https://api.replicate.com/v1/models/" +:+ text_of owner +:+ "/"
                 +:+ text_of name +:+ "/versions")
                ("Bearer " +:+ text_of apiToken) in
  match versions_answer p with
  | VersionsThrow msg => ([request], inl msg)
  | VersionsNotOk => ([request], inr modelId)
  | VersionsRead None => ([request], inr modelId)
  | VersionsRead (Some id) => ([request], inr (modelId +:+ ":" +:+ id))
  end.

(** [a || b] on strings that may be undefined. *)
Definition or_else (a b : option string) : option string :=
  match truthy_opt a with
  | Some s => Some s
  | None => truthy_opt b
  end.

Definition prompt_of (danceStyle : string) : string :=
  "A cute pet dancing in " +:+ danceStyle +:+ " style, smooth motion, professional quality".

(** The [input] of the later revision, by family of models. *)
Definition input_of (modelConfig imageUrl danceStyle : string) : JsValue :=
  if includes "hailuo" modelConfig then
    JObj [("first_frame_image", JStr imageUrl);
          ("prompt", JStr (prompt_of danceStyle));
          ("duration", JNum 6 0);
          ("resolution", JStr "768p");
          ("prompt_optimizer", JBool true)]
  else if String.prefix "minimax/" modelConfig then
    JObj [("prompt", JStr (prompt_of danceStyle)); ("image", JStr imageUrl)]
  else if String.prefix "stability-ai/" modelConfig then
    JObj [("image", JStr imageUrl); ("motion_bucket_id", JNum 127 0); ("fps", JNum 6 0)]
  else
    JObj [("image", JStr imageUrl);
          ("prompt", JStr ("Pet dancing in " +:+ danceStyle +:+ " style"))].

(** The [input] of the earlier revision. *)
Definition earlier_input_of (modelConfig imageUrl danceStyle : string) : JsValue :=
  if String.prefix "minimax/" modelConfig then
    JObj [("prompt", JStr (prompt_of danceStyle)); ("image", JStr imageUrl)]
  else
    JObj [("image", JStr imageUrl); ("motion_bucket_id", JNum 127 0); ("fps", JNum 6 0)].

Definition payload_of (version : string) (input : JsValue) (webhookUrl : option string)
  : JsValue :=
  JObj ([("version", JStr version); ("input", input)]%string
        ++ match truthy_opt webhookUrl with
           | Some url =>
               [("webhook", JStr url);
                ("webhook_events_filter", JArr [JStr "completed"])]%string
           | None => []
           end).

(** [modelConfig || process.env.REPLICATE_MODEL || default_model] *)
Definition model_used (default_model : string) (p : Provider) (modelConfig : option string)
  : string :=
  match or_else modelConfig (REPLICATE_MODEL p) with
  | Some m => m
  | None => default_model
  end.

(** The body shared by the two revisions, which differ by the model used
    when none is configured and by the [input] they build. *)
Definition createPrediction_with
    (default_model : string) (input : string -> string -> string -> JsValue)
    (p : Provider) (imageUrl danceStyle : string)
    (webhookUrl apiToken modelConfig : option string) : Async JsValue :=
  match or_else apiToken (REPLICATE_API_TOKEN p) with
  | None => ([], inl "REPLICATE_API_TOKEN is not configured"%string)
  | Some token =>
      let model := model_used default_model p modelConfig in
      let '(lookup, version) :=
        if includes ":" model then ([], inr model) else getModelVersion p model in
      match version with
      | inl msg => (lookup, inl msg)
      | inr version =>
          let payload := payload_of version (input model imageUrl danceStyle) webhookUrl in
          let requests := lookup ++ [PostPrediction ("Bearer " +:+ token) payload] in
          match predictions_answer p with
          | PredictionsThrow msg => (requests, inl msg)
          | PredictionsNotOk status text =>
              (requests, inl ("Replicate API error: " +:+ status +:+ " - " +:+ text))
          | PredictionsRead prediction => (requests, inr prediction)
          end
      end
  end.

Definition default_model : string := "minimax/hailuo-2.3-fast".

Definition earlier_default_model : string :=
  "stability-ai/stable-video-diffusion:3f0457e4619daac51203dedb472816fd4af51f3149fa7a9e0b5ffcf1b8172438".

(** The later revision. *)
Definition createPrediction : Provider -> string -> string ->
    option string -> option string -> option string -> Async JsValue :=
  createPrediction_with default_model input_of.

(** The earlier revision. *)
Definition earlier_createPrediction : Provider -> string -> string ->
    option string -> option string -> option string -> Async JsValue :=
  createPrediction_with earlier_default_model earlier_input_of.

End Replicate.

(** ** js/app.js: [pollJobStatus] *)

Module App.

(** What [PetDanceAPI.getJobStatus] gives to one request. *)
Inductive StatusAnswer : Type :=
  | StatusThrows (msg : string)
  | StatusData (data : JsValue).

(** The answers of the server by rank of the request, the resolution of a
    storage path into a URL ([None] when it fails), and the message of the
    TypeError that the browser raises for a property of [null]. *)
Record Client : Type := mkClient {
  answer : nat -> StatusAnswer;
  resolve : JsValue -> option JsValue;
  null_message : string
}.

(** What the page does, in order. *)
Inductive Ui : Type :=
  | UiGetJobStatus
  | UiProgress (percent : Z)
  | UiResolve (path : JsValue)
  | UiResult (url : JsValue)
  | UiError (message : JsValue)
  | UiWait (ms : Z).

Definition maxAttempts : nat := 120.

(** [poll], with [attempts] the value of the counter when it is entered
    (the test [attempts++ > maxAttempts] leaves it at [S attempts]); [fuel]
    bounds the number of rounds. *)
Fixpoint poll (fuel : nat) (c : Client) (attempts : nat) : list Ui :=
  match fuel with
  | O => []
  | S fuel' =>
      if (maxAttempts <? attempts)%nat then
        [UiError (JStr "Generation timed out. Please try again.")]
      else
        UiGetJobStatus
        :: match answer c attempts with
           | StatusThrows msg => [UiError (JStr msg)]
           | StatusData data =>
               UiProgress (60 + Z.min (Z.of_nat (S attempts) * 2) 35)
               :: match data with
                  | JNull | JUndefined => [UiError (JStr (null_message c))]
                  | _ =>
                      if is_str (get_prop data "status") "completed" then
                        let url := get_prop data "downloadUrl" in
                        let path := get_prop data "outputVideoPath" in
                        if negb (truthy url) && truthy path then
                          UiResolve path
                          :: match resolve c path with
                             | Some resolved => [UiResult resolved]
                             | None => [UiResult url]
                             end
                        else [UiResult url]
                      else if is_str (get_prop data "status") "failed" then
                        [UiError (js_or (get_prop data "errorMessage")
                                        (JStr "Generation failed"))]
                      else UiWait 3000 :: poll fuel' c (S attempts)
                  end
           end
  end.

(** The counter stops the rounds before the fuel does. *)
Definition pollJobStatus (c : Client) : list Ui := poll (maxAttempts + 2) c 0.

(** The page asks the server for the status of the job. *)
Definition is_request (e : Ui) : bool :=
  match e with
  | UiGetJobStatus => true
  | _ => false
  end.

(** The page shows the result or an error, and stops. *)
Definition is_verdict (e : Ui) : bool :=
  match e with
  | UiResult _ | UiError _ => true
  | _ => false
  end.

(** The answer tells of a job that is neither completed nor failed. *)
Definition still_running (a : StatusAnswer) : bool :=
  match a with
  | StatusThrows _ | StatusData JNull | StatusData JUndefined => false
  | StatusData data =>
      negb (is_str (get_prop data "status") "completed")
      && negb (is_str (get_prop data "status") "failed")
  end.

End App.

(** ** Vocabulary of the further statements *)

(** The [Authorization] header passes the test of the handlers. *)
Definition has_bearer (authHeader : option string) : bool :=
  match authHeader with
  | Some h => String.prefix "Bearer " h
  | None => false
  end.

(** [res.status(c).json({ error: msg })], as the platform sees it. *)
Definition refusal (c : Z) (msg : string) : Reply := Replied (mkResponse c (json_error msg)).

(** The reply to a request whose method the handler does not serve. *)
Definition method_reply (m : string) : Reply :=
  if String.eqb m "OPTIONS" then Replied (mkResponse 204 (BText ""))
  else refusal 405 "Method not allowed".

(** The world [w] after the calls [cs], its documents unchanged. *)
Definition logged (w : World) (cs : list Event) : World :=
  mkWorld (jobs w) (users w) (calls w ++ cs).

(** The path under which the page uploads the image of a job. *)
Definition uploadPath_of (uid jobId : string) : string :=
  "uploads/" +:+ uid +:+ "/" +:+ jobId +:+ "/original.jpg".

(** The handler [h] only reads the store: it leaves the documents as they
    are and calls neither the inference provider nor a write of storage. *)
Definition reads_only (h : Handler unit) (w : World) : Prop :=
  exists cs, (run h w).2 = logged w cs
             /\ inference_calls cs = 0%nat /\ storage_writes cs = 0%nat.

(** The user document after [getOrCreateUser]. *)
Definition ensured_users (env : Env) (uid mail : string) (m : gmap string User)
  : gmap string User :=
  match m !! uid with
  | Some _ => m
  | None => <[uid := mkUser mail (now env) "none" uid]> m
  end.

(** What the handlers keep true of the job document of id [id]. *)
Definition well_formed_job (id : string) (j : Job) : Prop :=
  inputImagePath j = uploadPath_of (userId j) id
  /\ In (danceStyle j) validStyles
  /\ (status j = pending <-> replicateJobId j = None)
  /\ (terminal (status j) = true <-> completedAt j <> None)
  /\ (status j = completed ->
      outputVideoPath j = Some (outputPath_of (userId j) id))
  /\ (status j = pending \/ status j = processing -> outputVideoPath j = None)
  /\ (status j <> failed -> errorMessage j = JNull).

(** What the handlers keep true of the user document of id [uid]. *)
Definition well_formed_user (uid : string) (u : User) : Prop :=
  subscriptionStatus u = "none"%string /\ revenuecatUserId u = uid.

(** The fields of a job that name it: its owner, its input, its style and
    its date of creation. *)
Definition same_identity (j j' : Job) : Prop :=
  userId j' = userId j /\ inputImagePath j' = inputImagePath j
  /\ danceStyle j' = danceStyle j /\ createdAt j' = createdAt j.

(** The call to the storage probe, when it is made. *)
Definition probe_calls (env : Env) (uid id : string) : list Event :=
  if is_1 (STORAGE_SKIP_PROBE env) then []
  else [EvStorageProbe ("outputs/" +:+ uid +:+ "/" +:+ id +:+ "/.probe")].

(** Storage can take the result: the bucket exists and the probe, unless
    skipped by configuration, succeeds. *)
Definition storage_writable (env : Env) : bool :=
  bucket env && (is_1 (STORAGE_SKIP_PROBE env) || probe_ok env).

(** The image URL of the request is a non-empty string that starts with
    [http]. *)
Definition usable_imageUrl (v : JsValue) : option string :=
  match v with
  | JStr u => if negb (String.eqb u "") && String.prefix "http" u then Some u else None
  | _ => None
  end.

(** The calls made by a [startJob] that passes its guards. *)
Definition checked_calls (authHeader uid : string) : list Event :=
  [EvVerifyIdToken (idToken_of authHeader); EvValidateSubscription uid].

(** The sample video of the mock mode. *)
Definition mockVideoUrl (env : Env) : string :=
  match truthy_opt (MOCK_VIDEO_URL env) with
  | Some u => u
  | None => "https://download.samplelib.com/mp4/sample-5s.mp4"
  end.

(** The user document that the script leaves. *)
Definition granted (t : Z) (uid : string) (before : option User) : User :=
  match before with
  | Some u => mkUser (email u) (user_createdAt u) "active" (revenuecatUserId u)
  | None => mkUser "" t "active" uid
  end.

(** The number of jobs that the quota of the earlier revision counts. *)
Definition earlier_quota_used (env : Env) (uid : string) (m : gmap string Job) : nat :=
  length (jobs_where (Legacy.counts_toward_quota uid (now env - 24 * 60 * 60 * 1000)) m).

(** The number of status requests in what the page did. *)
Definition requests_made (trace : list App.Ui) : nat :=
  length (List.filter App.is_request trace).

(** The error that ends a polling that lasted too long. *)
Definition timed_out : App.Ui := App.UiError (JStr "Generation timed out. Please try again.").

(** The progress displayed by the round entered with the counter at
    [attempts]. *)
Definition progress_at (attempts : nat) : Z := 60 + Z.min (Z.of_nat (S attempts) * 2) 35.

(** The request without its three signature headers. *)
Definition without_signature (req : WebhookRequest) : WebhookRequest :=
  mkWebhookRequest (wh_method req) (rawBody req) None None None.

(** ** Further data of the scenario *)

(** [sample_env] with other answers of the identity provider, of the
    inference provider and of the signing of URLs, another mock flag, and
    with or without a bucket. *)
Definition sample_env_with (token : TokenResult) (prediction : PredictionResult)
    (signed : option string) (mock : option string) (has_bucket : bool) : Env :=
  {| now := now sample_env;
     REPLICATE_WEBHOOK_SECRET := REPLICATE_WEBHOOK_SECRET sample_env;
     REPLICATE_SKIP_WEBHOOK_VERIFY := None;
     STORAGE_SKIP_PROBE := None;
     REPLICATE_MOCK := mock;
     MOCK_VIDEO_URL := None;
     bucket := has_bucket;
     verifyIdToken_result := token;
     auto_id := "j1"%string;
     probe_ok := true;
     webhookUrl_result := webhookUrl_result sample_env;
     createPrediction_result := prediction;
     fetch_result := fetch_result sample_env;
     save_result := None;
     exists_result := ExistsIs true;
     getSignedUrl_result := signed |}.

(** The token of the user of the scenario, accepted. *)
Definition u1_token : TokenResult := TokenOk "u1" "u1@example.com".

(** The identity provider rejects the token. *)
Definition rejecting_env : Env :=
  sample_env_with (TokenRejected "Token expired") (PredictionCreated "pred-1")
                  (getSignedUrl_result sample_env) None true.

(** The inference provider refuses the prediction. *)
Definition failing_provider_env : Env :=
  sample_env_with u1_token (PredictionThrows "Replicate API error: 402 - no credit")
                  (getSignedUrl_result sample_env) None true.

(** The mock mode. *)
Definition mock_env : Env :=
  sample_env_with u1_token (PredictionCreated "pred-1") (getSignedUrl_result sample_env)
                  (Some "1"%string) true.

(** Storage is not configured. *)
Definition no_bucket_env : Env :=
  sample_env_with u1_token (PredictionCreated "pred-1") (getSignedUrl_result sample_env)
                  None false.

(** The signing of URLs fails. *)
Definition unsigned_env : Env :=
  sample_env_with u1_token (PredictionCreated "pred-1") None None true.

(** The verification of callbacks is switched off. *)
Definition unverified_env : Env :=
  {| now := now sample_env;
     REPLICATE_WEBHOOK_SECRET := REPLICATE_WEBHOOK_SECRET sample_env;
     REPLICATE_SKIP_WEBHOOK_VERIFY := Some "1"%string;
     STORAGE_SKIP_PROBE := None;
     REPLICATE_MOCK := None;
     MOCK_VIDEO_URL := None;
     bucket := true;
     verifyIdToken_result := u1_token;
     auto_id := "j1"%string;
     probe_ok := true;
     webhookUrl_result := webhookUrl_result sample_env;
     createPrediction_result := PredictionCreated "pred-1";
     fetch_result := fetch_result sample_env;
     save_result := None;
     exists_result := ExistsIs true;
     getSignedUrl_result := None |}.

(** The store after the job of the scenario was created. *)
Definition created_world : World := exec (firstn 1 scenario) empty_world.

(** The job of the scenario as [createJob] wrote it. *)
Definition pending_j1 : Job :=
  {| userId := "u1";
     inputImagePath := "uploads/u1/j1/original.jpg";
     outputVideoPath := None;
     status := pending;
     danceStyle := "disco";
     replicateJobId := None;
     createdAt := 1700000000000;
     completedAt := None;
     errorMessage := JNull |}.

(** Requests of the user of the scenario: a job in a style that is not
    offered, the start of the job without an image, the download of its
    video, and its status. *)
Definition tango_request : Request :=
  bearer_request (JObj [("danceStyle", JStr "tango")]%string).

Definition start_without_image : Request :=
  bearer_request (JObj [("jobId", JStr "j1")]%string).

Definition download_request : Request :=
  bearer_request (JObj [("jobId", JStr "j1")]%string).

Definition status_request : StatusRequest :=
  mkStatusRequest "GET" (Some "Bearer token-of-u1"%string) (JStr "j1").

(** The user document of the scenario. *)
Definition u1_user : User := mkUser "u1@example.com" 1700000000000 "none" "u1".

(** A server that always tells of a job in progress. *)
Definition patient_client : App.Client :=
  App.mkClient (fun _ => App.StatusData (JObj [("status", JStr "processing")]%string))
               (fun _ => None) "data is null".

(** ** Proof automation for the endpoints *)

(** The method tests of a handler, once the method is known. *)
Ltac served Hm :=
  rewrite Hm;
  try change (String.eqb "POST" "OPTIONS") with false;
  try change (String.eqb "POST" "POST") with true;
  try change (String.eqb "GET" "OPTIONS") with false;
  try change (String.eqb "GET" "GET") with true;
  cbn [negb].

(** The symbolic run of an endpoint that reads. *)
Ltac unfold_reader :=
  unfold run, getDownloadUrl, getJobStatus, Earlier.getDownloadUrl,
    try_catch, bind, authenticate, bind, call, ret, reply, throw,
    doc, doc_get, ret, throw, iso_field, ret, throw, call, reply.

(** The calls that such a run added to the world. *)
Ltac reads :=
  first
    [ exists []; split;
        [match goal with
         | |- ?x = logged ?x [] =>
             destruct x; unfold logged; cbn [jobs users calls]; rewrite app_nil_r; reflexivity
         end
        | split; reflexivity]
    | eexists; split; [unfold logged; reflexivity | split; reflexivity]
    | eexists; split;
        [unfold logged; cbn [jobs users calls]; rewrite <- app_assoc; reflexivity
        | split; reflexivity] ].

(** * Properties *)

(** ** The primitives on known values *)

Example sha256_abc :
  hex_of_bytes (SHA256.digest (bytes_of_string "abc"))
  = "ba7816bf8f01cfea414140de5dae2223b00361a396177a9cb410ff61f20015ad"%string.
Proof. vm_compute. reflexivity. Qed.

Example sha256_two_blocks :
  hex_of_bytes (SHA256.digest
    (bytes_of_string "abcdbcdecdefdefgefghfghighijhijkijkljklmklmnlmnomnopnopq"))
  = "248d6a61d20638b8e5c026930c3e6039a33ce45964ff2167f6ecedd419db06c1"%string.
Proof. vm_compute. reflexivity. Qed.

Example hmac_sha256_short_key :
  hex_of_bytes (SHA256.hmac (bytes_of_string "Jefe")
                            (bytes_of_string "what do ya want for nothing?"))
  = "5bdcc146bf60754e6a042426089575c75a003f089d2739839dec58b964ec3843"%string.
Proof. vm_compute. reflexivity. Qed.

Example base64_encode_paddings :
  base64_encode (bytes_of_string "Man") = "TWFu"%string
  /\ base64_encode (bytes_of_string "Ma") = "TWE="%string
  /\ base64_encode (bytes_of_string "M") = "TQ=="%string.
Proof. vm_compute. auto. Qed.

Example Buffer_from_base64_is_lenient :
  string_of_bytes (Buffer_from_base64 "TWFu TWE=zzz") = "ManMa"%string
  /\ Buffer_from_base64 "TQ" = Buffer_from_base64 "TQ=="
  /\ Buffer_from_base64 "-_" = Buffer_from_base64 "+/".
Proof. vm_compute. auto. Qed.

Example split_and_signatures :
  split_char " " "v1,abc v2,def" = ["v1,abc"; "v2,def"]%string
  /\ split_char "," "" = [""]%string
  /\ signatures "v1,abc v2,def  x" = ["abc"; "def"; ""; "x"]%string.
Proof. vm_compute. auto. Qed.

Example parseInt_values :
  parseInt " -12ab" = Some (-12)
  /\ parseInt "abc" = None
  /\ parseInt "" = None
  /\ parseInt "1700000000" = Some 1700000000
  /\ parseInt (string_of_bytes [0xC2; 0xA0; 0xE2; 0x80; 0x83; 49; 50]) = Some 12.
Proof. vm_compute. auto 10. Qed.

Example secretKey_values :
  secretKey "whsec_abc" = "abc"%string
  /\ secretKey "abc" = "abc"%string
  /\ secretKey "abwhsec_cwhsec_" = "abcwhsec_"%string.
Proof. vm_compute. auto. Qed.

Example JSON_parse_values :
  JSON_parse ("{" +:+ json_member "id" (json_string "pred-1") +:+ " , "
                  +:+ json_member "n" "[1.50e3, -0, true, null, {}]" +:+ ","
                  +:+ json_member "id" (json_string "last\né😀") +:+ " } ")
  = Some (JObj [("id", JStr "pred-1");
                ("n", JArr [JNum 150 1; JNum 0 0; JBool true; JNull; JObj []]);
                ("id", JStr (String (ascii_of_byte 108) (String (ascii_of_byte 97)
                         (String (ascii_of_byte 115) (String (ascii_of_byte 116)
                         (string_of_bytes [10; 0xC3; 0xA9; 0xF0; 0x9F; 0x98; 0x80]))))))]%string)
  /\ map JSON_parse ["01"; "1."; "[1,]"; "nul"; ""; "[1] x"; "-"; "1e"; "{,}"]%string
     = [None; None; None; None; None; None; None; None; None]
  /\ get_prop (JObj [("id", JStr "a"); ("id", JStr "b")]%string) "id" = JStr "b".
Proof. vm_compute. auto. Qed.

Example JSON_parse_surrogate_pair :
  JSON_parse (json_string "\ud83d\ude00") = JSON_parse (json_string "😀")
  /\ option_map (fun v => match v with JStr t => bytes_of_string t | _ => [] end)
                (JSON_parse (json_string "\ud83d\ude00"))
     = Some [0xF0; 0x9F; 0x98; 0x80].
Proof. vm_compute. auto. Qed.

Example truthy_values :
  map truthy [JUndefined; JNull; JBool false; JNum 0 0; JNum 2 (-324); JStr ""]
  = [false; false; false; false; false; false]
  /\ map truthy [JBool true; JNum 1 0; JNum 5 (-324); JStr "0"; JArr []; JObj []]
     = [true; true; true; true; true; true].
Proof. vm_compute. auto. Qed.

(** The shapes of [output] from which the webhook takes a locator. *)
Example videoUrl_of_shapes :
  map videoUrl_of
    [JStr "u"; JObj [("url", JStr "u")]; JObj [("video", JStr "u")];
     JObj [("output", JStr "u")]; JArr [JStr "u"; JStr "v"];
     JObj [("output", JArr [JStr "u"])]; JArr [JArr [JStr "u"]]]%string
  = [JStr "u"; JStr "u"; JStr "u"; JStr "u"; JStr "u"; JStr "u"; JStr "u"]%string
  /\ map (fun o => truthy (videoUrl_of o)) [JObj []; JArr []; JBool true; JNum 7 0]
     = [false; false; false; false].
Proof. vm_compute. auto. Qed.

Example doc_paths :
  map (fun p => (doc (JStr p) empty_world).1) ["j1"; "/j1"; "j1/"; "a/b/c"]%string
  = [Next (Some "j1"); Next (Some "j1"); Next (Some "j1"); Next None]%string
  /\ map (fun p => match (doc (JStr p) empty_world).1 with Thrown _ => true | _ => false end)
         ["a/b"; "a//b"; "/"; ""]%string
     = [true; true; true; true].
Proof. vm_compute. auto. Qed.

(** ** Splitting and the candidates of a signature header *)

Lemma split_char_nonempty sep s : split_char sep s <> [].
Proof.
  destruct s as [|c r]; simpl; [discriminate|].
  destruct (Ascii.eqb c sep); [discriminate|].
  destruct (split_char sep r); discriminate.
Qed.

Lemma split_char_app sep a b :
  split_char sep (a +:+ String sep b) = split_char sep a ++ split_char sep b.
Proof.
  induction a as [|c a IH]; simpl.
  - rewrite Ascii.eqb_refl. reflexivity.
  - destruct (Ascii.eqb c sep).
    + rewrite IH. reflexivity.
    + rewrite IH. pose proof (split_char_nonempty sep a) as Hne.
      destruct (split_char sep a) as [|h t]; [contradiction|]. reflexivity.
Qed.

Lemma split_char_absent sep s :
  contains_char sep s = false -> split_char sep s = [s].
Proof.
  induction s as [|c r IH]; simpl; intros H; [reflexivity|].
  apply orb_false_iff in H as [Hc Hr].
  rewrite Hc, (IH Hr). reflexivity.
Qed.

Lemma contains_char_app c a b :
  contains_char c (a +:+ b) = contains_char c a || contains_char c b.
Proof.
  induction a as [|d a IH]; simpl; [reflexivity|].
  rewrite IH, orb_assoc. reflexivity.
Qed.

Lemma render_no_space c :
  well_formed_candidate c -> contains_char " " (render c) = false.
Proof.
  destruct c as [[tag|] s]; unfold well_formed_candidate, render; simpl.
  - intros (Ht & Hs & _). rewrite contains_char_app, Ht. simpl. exact Hs.
  - intros (_ & Hs & _). exact Hs.
Qed.

Lemma last_token_render c :
  well_formed_candidate c -> List.last (split_char "," (render c)) EmptyString = c.2.
Proof.
  destruct c as [[tag|] s]; unfold well_formed_candidate, render; simpl;
    intros (_ & _ & Hc).
  - change (tag +:+ "," +:+ s) with (tag +:+ String ","%char s).
    rewrite split_char_app, (split_char_absent _ _ Hc).
    apply List.last_last.
  - rewrite (split_char_absent _ _ Hc). reflexivity.
Qed.

Lemma split_header c cs :
  Forall well_formed_candidate (c :: cs) ->
  split_char " " (header_of c cs) = map render (c :: cs).
Proof.
  revert c. induction cs as [|c' r IH]; intros c H; simpl.
  - apply split_char_absent, render_no_space. now inversion H.
  - inversion H as [|? ? Hc Hr]; subst.
    change (render c +:+ " " +:+ header_of c' r)
      with (render c +:+ String " "%char (header_of c' r)).
    rewrite split_char_app, (split_char_absent _ _ (render_no_space _ Hc)), (IH _ Hr).
    reflexivity.
Qed.

Lemma signatures_header c cs :
  Forall well_formed_candidate (c :: cs) ->
  signatures (header_of c cs) = map snd (c :: cs).
Proof.
  intros H. unfold signatures. rewrite (split_header _ _ H), List.map_map.
  induction H as [|x l Hx Hl IH]; simpl; [reflexivity|].
  rewrite (last_token_render _ Hx). f_equal. exact IH.
Qed.

(** C9. [verifyWebhookSignature] looks only at the last comma-separated part
    of every space-separated element of the header: whatever the version tag
    of an element ([v1], [v2], any other text, or none at all), the result is
    that of comparing the bare signatures with the expected one, together
    with the freshness test. *)
Theorem verify_ignores_version_tags
    (now : Z) (body webhookId timestamp secret : string)
    (c : option string * string) (cs : list (option string * string)) :
  Forall well_formed_candidate (c :: cs) ->
  verifyWebhookSignature now body webhookId timestamp (header_of c cs) secret
  = existsb (candidate_matches (expectedSignature body webhookId timestamp secret))
            (map snd (c :: cs))
    && isRecent now timestamp.
Proof.
  intros H. unfold verifyWebhookSignature. rewrite (signatures_header _ _ H). reflexivity.
Qed.

(** ** Base64: decoding what [digest('base64')] produced *)

Lemma all_below_spec n P :
  all_below n P = true -> forall z, 0 <= z < Z.of_nat n -> P z = true.
Proof.
  unfold all_below. intros H z Hz.
  rewrite forallb_forall in H. apply H.
  apply in_map_iff. exists (Z.to_nat z). split; [lia|].
  apply in_seq. lia.
Qed.

Lemma sextet_char v :
  0 <= v < 64 ->
  Ascii.eqb (base64_char v) "=" = false /\ unbase64 (base64_char v) = Some v.
Proof.
  intros Hv.
  assert (H : all_below 64 (fun v =>
            negb (Ascii.eqb (base64_char v) "=")
            && match unbase64 (base64_char v) with
               | Some u => u =? v
               | None => false
               end) = true) by (vm_compute; reflexivity).
  apply (all_below_spec _ _ H) in Hv.
  apply andb_true_iff in Hv as [H1 H2].
  apply negb_true_iff in H1. split; [exact H1|].
  destruct (unbase64 (base64_char v)) as [u|]; [|discriminate].
  apply Z.eqb_eq in H2. now subst.
Qed.

Lemma sextets_cons v r :
  0 <= v < 64 -> sextets (String (base64_char v) r) = v :: sextets r.
Proof.
  intros Hv. destruct (sextet_char v Hv) as [H1 H2]. simpl. now rewrite H1, H2.
Qed.

(** The four sextets of three bytes and the three bytes of four sextets,
    checked on every pair of bytes. *)
Lemma group_first_two a b :
  is_byte a -> is_byte b ->
  let e1 := Z.shiftr a 2 in
  let e2 := Z.lor (Z.shiftl (Z.land a 3) 4) (Z.shiftr b 4) in
  0 <= e1 < 64 /\ 0 <= e2 < 64
  /\ Z.lor (Z.shiftl e1 2) (Z.shiftr e2 4) = a
  /\ Z.land e2 15 = Z.shiftr b 4
  /\ 0 <= Z.shiftl (Z.land a 3) 4 < 64
  /\ Z.lor (Z.shiftl e1 2) (Z.shiftr (Z.shiftl (Z.land a 3) 4) 4) = a.
Proof.
  intros Ha Hb.
  assert (H : all_below 256 (fun a => all_below 256 (fun b =>
            let e1 := Z.shiftr a 2 in
            let e2 := Z.lor (Z.shiftl (Z.land a 3) 4) (Z.shiftr b 4) in
            in64 e1 && in64 e2
            && (Z.lor (Z.shiftl e1 2) (Z.shiftr e2 4) =? a)
            && (Z.land e2 15 =? Z.shiftr b 4)
            && in64 (Z.shiftl (Z.land a 3) 4)
            && (Z.lor (Z.shiftl e1 2) (Z.shiftr (Z.shiftl (Z.land a 3) 4) 4) =? a)))
          = true) by (vm_compute; reflexivity).
  pose proof (all_below_spec _ _ (all_below_spec _ _ H a Ha) b Hb) as K.
  cbv zeta in K.
  unfold in64 in K.
  repeat (apply andb_true_iff in K as [K ?]).
  cbv zeta. repeat split; lia.
Qed.

Lemma group_last_two b c :
  is_byte b -> is_byte c ->
  let e3 := Z.lor (Z.shiftl (Z.land b 15) 2) (Z.shiftr c 6) in
  let e4 := Z.land c 63 in
  0 <= e3 < 64 /\ 0 <= e4 < 64
  /\ Z.lor (Z.shiftl (Z.shiftr b 4) 4) (Z.shiftr e3 2) = b
  /\ Z.lor (Z.shiftl (Z.land e3 3) 6) e4 = c
  /\ 0 <= Z.shiftl (Z.land b 15) 2 < 64
  /\ Z.lor (Z.shiftl (Z.shiftr b 4) 4) (Z.shiftr (Z.shiftl (Z.land b 15) 2) 2) = b.
Proof.
  intros Hb Hc.
  assert (H : all_below 256 (fun b => all_below 256 (fun c =>
            let e3 := Z.lor (Z.shiftl (Z.land b 15) 2) (Z.shiftr c 6) in
            let e4 := Z.land c 63 in
            in64 e3 && in64 e4
            && (Z.lor (Z.shiftl (Z.shiftr b 4) 4) (Z.shiftr e3 2) =? b)
            && (Z.lor (Z.shiftl (Z.land e3 3) 6) e4 =? c)
            && in64 (Z.shiftl (Z.land b 15) 2)
            && (Z.lor (Z.shiftl (Z.shiftr b 4) 4)
                      (Z.shiftr (Z.shiftl (Z.land b 15) 2) 2) =? b)))
          = true) by (vm_compute; reflexivity).
  pose proof (all_below_spec _ _ (all_below_spec _ _ H b Hb) c Hc) as K.
  cbv zeta in K.
  unfold in64 in K.
  repeat (apply andb_true_iff in K as [K ?]).
  cbv zeta. repeat split; lia.
Qed.

Lemma decode_encode_upto n : forall l,
  (length l <= n)%nat -> Forall is_byte l -> Buffer_from_base64 (base64_encode l) = l.
Proof.
  unfold Buffer_from_base64.
  induction n as [|n IH]; intros l Hlen Hl.
  - destruct l; [reflexivity | simpl in Hlen; lia].
  - destruct l as [|a [|b [|c r]]]; [reflexivity | | |].
    + inversion Hl as [|? ? Ha _]; subst.
      destruct (group_first_two a 0 Ha ltac:(unfold is_byte; lia))
        as (H1 & _ & _ & _ & H5 & H6).
      cbn [base64_encode]. rewrite !sextets_cons by assumption.
      simpl. now rewrite H6.
    + inversion Hl as [|? ? Ha Hl']; subst. inversion Hl' as [|? ? Hb _]; subst.
      destruct (group_first_two a b Ha Hb) as (H1 & H2 & H3 & H4 & _ & _).
      destruct (group_last_two b 0 Hb ltac:(unfold is_byte; lia))
        as (_ & _ & _ & _ & H5 & H6).
      cbn [base64_encode]. rewrite !sextets_cons by assumption.
      simpl. now rewrite H3, H4, H6.
    + inversion Hl as [|? ? Ha Hl']; subst. inversion Hl' as [|? ? Hb Hl'']; subst.
      inversion Hl'' as [|? ? Hc Hr]; subst.
      destruct (group_first_two a b Ha Hb) as (H1 & H2 & H3 & H4 & _ & _).
      destruct (group_last_two b c Hb Hc) as (H5 & H6 & H7 & H8 & _ & _).
      cbn [base64_encode]. rewrite !sextets_cons by assumption.
      cbn [bytes_of_sextets]. rewrite H3, H4, H7, H8.
      do 3 f_equal. apply IH; [simpl in Hlen; lia | exact Hr].
Qed.

(** What Node decodes from a Base64 text of its own making is the buffer
    that was encoded. *)
Lemma decode_encode l : Forall is_byte l -> Buffer_from_base64 (base64_encode l) = l.
Proof. apply (decode_encode_upto (length l)). lia. Qed.

Lemma be_bytes_are_bytes n x : Forall is_byte (SHA256.be_bytes n x).
Proof.
  unfold SHA256.be_bytes. apply List.Forall_forall. intros y Hy.
  apply in_map_iff in Hy as (i & <- & _).
  change 0xFF with (Z.ones 8). rewrite Z.land_ones by lia.
  unfold is_byte. change (2 ^ 8) with 256. apply Z.mod_pos_bound. lia.
Qed.

Lemma digest_is_bytes msg : Forall is_byte (SHA256.digest msg).
Proof.
  unfold SHA256.digest. apply List.Forall_forall. intros y Hy.
  apply in_concat in Hy as (l & Hl & Hy).
  apply in_map_iff in Hl as (w & <- & _).
  pose proof (be_bytes_are_bytes 4 w) as H. rewrite List.Forall_forall in H. now apply H.
Qed.

Lemma hmac_is_bytes key msg : Forall is_byte (SHA256.hmac key msg).
Proof. unfold SHA256.hmac. apply digest_is_bytes. Qed.

(** ** [verifyWebhookSignature]: when it answers [true] *)

Lemma bytes_eqb_eq a b : bytes_eqb a b = true <-> a = b.
Proof.
  revert b. induction a as [|x a IH]; intros [|y b]; simpl; split;
    try discriminate; try reflexivity.
  - intros H. apply andb_true_iff in H as [H1 H2].
    apply Z.eqb_eq in H1. apply IH in H2. now subst.
  - intros H. injection H as -> ->. rewrite Z.eqb_refl. now apply IH.
Qed.

Lemma candidate_matches_spec expected c :
  candidate_matches expected c = true
  <-> Buffer_from_base64 c = Buffer_from_base64 expected.
Proof.
  unfold candidate_matches, timingSafeEqual.
  destruct (length (Buffer_from_base64 c) =? length (Buffer_from_base64 expected))%nat eqn:E.
  - apply bytes_eqb_eq.
  - split; [discriminate|]. intros H. rewrite H, Nat.eqb_refl in E. discriminate.
Qed.

Lemma isRecent_spec now timestamp :
  isRecent now timestamp = true
  <-> exists t, parseInt timestamp = Some t /\ Z.abs (now - 1000 * t) < 300 * 1000.
Proof.
  unfold isRecent. destruct (parseInt timestamp) as [t|].
  - rewrite Z.ltb_lt. split.
    + intros H. exists t. auto.
    + intros (t' & [= <-] & H). exact H.
  - split; [discriminate|]. intros (t & H & _). discriminate.
Qed.

(** C3, as amended. [verifyWebhookSignature] answers [true] exactly when
    (1) some candidate of the header, decoded from Base64 the way
    [Buffer.from] does, is the HMAC-SHA256 of [id.timestamp.body] keyed by
    the secret without its [whsec_] marker, and (2) [parseInt] reads from the
    timestamp a number of seconds less than 300 away from the current time.
    Hence a timestamp 300 seconds or more away (10 minutes old, say) is
    refused, and so is a body or a secret whose HMAC no candidate decodes
    to. *)
Theorem verifyWebhookSignature_true_iff
    (now : Z) (body webhookId timestamp signature secret : string) :
  let mac b s := SHA256.hmac (bytes_of_string (secretKey s))
                             (bytes_of_string (signedContent webhookId timestamp b)) in
  (verifyWebhookSignature now body webhookId timestamp signature secret = true
   <-> (exists c, In c (signatures signature) /\ Buffer_from_base64 c = mac body secret)
       /\ (exists t, parseInt timestamp = Some t /\ Z.abs (now - 1000 * t) < 300 * 1000))
  /\ (forall t, parseInt timestamp = Some t -> 300 * 1000 <= Z.abs (now - 1000 * t) ->
      verifyWebhookSignature now body webhookId timestamp signature secret = false)
  /\ (forall body' secret',
      (forall c, In c (signatures signature) -> Buffer_from_base64 c <> mac body' secret') ->
      verifyWebhookSignature now body' webhookId timestamp signature secret' = false).
Proof.
  intros mac.
  assert (Hiff : forall b s,
    verifyWebhookSignature now b webhookId timestamp signature s = true
    <-> (exists c, In c (signatures signature) /\ Buffer_from_base64 c = mac b s)
        /\ (exists t, parseInt timestamp = Some t /\ Z.abs (now - 1000 * t) < 300 * 1000)).
  { intros b s. unfold verifyWebhookSignature.
    rewrite andb_true_iff, existsb_exists, isRecent_spec.
    apply and_iff_compat_r. split; intros (c & Hin & Hc); exists c; split; auto.
    - apply candidate_matches_spec in Hc. rewrite Hc. unfold expectedSignature.
      apply decode_encode, hmac_is_bytes.
    - apply candidate_matches_spec. rewrite Hc. unfold expectedSignature.
      symmetry. apply decode_encode, hmac_is_bytes. }
  split; [apply Hiff|]. split.
  - intros t Ht Hold. apply not_true_is_false. intros H.
    apply Hiff in H as (_ & t' & Ht' & Hlt). rewrite Ht in Ht'. injection Ht' as <-. lia.
  - intros body' secret' Hno. apply not_true_is_false. intros H.
    apply Hiff in H as ((c & Hin & Hc) & _). exact (Hno c Hin Hc).
Qed.

(** ** [startJob]: the guards before any work *)

Lemma truthy_nonempty_string id : id <> EmptyString -> truthy (JStr id) = true.
Proof.
  intros H. simpl. destruct (String.eqb_spec id ""); [contradiction | reflexivity].
Qed.

Lemma Status_eqb_eq a b : Status_eqb a b = true <-> a = b.
Proof. destruct a, b; simpl; split; intros H; try discriminate; reflexivity. Qed.

Lemma no_slash_no_double_slash s :
  contains_char "/" s = false -> has_double_slash s = false.
Proof.
  induction s as [|a r IH]; [reflexivity|]. simpl. intros H.
  apply orb_false_iff in H as [Ha Hr]. destruct r as [|b r']; [reflexivity|].
  rewrite Ha. simpl. exact (IH Hr).
Qed.

(** A plain document id names the document of that id. *)
Lemma doc_plain id :
  id <> EmptyString -> contains_char "/" id = false -> doc (JStr id) = ret (Some id).
Proof.
  intros Hne Hs. unfold doc, path_segments.
  destruct (String.eqb_spec id ""); [contradiction|].
  rewrite (no_slash_no_double_slash _ Hs), (split_char_absent _ _ Hs). simpl.
  destruct (String.eqb_spec id ""); [contradiction|]. reflexivity.
Qed.

(** A call that passes the method, token and [jobId] checks. *)
Lemma startJob_authenticated
    (env : Env) (req : Request) (w : World) (authHeader uid mail id : string) :
  method req = "POST"%string ->
  authorization req = Some authHeader ->
  String.prefix "Bearer " authHeader = true ->
  verifyIdToken_result env = TokenOk uid mail ->
  get_prop (req_body req) "jobId" = JStr id ->
  id <> EmptyString ->
  contains_char "/" id = false ->
  run (startJob env req) w
  = run (try_catch
           match jobs w !! id with
           | None => reply 404 (json_error "Job not found")
           | Some job =>
               if negb (String.eqb (userId job) uid) then
                 reply 403 (json_error "Unauthorized")
               else if negb (Status_eqb (status job) pending) then
                 reply 400 (json_error ("Job already " +:+ status_string (status job)))
               else
                 validateSubscription (userId job);;
                 checkRateLimit env uid;;
                 start_processing env uid id (JStr id) job
                                  (get_prop (req_body req) "imageUrl")
           end
           (fun msg => reply 500 (json_error (message_or_default msg))))
        (mkWorld (jobs w) (users w)
                 (calls w ++ [EvVerifyIdToken (idToken_of authHeader)])).
Proof.
  intros Hm Ha Hp Ht Hj Hid Hslash.
  unfold run, startJob. rewrite Hm.
  change (String.eqb "POST" "OPTIONS") with false.
  change (String.eqb "POST" "POST") with true.
  cbn [negb].
  unfold try_catch, bind, authenticate. rewrite Ha, Hp, Ht.
  unfold bind, call, ret. cbn [fst snd jobs users calls].
  rewrite Hj, (truthy_nonempty_string _ Hid), (doc_plain _ Hid Hslash).
  cbn [negb]. unfold ret, doc_get. cbn [jobs].
  destruct (jobs w !! id); reflexivity.
Qed.

Lemma path_segments_single_nonempty p id : path_segments p = [id] -> p <> EmptyString.
Proof. intros H ->. discriminate H. Qed.

(** A path with one segment names the document of that id. *)
Lemma doc_single p id :
  has_double_slash p = false -> path_segments p = [id] -> doc (JStr p) = ret (Some id).
Proof.
  intros Hs Hp. unfold doc.
  destruct (String.eqb_spec p ""); [now apply path_segments_single_nonempty in Hp|].
  rewrite Hs, Hp. reflexivity.
Qed.

(** A value that is not a path to a document is refused by the client. *)
Lemma doc_invalid jobId :
  (forall p, jobId = JStr p ->
     p = EmptyString \/ has_double_slash p = true
     \/ Nat.even (length (path_segments p)) = true) ->
  exists msg, doc jobId = throw msg.
Proof.
  intros H. unfold doc. destruct jobId as [| |b|m e|p|l|l]; try (eexists; reflexivity).
  destruct (String.eqb p ""); [eexists; reflexivity|].
  destruct (has_double_slash p) eqn:Hs; [eexists; reflexivity|].
  destruct (H p eq_refl) as [->|[Hd|He]]; [eexists; reflexivity | congruence |].
  destruct (path_segments p) as [|a [|b r]]; [eexists; reflexivity | discriminate He |].
  rewrite He. eexists; reflexivity.
Qed.

(** A longer path of odd length names a document of a sub-collection. *)
Lemma doc_nested p :
  p <> EmptyString -> has_double_slash p = false ->
  Nat.even (length (path_segments p)) = false ->
  (1 < length (path_segments p))%nat ->
  doc (JStr p) = ret None.
Proof.
  intros Hne Hs Ho Hl. unfold doc.
  destruct (String.eqb_spec p ""); [contradiction|]. rewrite Hs.
  destruct (path_segments p) as [|a [|b r]]; [discriminate| simpl in Hl; lia |].
  rewrite Ho. reflexivity.
Qed.

(** A call that passes the method and token checks. *)
Lemma startJob_identified
    (env : Env) (req : Request) (w : World) (authHeader uid mail : string) :
  method req = "POST"%string ->
  authorization req = Some authHeader ->
  String.prefix "Bearer " authHeader = true ->
  verifyIdToken_result env = TokenOk uid mail ->
  let jobId := get_prop (req_body req) "jobId" in
  run (startJob env req) w
  = run (try_catch
           (if negb (truthy jobId) then reply 400 (json_error "jobId is required")
            else
              jobRef <- doc jobId;;
              jobSnap <- doc_get jobRef;;
              match jobSnap with
              | None => reply 404 (json_error "Job not found")
              | Some (id, job) =>
                  if negb (String.eqb (userId job) uid) then
                    reply 403 (json_error "Unauthorized")
                  else if negb (Status_eqb (status job) pending) then
                    reply 400 (json_error ("Job already " +:+ status_string (status job)))
                  else
                    validateSubscription (userId job);;
                    checkRateLimit env uid;;
                    start_processing env uid id jobId job
                                     (get_prop (req_body req) "imageUrl")
              end)
           (fun msg => reply 500 (json_error (message_or_default msg))))
        (mkWorld (jobs w) (users w)
                 (calls w ++ [EvVerifyIdToken (idToken_of authHeader)])).
Proof.
  intros Hm Ha Hp Ht jobId.
  unfold run, startJob. rewrite Hm.
  change (String.eqb "POST" "OPTIONS") with false.
  change (String.eqb "POST" "POST") with true.
  cbn [negb].
  unfold try_catch, bind, authenticate. rewrite Ha, Hp, Ht.
  unfold bind, call, ret. cbn [fst snd jobs users calls]. reflexivity.
Qed.

(** C8, as amended. For a [startJob] call that is a POST with an accepted
    bearer token, what the [jobId] of the body names decides the answer.
    When it is a path without [//] whose only segment is a document id: 404
    ['Job not found'] when no job has that id, 403 ['Unauthorized'] when the
    job belongs to another user, and, when the job belongs to the caller,
    400 with the message ['Job already processing'], ['Job already
    completed'] or ['Job already failed'] according to its status. When it
    is absent or falsy: 400 ['jobId is required']. When it is truthy and
    not a string, or a string that holds [//] or has an even number of
    segments: 500, with the message of the error that the Firestore client
    raises. When it is a longer path with an odd number of segments: 404.
    In all these cases the verification of the token is the only call made
    (no inference call) and no document is written. *)
Theorem startJob_guards
    (env : Env) (req : Request) (w : World) (authHeader uid mail : string) :
  method req = "POST"%string ->
  authorization req = Some authHeader ->
  String.prefix "Bearer " authHeader = true ->
  verifyIdToken_result env = TokenOk uid mail ->
  let jobId := get_prop (req_body req) "jobId" in
  let w' := mkWorld (jobs w) (users w) (calls w ++ [EvVerifyIdToken (idToken_of authHeader)]) in
  let refused (c : Z) (msg : string) :=
    run (startJob env req) w
    = (Replied (mkResponse c (BJson (JObj [("error", JStr msg)]))), w') in
  (forall p id,
     jobId = JStr p -> has_double_slash p = false -> path_segments p = [id] ->
     match jobs w !! id with
     | None => refused 404 "Job not found"%string
     | Some job =>
         (userId job <> uid -> refused 403 "Unauthorized"%string)
         /\ (userId job = uid -> status job = processing ->
             refused 400 "Job already processing"%string)
         /\ (userId job = uid -> status job = completed ->
             refused 400 "Job already completed"%string)
         /\ (userId job = uid -> status job = failed ->
             refused 400 "Job already failed"%string)
     end)
  /\ (truthy jobId = false -> refused 400 "jobId is required"%string)
  /\ (truthy jobId = true ->
      (forall p, jobId = JStr p ->
         has_double_slash p = true \/ Nat.even (length (path_segments p)) = true) ->
      exists msg, refused 500 msg)
  /\ (forall p,
      jobId = JStr p -> has_double_slash p = false ->
      Nat.even (length (path_segments p)) = false -> (1 < length (path_segments p))%nat ->
      refused 404 "Job not found"%string)
  /\ jobs w' = jobs w
  /\ inference_calls (calls w') = inference_calls (calls w).
Proof.
  intros Hm Ha Hp Ht jobId w' refused. unfold refused.
  rewrite (startJob_identified env req w authHeader uid mail Hm Ha Hp Ht).
  fold jobId. fold w'.
  split; [|split; [|split; [|split; [|split]]]].
  - intros p id Hj Hs Hseg. rewrite Hj.
    rewrite (truthy_nonempty_string _ (path_segments_single_nonempty _ _ Hseg)).
    cbn [negb]. unfold run, try_catch, bind. rewrite (doc_single _ _ Hs Hseg).
    unfold ret, doc_get. subst w'. cbn [jobs].
    destruct (jobs w !! id) as [job|]; [|reflexivity].
    destruct (String.eqb_spec (userId job) uid) as [He|Hne]; cbn [negb].
    + split; [contradiction|].
      split; [|split]; intros _ Hst; rewrite Hst; reflexivity.
    + split; [reflexivity|]. split; [|split]; intros E; contradiction.
  - intros Hf. rewrite Hf. reflexivity.
  - intros Htr Hbad. rewrite Htr. cbn [negb].
    destruct (doc_invalid jobId) as (msg & Hd).
    { intros p Hj. destruct (Hbad p Hj) as [H|H]; auto. }
    exists (message_or_default msg). unfold run, try_catch, bind. rewrite Hd. reflexivity.
  - intros p Hj Hs Ho Hl. rewrite Hj.
    assert (Hne : p <> EmptyString) by (intros ->; simpl in Hl; lia).
    rewrite (truthy_nonempty_string _ Hne). cbn [negb].
    unfold run, try_catch, bind. rewrite (doc_nested _ Hne Hs Ho Hl). reflexivity.
  - reflexivity.
  - subst w'. cbn [calls]. unfold inference_calls.
    rewrite List.filter_app, length_app. simpl. lia.
Qed.

(** ** The webhook: routing of a callback *)

Lemma first_by_id_in l kj : first_by_id l = Some kj -> In kj l.
Proof.
  revert kj. induction l as [|x l IH]; simpl; intros kj H; [discriminate|].
  destruct (first_by_id l) as [kj'|].
  - destruct (String.ltb x.1 kj'.1).
    + injection H as <-. now left.
    + right. now apply IH.
  - injection H as <-. now left.
Qed.

Lemma jobs_where_in P (m : gmap string Job) id j :
  In (id, j) (jobs_where P m) <-> m !! id = Some j /\ P j = true.
Proof.
  unfold jobs_where. rewrite filter_In. simpl.
  rewrite <- list_elem_of_In, elem_of_map_to_list. reflexivity.
Qed.

Lemma routed_job_sound payload w id job :
  routed_job payload w = Some (id, job) ->
  jobs w !! id = Some job /\ has_replicateJobId (get_prop payload "id") job = true.
Proof. intros H. apply first_by_id_in in H. now apply jobs_where_in in H. Qed.

Lemma signature_gate_accepted env req w :
  accepted env req = true -> signature_gate env req w = (Next tt, w).
Proof.
  unfold accepted, signature_gate. intros H.
  destruct (verification_runs env req); simpl in H; [rewrite H|]; reflexivity.
Qed.

Lemma signature_gate_refused env req w :
  accepted env req = false ->
  signature_gate env req w = (Sent (mkResponse 401 (BText "Invalid signature")), w).
Proof.
  unfold accepted, signature_gate. intros H.
  destruct (verification_runs env req); simpl in H; [rewrite H; reflexivity | discriminate].
Qed.

Lemma replicateWebhook_accepted env req w payload :
  wh_method req = "POST"%string ->
  accepted env req = true ->
  JSON_parse (rawBody req) = Some payload ->
  run (replicateWebhook env req) w = run (process_payload env payload) w.
Proof.
  intros Hm Hacc Hp. unfold run, replicateWebhook. rewrite Hm.
  change (String.eqb "POST" "POST") with true. cbn [negb].
  unfold bind at 1. rewrite (signature_gate_accepted _ _ _ Hacc), Hp. reflexivity.
Qed.

Lemma process_payload_routed env payload w id job :
  payload <> JNull ->
  truthy (get_prop payload "id") = true ->
  routed_job payload w = Some (id, job) ->
  run (process_payload env payload) w
  = run (try_catch
           (apply_callback env id job (get_prop payload "status")
                           (get_prop payload "output") (get_prop payload "error"))
           (fun _ => reply 500 (BText "Processing error"));;
         reply 200 (BText "OK")) w.
Proof.
  intros Hn Hid Hr. unfold run, process_payload.
  destruct payload; try contradiction; rewrite Hid; cbn [negb];
    unfold bind, try_catch, job_by_replicateJobId;
    unfold routed_job in Hr; rewrite Hr; reflexivity.
Qed.

Lemma process_payload_unrouted env payload w :
  payload <> JNull ->
  truthy (get_prop payload "id") = true ->
  routed_job payload w = None ->
  run (process_payload env payload) w = (ok_reply, w).
Proof.
  intros Hn Hid Hr. unfold run, process_payload.
  destruct payload; try contradiction; rewrite Hid; cbn [negb];
    unfold bind, try_catch, job_by_replicateJobId;
    unfold routed_job in Hr; rewrite Hr; reflexivity.
Qed.

(** ** The webhook: what a routed callback does *)

Section Routed.

Variables (env : Env) (req : WebhookRequest) (w : World).
Variables (payload : JsValue) (id : string) (job : Job).

Hypothesis Hpost : wh_method req = "POST"%string.
Hypothesis Haccepted : accepted env req = true.
Hypothesis Hparse : JSON_parse (rawBody req) = Some payload.
Hypothesis Hnonnull : payload <> JNull.
Hypothesis Hid : truthy (get_prop payload "id") = true.
Hypothesis Hrouted : routed_job payload w = Some (id, job).

Lemma routed_lookup : jobs w !! id = Some job.
Proof. exact (proj1 (routed_job_sound _ _ _ _ Hrouted)). Qed.

Lemma routed_run :
  run (replicateWebhook env req) w
  = run (try_catch (apply_callback env id job (get_prop payload "status")
                                   (get_prop payload "output") (get_prop payload "error"))
                   (fun _ => reply 500 (BText "Processing error"));;
         reply 200 (BText "OK")) w.
Proof.
  rewrite (replicateWebhook_accepted _ _ _ _ Hpost Haccepted Hparse).
  exact (process_payload_routed _ _ _ _ _ Hnonnull Hid Hrouted).
Qed.

Lemma success_without_locator :
  is_success payload = true -> truthy (videoUrl_of (get_prop payload "output")) = false ->
  run (replicateWebhook env req) w = (processing_error, w).
Proof.
  intros Hs Hv. rewrite routed_run.
  unfold run, bind, try_catch, apply_callback, is_success in *.
  rewrite Hs, Hv. reflexivity.
Qed.

Lemma success_without_bucket :
  is_success payload = true -> truthy (videoUrl_of (get_prop payload "output")) = true -> bucket env = false ->
  run (replicateWebhook env req) w
  = (ok_reply, with_job id (set_failed (JStr STORAGE_UNAVAILABLE_MSG) (now env) job) w []).
Proof.
  intros Hs Hv Hb. rewrite routed_run.
  unfold run, bind, try_catch, apply_callback, is_success in *.
  rewrite Hs, Hv, Hb. cbn [negb]. unfold bind, job_update. rewrite routed_lookup.
  unfold with_job. rewrite app_nil_r. reflexivity.
Qed.

Lemma success_fetch_fails :
  is_success payload = true -> truthy (videoUrl_of (get_prop payload "output")) = true -> bucket env = true ->
  (forall content, fetch_result env <> FetchOk content) ->
  run (replicateWebhook env req) w
  = (processing_error,
     mkWorld (jobs w) (users w) (calls w ++ [EvFetch (videoUrl_of (get_prop payload "output"))])).
Proof.
  intros Hs Hv Hb Hf. rewrite routed_run.
  unfold run, bind, try_catch, apply_callback, is_success in *.
  rewrite Hs, Hv, Hb. cbn [negb]. unfold bind, fetch_bytes, bind, call.
  destruct (fetch_result env) as [m|c|m|content]; try reflexivity.
  now destruct (Hf content).
Qed.

Lemma success_save_fails content msg :
  is_success payload = true -> truthy (videoUrl_of (get_prop payload "output")) = true -> bucket env = true ->
  fetch_result env = FetchOk content -> save_result env = Some msg ->
  run (replicateWebhook env req) w
  = (ok_reply,
     with_job id (set_failed (JStr STORAGE_UNAVAILABLE_MSG) (now env) job) w
       [EvFetch (videoUrl_of (get_prop payload "output"));
        EvStorageSave (outputPath_of (userId job) id) content]).
Proof.
  intros Hs Hv Hb Hf Hsave. rewrite routed_run.
  unfold run, bind, try_catch, apply_callback, is_success in *.
  rewrite Hs, Hv, Hb. cbn [negb].
  unfold bind, fetch_bytes, storage_save, bind, call, ret. rewrite Hf.
  cbn [jobs users calls]. rewrite Hsave. unfold bind, job_update.
  cbn [jobs users calls]. rewrite routed_lookup. unfold with_job.
  rewrite <- app_assoc. reflexivity.
Qed.

Lemma success_completes content :
  is_success payload = true -> truthy (videoUrl_of (get_prop payload "output")) = true -> bucket env = true ->
  fetch_result env = FetchOk content -> save_result env = None ->
  run (replicateWebhook env req) w
  = (ok_reply,
     with_job id (set_completed (outputPath_of (userId job) id) (now env) job) w
       [EvFetch (videoUrl_of (get_prop payload "output"));
        EvStorageSave (outputPath_of (userId job) id) content]).
Proof.
  intros Hs Hv Hb Hf Hsave. rewrite routed_run.
  unfold run, bind, try_catch, apply_callback, is_success in *.
  rewrite Hs, Hv, Hb. cbn [negb].
  unfold bind, fetch_bytes, storage_save, bind, call, ret. rewrite Hf.
  cbn [jobs users calls]. rewrite Hsave. unfold job_update.
  cbn [jobs users calls]. rewrite routed_lookup. unfold with_job.
  rewrite <- app_assoc. reflexivity.
Qed.

Lemma failure_reported :
  is_success payload = false -> is_str (get_prop payload "status") "failed" = true ->
  run (replicateWebhook env req) w
  = (ok_reply,
     with_job id (set_failed (js_or (get_prop payload "error") (JStr "Replicate job failed")) (now env) job) w []).
Proof.
  intros Hs Hf. rewrite routed_run.
  unfold run, bind, try_catch, apply_callback, is_success in *.
  rewrite Hs, Hf. unfold job_update. rewrite routed_lookup.
  unfold with_job. rewrite app_nil_r. reflexivity.
Qed.

Lemma cancellation_reported :
  is_success payload = false -> is_str (get_prop payload "status") "failed" = false ->
  is_str (get_prop payload "status") "canceled" = true ->
  run (replicateWebhook env req) w
  = (ok_reply, with_job id (set_failed (JStr "Job was canceled") (now env) job) w []).
Proof.
  intros Hs Hf Hc. rewrite routed_run.
  unfold run, bind, try_catch, apply_callback, is_success in *.
  rewrite Hs, Hf, Hc. unfold job_update. rewrite routed_lookup.
  unfold with_job. rewrite app_nil_r. reflexivity.
Qed.

Lemma other_report_ignored :
  is_success payload = false -> is_str (get_prop payload "status") "failed" = false ->
  is_str (get_prop payload "status") "canceled" = false ->
  run (replicateWebhook env req) w = (ok_reply, w).
Proof.
  intros Hs Hf Hc. rewrite routed_run.
  unfold run, bind, try_catch, apply_callback, is_success in *.
  rewrite Hs, Hf, Hc. reflexivity.
Qed.

End Routed.

(** ** The webhook: every way it can change the store *)

Lemma replicateWebhook_refused env req w :
  wh_method req = "POST"%string -> accepted env req = false ->
  run (replicateWebhook env req) w
  = (Replied (mkResponse 401 (BText "Invalid signature")), w).
Proof.
  intros Hm Hacc. unfold run, replicateWebhook. rewrite Hm.
  change (String.eqb "POST" "POST") with true. cbn [negb].
  unfold bind. rewrite (signature_gate_refused _ _ _ Hacc). reflexivity.
Qed.

Lemma webhook_effect env req w :
  let w' := (run (replicateWebhook env req) w).2 in
  users w' = users w
  /\ (jobs w' = jobs w
      \/ exists id job j',
           jobs w !! id = Some job /\ replicateJobId job <> None
           /\ jobs w' = <[id := j']> (jobs w)
           /\ ((exists msg, j' = set_failed msg (now env) job)
               \/ j' = set_completed (outputPath_of (userId job) id) (now env) job)).
Proof.
  cbv zeta.
  destruct (String.eqb_spec (wh_method req) "POST") as [Hm|Hm].
  2:{ unfold run, replicateWebhook. apply String.eqb_neq in Hm. rewrite Hm. auto. }
  destruct (accepted env req) eqn:Hacc.
  2:{ rewrite (replicateWebhook_refused _ _ _ Hm Hacc). auto. }
  destruct (JSON_parse (rawBody req)) as [payload|] eqn:Hp.
  2:{ unfold run, replicateWebhook. rewrite Hm.
      change (String.eqb "POST" "POST") with true. cbn [negb]. unfold bind.
      rewrite (signature_gate_accepted _ _ _ Hacc), Hp. auto. }
  assert (Hnull : payload = JNull \/ payload <> JNull)
    by (destruct payload; auto; right; discriminate).
  destruct Hnull as [->|Hn].
  { rewrite (replicateWebhook_accepted _ _ _ _ Hm Hacc Hp). auto. }
  destruct (truthy (get_prop payload "id")) eqn:Hid.
  2:{ rewrite (replicateWebhook_accepted _ _ _ _ Hm Hacc Hp).
      unfold run, process_payload. destruct payload; try contradiction; rewrite Hid; auto. }
  destruct (routed_job payload w) as [[id job]|] eqn:Hr.
  2:{ rewrite (replicateWebhook_accepted _ _ _ _ Hm Hacc Hp),
        (process_payload_unrouted _ _ _ Hn Hid Hr). auto. }
  pose proof (routed_lookup _ _ _ _ Hr) as Hl.
  assert (Hrid : replicateJobId job <> None).
  { destruct (routed_job_sound _ _ _ _ Hr) as [_ H]. unfold has_replicateJobId in H.
    destruct (get_prop payload "id"); try discriminate.
    destruct (replicateJobId job); [discriminate | discriminate]. }
  assert (Hchange : forall j' cs,
            (exists msg, j' = set_failed msg (now env) job)
            \/ j' = set_completed (outputPath_of (userId job) id) (now env) job ->
            run (replicateWebhook env req) w = (ok_reply, with_job id j' w cs) ->
            users (run (replicateWebhook env req) w).2 = users w
            /\ (jobs (run (replicateWebhook env req) w).2 = jobs w
                \/ exists id job j',
                     jobs w !! id = Some job /\ replicateJobId job <> None
                     /\ jobs (run (replicateWebhook env req) w).2 = <[id := j']> (jobs w)
                     /\ ((exists msg, j' = set_failed msg (now env) job)
                         \/ j' = set_completed (outputPath_of (userId job) id) (now env) job))).
  { intros j' cs Hj' ->. split; [reflexivity|]. right. exists id, job, j'. auto. }
  destruct (is_success payload) eqn:Hs.
  - destruct (truthy (videoUrl_of (get_prop payload "output"))) eqn:Hv.
    2:{ rewrite (success_without_locator _ _ _ _ _ _ Hm Hacc Hp Hn Hid Hr Hs Hv). auto. }
    destruct (bucket env) eqn:Hb.
    2:{ eapply Hchange; [|exact (success_without_bucket _ _ _ _ _ _ Hm Hacc Hp Hn Hid Hr Hs Hv Hb)].
        eauto. }
    destruct (fetch_result env) as [m|c|m|content] eqn:Hf.
    4:{ destruct (save_result env) as [msg|] eqn:Hsave.
        - eapply Hchange;
            [|exact (success_save_fails _ _ _ _ _ _ Hm Hacc Hp Hn Hid Hr _ _ Hs Hv Hb Hf Hsave)].
          eauto.
        - eapply Hchange;
            [|exact (success_completes _ _ _ _ _ _ Hm Hacc Hp Hn Hid Hr _ Hs Hv Hb Hf Hsave)].
          eauto. }
    all: rewrite (success_fetch_fails _ _ _ _ _ _ Hm Hacc Hp Hn Hid Hr Hs Hv Hb);
      [auto | intros content; rewrite Hf; discriminate].
  - destruct (is_str (get_prop payload "status") "failed") eqn:Hfail.
    { eapply Hchange; [|exact (failure_reported _ _ _ _ _ _ Hm Hacc Hp Hn Hid Hr Hs Hfail)].
      eauto. }
    destruct (is_str (get_prop payload "status") "canceled") eqn:Hc.
    { eapply Hchange;
        [|exact (cancellation_reported _ _ _ _ _ _ Hm Hacc Hp Hn Hid Hr Hs Hfail Hc)].
      eauto. }
    rewrite (other_report_ignored _ _ _ _ _ _ Hm Hacc Hp Hn Hid Hr Hs Hfail Hc). auto.
Qed.

(** ** [startJob] and [createJob]: every way they can change the store *)

Lemma startJob_effect env req w :
  let w' := (run (startJob env req) w).2 in
  users w' = users w
  /\ (jobs w' = jobs w
      \/ exists id job j',
           jobs w !! id = Some job /\ status job = pending
           /\ jobs w' = <[id := j']> (jobs w)
           /\ ((exists rid, j' = set_processing rid job)
               \/ j' = set_completed_mock (outputPath_of (userId job) id)
                                          ("mock-" +:+ id) (now env) job)).
Proof.
  cbv zeta.
  unfold run, startJob, try_catch, bind, authenticate, bind, call, ret, reply, throw,
    doc, doc_get, ret, throw, validateSubscription, checkRateLimit, bind, user_get, call, ret, throw,
    start_processing, bind, verifyStorageWritable, mock_branch, try_catch, bind,
    fetch_bytes, storage_save, webhookUrl_of, createPrediction, bind, call, ret,
    reply, throw, job_update.
  repeat step.
  all: cbn beta iota; cbn [jobs users calls fst snd].
  all: try (split; [reflexivity | left; reflexivity]).
  all: match goal with
       | H3 : negb (String.eqb (userId ?j) ?uid) = false,
         H4 : negb (Status_eqb (status ?j) pending) = false,
         Hl : jobs _ !! ?id = Some ?j |- _ =>
           apply negb_false_iff in H3, H4; apply String.eqb_eq in H3;
           apply Status_eqb_eq in H4; subst uid;
           split; [reflexivity | right; exists id, j; eexists; repeat split; eauto]
       end.
Qed.

Lemma createJob_effect env req w :
  let w' := (run (createJob env req) w).2 in
  jobs w' = jobs w
  \/ exists j, status j = pending /\ replicateJobId j = None
               /\ jobs w' = <[auto_id env := j]> (jobs w).
Proof.
  cbv zeta.
  unfold run, createJob, try_catch, bind, authenticate, bind, call, ret, reply, throw,
    getOrCreateUser, validateSubscription, bind, user_get, user_set, job_set, call, ret,
    reply.
  repeat step.
  all: cbn beta iota; cbn [jobs users calls fst snd].
  all: try (left; reflexivity).
  all: right; eexists; repeat split; reflexivity.
Qed.


(** ** The life cycle along a sequence of invocations *)

Lemma never_backwards_refl w : never_backwards w w.
Proof. intros id j H. exists j. split; [exact H | lia]. Qed.

Lemma never_backwards_trans w1 w2 w3 :
  never_backwards w1 w2 -> never_backwards w2 w3 -> never_backwards w1 w3.
Proof.
  intros H12 H23 id j H. destruct (H12 id j H) as (j2 & H2 & Hr2).
  destruct (H23 id j2 H2) as (j3 & H3 & Hr3). exists j3. split; [exact H3 | lia].
Qed.

Lemma never_backwards_same w w' : jobs w' = jobs w -> never_backwards w w'.
Proof. intros E id j H. exists j. rewrite E. split; [exact H | lia]. Qed.

Lemma never_backwards_update w w' id0 job0 j' :
  jobs w !! id0 = Some job0 -> jobs w' = <[id0 := j']> (jobs w) ->
  (rank (status job0) <= rank (status j'))%nat ->
  never_backwards w w'.
Proof.
  intros Hl E Hr id j H. rewrite E. destruct (decide (id0 = id)) as [->|Hne].
  - exists j'. rewrite lookup_insert_eq. split; [reflexivity|].
    rewrite Hl in H. injection H as <-. exact Hr.
  - exists j. rewrite lookup_insert_ne by exact Hne. split; [exact H | lia].
Qed.

Lemma never_backwards_fresh w w' id0 j' :
  jobs w !! id0 = None -> jobs w' = <[id0 := j']> (jobs w) -> never_backwards w w'.
Proof.
  intros Hl E id j H. rewrite E. exists j. split; [|lia].
  rewrite lookup_insert_ne; [exact H|]. intros ->. rewrite Hl in H. discriminate.
Qed.

Lemma rank_terminal s : terminal s = true <-> rank s = 2%nat.
Proof. destruct s; simpl; split; intros H; try discriminate; reflexivity. Qed.

Lemma step_never_backwards op w :
  auto_id_fresh op w = true -> never_backwards w (step op w).2.
Proof.
  destruct op as [env req|env req|env req]; simpl; intros Hfresh.
  - destruct (createJob_effect env req w) as [E|(j & _ & _ & E)].
    + now apply never_backwards_same.
    + destruct (jobs w !! auto_id env) eqn:Hl; [discriminate|].
      exact (never_backwards_fresh _ _ _ _ Hl E).
  - destruct (startJob_effect env req w) as (_ & [E|(id & job & j' & Hl & Hs & E & _)]).
    + now apply never_backwards_same.
    + apply (never_backwards_update _ _ _ _ _ Hl E). rewrite Hs. simpl. lia.
  - destruct (webhook_effect env req w) as (_ & [E|(id & job & j' & Hl & Hrid & E & Hj)]).
    + now apply never_backwards_same.
    + apply (never_backwards_update _ _ _ _ _ Hl E).
      destruct Hj as [(msg & ->)| ->]; simpl; destruct (status job); simpl; lia.
Qed.

Lemma exec_never_backwards ops : forall w,
  admissible ops w = true -> never_backwards w (exec ops w).
Proof.
  induction ops as [|op ops IH]; intros w H; simpl.
  - apply never_backwards_refl.
  - simpl in H. apply andb_true_iff in H as [Hf Hrest].
    eapply never_backwards_trans; [exact (step_never_backwards op w Hf) | exact (IH _ Hrest)].
Qed.

Lemma exec_app ops more w : exec (ops ++ more) w = exec more (exec ops w).
Proof. revert w. induction ops as [|op ops IH]; intros w; simpl; [reflexivity | apply IH]. Qed.

Lemma admissible_app ops more w :
  admissible (ops ++ more) w = admissible ops w && admissible more (exec ops w).
Proof.
  revert w. induction ops as [|op ops IH]; intros w; simpl; [reflexivity|].
  rewrite IH, andb_assoc. reflexivity.
Qed.

Lemma pending_unrouted_same w w' :
  jobs w' = jobs w -> pending_unrouted w -> pending_unrouted w'.
Proof. intros E H id j. rewrite E. apply H. Qed.

Lemma pending_unrouted_insert w w' id0 j' :
  jobs w' = <[id0 := j']> (jobs w) ->
  (status j' = pending -> replicateJobId j' = None) ->
  pending_unrouted w -> pending_unrouted w'.
Proof.
  intros E Hj' H id j. rewrite E. destruct (decide (id0 = id)) as [->|Hne].
  - rewrite lookup_insert_eq. intros [= <-]. exact Hj'.
  - rewrite lookup_insert_ne by exact Hne. apply H.
Qed.

Lemma step_pending_unrouted op w : pending_unrouted w -> pending_unrouted (step op w).2.
Proof.
  intros H. destruct op as [env req|env req|env req]; simpl.
  - destruct (createJob_effect env req w) as [E|(j & Hs & Hrid & E)].
    + exact (pending_unrouted_same _ _ E H).
    + apply (pending_unrouted_insert _ _ _ _ E); [|exact H]. intros _. exact Hrid.
  - destruct (startJob_effect env req w) as (_ & [E|(id & job & j' & Hl & Hs & E & Hj)]).
    + exact (pending_unrouted_same _ _ E H).
    + apply (pending_unrouted_insert _ _ _ _ E); [|exact H].
      destruct Hj as [(rid & ->)| ->]; simpl; discriminate.
  - destruct (webhook_effect env req w) as (_ & [E|(id & job & j' & Hl & Hrid & E & Hj)]).
    + exact (pending_unrouted_same _ _ E H).
    + apply (pending_unrouted_insert _ _ _ _ E); [|exact H].
      destruct Hj as [(msg & ->)| ->]; simpl; discriminate.
Qed.

Lemma exec_pending_unrouted ops : forall w,
  pending_unrouted w -> pending_unrouted (exec ops w).
Proof.
  induction ops as [|op ops IH]; intros w H; simpl; [exact H|].
  apply IH, step_pending_unrouted, H.
Qed.

Lemma pending_unrouted_empty : pending_unrouted empty_world.
Proof. intros id j H. simpl in H. rewrite lookup_empty in H. discriminate. Qed.

Lemma step_transition op w id j :
  pending_unrouted w -> auto_id_fresh op w = true -> jobs w !! id = Some j ->
  exists j', jobs (step op w).2 !! id = Some j' /\ transition (status j) (status j').
Proof.
  intros Hinv Hfresh Hl.
  assert (Hsame : forall w', jobs w' = jobs w ->
            exists j', jobs w' !! id = Some j' /\ transition (status j) (status j')).
  { intros w' E. exists j. rewrite E. split; [exact Hl | now left]. }
  assert (Hupd : forall w' id0 job0 j0, jobs w !! id0 = Some job0 ->
            jobs w' = <[id0 := j0]> (jobs w) -> transition (status job0) (status j0) ->
            exists j', jobs w' !! id = Some j' /\ transition (status j) (status j')).
  { intros w' id0 job0 j0 Hl0 E Ht. rewrite E. destruct (decide (id0 = id)) as [->|Hne].
    - exists j0. rewrite lookup_insert_eq. split; [reflexivity|].
      rewrite Hl in Hl0. injection Hl0 as <-. exact Ht.
    - exists j. rewrite lookup_insert_ne by exact Hne. split; [exact Hl | now left]. }
  destruct op as [env req|env req|env req]; simpl in *.
  - destruct (createJob_effect env req w) as [E|(j0 & _ & _ & E)]; [now apply Hsame|].
    destruct (jobs w !! auto_id env) eqn:Hnone; [discriminate|].
    exists j. rewrite E, lookup_insert_ne; [split; [exact Hl | now left]|].
    intros <-. rewrite Hl in Hnone. discriminate.
  - destruct (startJob_effect env req w) as (_ & [E|(id0 & job0 & j0 & Hl0 & Hs & E & Hj)]);
      [now apply Hsame|].
    apply (Hupd _ _ _ _ Hl0 E). rewrite Hs. right. left. split; [reflexivity|].
    destruct Hj as [(rid & ->)| ->]; simpl; auto.
  - destruct (webhook_effect env req w)
      as (_ & [E|(id0 & job0 & j0 & Hl0 & Hrid & E & Hj)]); [now apply Hsame|].
    apply (Hupd _ _ _ _ Hl0 E).
    assert (Ht : terminal (status j0) = true) by (destruct Hj as [(msg & ->)| ->]; reflexivity).
    destruct (status job0) eqn:Hs.
    + destruct Hrid. exact (Hinv _ _ Hl0 Hs).
    + right. right. left. auto.
    + right. right. right. auto.
    + right. right. right. auto.
Qed.

(** C2, as amended. When the invocations run one at a time and every
    [createJob] draws an id that no job has: after any sequence of
    [createJob], [startJob] and [replicateWebhook] invocations, further
    invocations never delete a job nor move its status backwards in the
    order [pending], [processing], [{completed, failed}], so that a terminal
    job remains terminal; and the change made by one invocation is a step
    of the life cycle ([pending] to [processing], [processing] to
    [completed] or [failed]), the short cut of the mock mode ([pending] to
    [completed]), or the rewriting of a terminal status into a terminal
    status by a later callback. *)
Theorem status_never_moves_backwards
    (ops more : list Op) (id : string) (j : Job) :
  let w := exec ops empty_world in
  admissible more w = true ->
  jobs w !! id = Some j ->
  exists j', jobs (exec more w) !! id = Some j'
             /\ (rank (status j) <= rank (status j'))%nat
             /\ (terminal (status j) = true -> terminal (status j') = true)
             /\ (forall op, more = [op] -> transition (status j) (status j')).
Proof.
  intros w Hadm Hl.
  destruct (exec_never_backwards more w Hadm id j Hl) as (j' & Hl' & Hr).
  exists j'. repeat split; try assumption.
  - rewrite !rank_terminal. intros Ht. rewrite Ht in Hr.
    destruct (status j'); simpl in *; lia.
  - intros op ->. simpl in Hadm, Hl'. rewrite andb_true_r in Hadm.
    destruct (step_transition op w id j
                (exec_pending_unrouted ops _ pending_unrouted_empty) Hadm Hl)
      as (j'' & Hl'' & Ht).
    rewrite Hl' in Hl''. injection Hl'' as <-. exact Ht.
Qed.

(** ** The output path of a completed job *)

Lemma canonical_output_same w w' :
  jobs w' = jobs w -> canonical_output w -> canonical_output w'.
Proof. intros E H id j. rewrite E. apply H. Qed.

Lemma canonical_output_insert w w' id0 j' :
  jobs w' = <[id0 := j']> (jobs w) ->
  (status j' = completed -> outputVideoPath j' = Some (outputPath_of (userId j') id0)) ->
  canonical_output w -> canonical_output w'.
Proof.
  intros E Hj' H id j. rewrite E. destruct (decide (id0 = id)) as [->|Hne].
  - rewrite lookup_insert_eq. intros [= <-]. exact Hj'.
  - rewrite lookup_insert_ne by exact Hne. apply H.
Qed.

Lemma step_canonical_output op w :
  canonical_output w -> canonical_output (step op w).2.
Proof.
  intros H. destruct op as [env req|env req|env req]; simpl.
  - destruct (createJob_effect env req w) as [E|(j & Hs & _ & E)].
    + exact (canonical_output_same _ _ E H).
    + apply (canonical_output_insert _ _ _ _ E); [|exact H]. rewrite Hs. discriminate.
  - destruct (startJob_effect env req w) as (_ & [E|(id & job & j' & Hl & Hs & E & Hj)]).
    + exact (canonical_output_same _ _ E H).
    + apply (canonical_output_insert _ _ _ _ E); [|exact H].
      destruct Hj as [(rid & ->)| ->]; simpl; [discriminate | reflexivity].
  - destruct (webhook_effect env req w) as (_ & [E|(id & job & j' & Hl & Hrid & E & Hj)]).
    + exact (canonical_output_same _ _ E H).
    + apply (canonical_output_insert _ _ _ _ E); [|exact H].
      destruct Hj as [(msg & ->)| ->]; simpl; [discriminate | reflexivity].
Qed.

Lemma exec_canonical_output ops : forall w,
  canonical_output w -> canonical_output (exec ops w).
Proof.
  induction ops as [|op ops IH]; intros w H; simpl; [exact H|].
  apply IH, step_canonical_output, H.
Qed.

Lemma canonical_output_empty : canonical_output empty_world.
Proof. intros id j H. simpl in H. rewrite lookup_empty in H. discriminate. Qed.

(** C5, as amended. Whatever happened before, a callback that reaches a job
    already [completed] leaves its [outputVideoPath] as it is. (It is not a
    no-op: the other fields are written again.) *)
Theorem repeated_callback_keeps_output_path
    (ops : list Op) (env : Env) (req : WebhookRequest) (id : string) (job : Job) :
  let w := exec ops empty_world in
  jobs w !! id = Some job ->
  status job = completed ->
  exists job', jobs (run (replicateWebhook env req) w).2 !! id = Some job'
               /\ outputVideoPath job' = outputVideoPath job.
Proof.
  intros w Hl Hs.
  pose proof (exec_canonical_output ops _ canonical_output_empty id job Hl Hs) as Hcan.
  destruct (webhook_effect env req w) as (_ & [E|(id0 & job0 & j' & Hl0 & Hrid & E & Hj)]).
  - exists job. rewrite E. auto.
  - rewrite E. destruct (decide (id0 = id)) as [->|Hne].
    + exists j'. rewrite lookup_insert_eq. split; [reflexivity|].
      fold w in Hl0. rewrite Hl in Hl0. injection Hl0 as <-.
      destruct Hj as [(msg & ->)| ->]; simpl; [reflexivity | now rewrite Hcan].
    + exists job. rewrite lookup_insert_ne by exact Hne. auto.
Qed.

(** ** The webhook: the claims about one callback *)

Lemma truthy_id_nonnull payload : truthy (get_prop payload "id") = true -> payload <> JNull.
Proof. intros H ->. discriminate. Qed.

Lemma accepted_false_intro env req secret webhookId webhookTimestamp webhookSignature :
  REPLICATE_WEBHOOK_SECRET env = Some secret -> secret <> EmptyString ->
  webhook_id req = Some webhookId -> webhookId <> EmptyString ->
  webhook_timestamp req = Some webhookTimestamp -> webhookTimestamp <> EmptyString ->
  webhook_signature req = Some webhookSignature -> webhookSignature <> EmptyString ->
  verifyWebhookSignature (now env) (rawBody req) webhookId webhookTimestamp
                         webhookSignature secret = false ->
  signature_valid env req = false /\ Legacy.verification_runs env req = true
  /\ (REPLICATE_SKIP_WEBHOOK_VERIFY env <> Some "1"%string -> accepted env req = false).
Proof.
  intros Hs Hs' Hi Hi' Ht Ht' Hg Hg' Hv.
  assert (Htr : forall o s, o = Some s -> s <> EmptyString -> truthy_opt o = Some s).
  { intros o s -> Hne. simpl. destruct (String.eqb_spec s ""); [contradiction | reflexivity]. }
  unfold accepted, verification_runs, Legacy.verification_runs, signature_valid.
  rewrite (Htr _ _ Hs Hs'), (Htr _ _ Hi Hi'), (Htr _ _ Ht Ht'), (Htr _ _ Hg Hg'), Hv.
  repeat split. intros Hskip.
  assert (is_1 (REPLICATE_SKIP_WEBHOOK_VERIFY env) = false) as ->; [|reflexivity].
  unfold is_1. destruct (REPLICATE_SKIP_WEBHOOK_VERIFY env) as [s|]; [|reflexivity].
  destruct (String.eqb_spec s "1"); [subst; contradiction | reflexivity].
Qed.

(** C1, as amended. When the handler runs the verification (a secret is
    configured, the three headers are present and, in the current revision,
    the bypass flag is not set) and [verifyWebhookSignature] answers
    [false], the reply is 401 and nothing else has happened: no document is
    written and no call (download, storage) is made; this holds in both
    revisions of the handler. Conversely a request that changes anything was
    accepted by the gate, which lets through the requests it does not
    verify. *)
Theorem failed_verification_is_rejected
    (env : Env) (req : WebhookRequest) (w : World) :
  (forall secret webhookId webhookTimestamp webhookSignature,
     wh_method req = "POST"%string ->
     REPLICATE_WEBHOOK_SECRET env = Some secret -> secret <> EmptyString ->
     webhook_id req = Some webhookId -> webhookId <> EmptyString ->
     webhook_timestamp req = Some webhookTimestamp -> webhookTimestamp <> EmptyString ->
     webhook_signature req = Some webhookSignature -> webhookSignature <> EmptyString ->
     verifyWebhookSignature (now env) (rawBody req) webhookId webhookTimestamp
                            webhookSignature secret = false ->
     (REPLICATE_SKIP_WEBHOOK_VERIFY env <> Some "1"%string ->
      run (replicateWebhook env req) w
      = (Replied (mkResponse 401 (BText "Invalid signature")), w))
     /\ (forall parsed,
         run (Legacy.replicateWebhook env req parsed) w
         = (Replied (mkResponse 401 (BText "Invalid signature")), w)))
  /\ ((run (replicateWebhook env req) w).2 <> w -> accepted env req = true).
Proof.
  split.
  - intros secret webhookId webhookTimestamp webhookSignature Hm Hs Hs' Hi Hi' Ht Ht' Hg Hg' Hv.
    destruct (accepted_false_intro _ _ _ _ _ _ Hs Hs' Hi Hi' Ht Ht' Hg Hg' Hv)
      as (Hvalid & Hruns & Hacc).
    split.
    + intros Hskip. exact (replicateWebhook_refused _ _ _ Hm (Hacc Hskip)).
    + intros parsed. unfold run, Legacy.replicateWebhook. rewrite Hm.
      change (String.eqb "POST" "POST") with true. cbn [negb].
      unfold bind, Legacy.signature_gate. rewrite Hruns, Hvalid. reflexivity.
  - intros Hchanged. destruct (accepted env req) eqn:Hacc; [reflexivity|].
    exfalso. apply Hchanged.
    destruct (String.eqb_spec (wh_method req) "POST") as [Hm|Hm].
    + now rewrite (replicateWebhook_refused _ _ _ Hm Hacc).
    + unfold run, replicateWebhook. apply String.eqb_neq in Hm. now rewrite Hm.
Qed.

(** C4, as amended. For an accepted callback routed to a job the reply is
    200 and a failure is recorded in the job in these cases: storage is not
    configured or the write of the result fails (the job becomes [failed]
    with the storage message), the provider reports a failure or a
    cancellation (the job becomes [failed] with the reported reason or the
    fixed message). When a success report holds no usable locator or the
    download of the result fails, the reply is 500 and the job document is
    left as it was. A success report whose result is stored makes the job
    [completed], with the reply 200. *)
Theorem callback_outcomes
    (env : Env) (req : WebhookRequest) (w : World)
    (payload : JsValue) (id : string) (job : Job) :
  wh_method req = "POST"%string ->
  accepted env req = true ->
  JSON_parse (rawBody req) = Some payload ->
  truthy (get_prop payload "id") = true ->
  routed_job payload w = Some (id, job) ->
  let result := run (replicateWebhook env req) w in
  let url := videoUrl_of (get_prop payload "output") in
  let path := outputPath_of (userId job) id in
  let storage_failure := set_failed (JStr STORAGE_UNAVAILABLE_MSG) (now env) job in
  let reported := js_or (get_prop payload "error") (JStr "Replicate job failed") in
  (is_success payload = true -> truthy url = false -> result = (processing_error, w))
  /\ (is_success payload = true -> truthy url = true -> bucket env = false ->
      result = (ok_reply, with_job id storage_failure w []))
  /\ (is_success payload = true -> truthy url = true -> bucket env = true ->
      (forall content, fetch_result env <> FetchOk content) ->
      result = (processing_error, mkWorld (jobs w) (users w) (calls w ++ [EvFetch url])))
  /\ (forall content msg,
      is_success payload = true -> truthy url = true -> bucket env = true ->
      fetch_result env = FetchOk content -> save_result env = Some msg ->
      result = (ok_reply, with_job id storage_failure w
                            [EvFetch url; EvStorageSave path content]))
  /\ (forall content,
      is_success payload = true -> truthy url = true -> bucket env = true ->
      fetch_result env = FetchOk content -> save_result env = None ->
      result = (ok_reply, with_job id (set_completed path (now env) job) w
                            [EvFetch url; EvStorageSave path content]))
  /\ (is_success payload = false -> is_str (get_prop payload "status") "failed" = true ->
      result = (ok_reply, with_job id (set_failed reported (now env) job) w []))
  /\ (is_success payload = false -> is_str (get_prop payload "status") "failed" = false ->
      is_str (get_prop payload "status") "canceled" = true ->
      result = (ok_reply,
                with_job id (set_failed (JStr "Job was canceled") (now env) job) w [])).
Proof.
  intros Hm Hacc Hp Hid Hr. cbv zeta.
  pose proof (truthy_id_nonnull _ Hid) as Hn.
  repeat split.
  - exact (success_without_locator _ _ _ _ _ _ Hm Hacc Hp Hn Hid Hr).
  - exact (success_without_bucket _ _ _ _ _ _ Hm Hacc Hp Hn Hid Hr).
  - exact (success_fetch_fails _ _ _ _ _ _ Hm Hacc Hp Hn Hid Hr).
  - intros content msg. exact (success_save_fails _ _ _ _ _ _ Hm Hacc Hp Hn Hid Hr _ _).
  - intros content. exact (success_completes _ _ _ _ _ _ Hm Hacc Hp Hn Hid Hr _).
  - exact (failure_reported _ _ _ _ _ _ Hm Hacc Hp Hn Hid Hr).
  - exact (cancellation_reported _ _ _ _ _ _ Hm Hacc Hp Hn Hid Hr).
Qed.

Lemma is_str_false v s : v <> JStr s -> is_str v s = false.
Proof.
  intros H. destruct v as [| |b|m e|t|l|l]; try reflexivity. simpl.
  destruct (String.eqb_spec t s) as [->|]; [contradiction | reflexivity].
Qed.

(** C10, as amended. An accepted callback routed to a job, whose [status]
    is neither ['failed'] nor ['canceled']. When the [status] is not
    ['succeeded'], or the [output] is absent or falsy, the reply is 200 and
    nothing changes: every field of the job document, and the whole store,
    is as before, and no call is made. When the [status] is ['succeeded']
    and the [output] is truthy but holds no locator, as the empty array and
    the empty object do, the reply is 500 ['Processing error'], the job and
    the store being again as before. *)
Theorem other_status_changes_nothing
    (env : Env) (req : WebhookRequest) (w : World)
    (payload : JsValue) (id : string) (job : Job) :
  wh_method req = "POST"%string ->
  accepted env req = true ->
  JSON_parse (rawBody req) = Some payload ->
  truthy (get_prop payload "id") = true ->
  routed_job payload w = Some (id, job) ->
  get_prop payload "status" <> JStr "failed" ->
  get_prop payload "status" <> JStr "canceled" ->
  let status := get_prop payload "status" in
  let output := get_prop payload "output" in
  let result := run (replicateWebhook env req) w in
  (status <> JStr "succeeded" \/ truthy output = false ->
   result = (Replied (mkResponse 200 (BText "OK")), w)
   /\ jobs result.2 !! id = Some job)
  /\ (status = JStr "succeeded" -> truthy output = true ->
      truthy (videoUrl_of output) = false ->
      result = (Replied (mkResponse 500 (BText "Processing error")), w)
      /\ jobs result.2 !! id = Some job)
  /\ (status = JStr "succeeded" -> output = JArr [] \/ output = JObj [] ->
      result = (Replied (mkResponse 500 (BText "Processing error")), w)).
Proof.
  intros Hm Hacc Hp Hid Hr Hf Hc status output result.
  pose proof (truthy_id_nonnull _ Hid) as Hn.
  pose proof (routed_lookup _ _ _ _ Hr) as Hl.
  assert (Hlost : status = JStr "succeeded" -> truthy output = true ->
                  truthy (videoUrl_of output) = false -> result = (processing_error, w)).
  { intros Hs Ho Hv. apply (success_without_locator _ _ _ _ _ _ Hm Hacc Hp Hn Hid Hr).
    - unfold is_success. fold status output. rewrite Hs, Ho. reflexivity.
    - exact Hv. }
  split; [|split].
  - intros Hno.
    assert (E : result = (ok_reply, w)).
    { apply (other_report_ignored _ _ _ _ _ _ Hm Hacc Hp Hn Hid Hr).
      - unfold is_success. fold status output.
        destruct Hno as [Hs|Ho]; [rewrite (is_str_false _ _ Hs) | rewrite Ho, andb_false_r];
          reflexivity.
      - exact (is_str_false _ _ Hf).
      - exact (is_str_false _ _ Hc). }
    rewrite E. split; [reflexivity | exact Hl].
  - intros Hs Ho Hv. rewrite (Hlost Hs Ho Hv). split; [reflexivity | exact Hl].
  - intros Hs [Ho|Ho]; apply (Hlost Hs); rewrite Ho; reflexivity.
Qed.

(** ** [startJob]: the free-tier quota *)

Lemma checkRateLimit_spec env uid w :
  checkRateLimit env uid w
  = if negb (is_active (users w !! uid))
       && (FREE_USER_DAILY_LIMIT <=? quota_used env uid (jobs w))%nat
    then (Thrown rate_limit_message, w)
    else (Next true, w).
Proof.
  unfold checkRateLimit, bind, user_get.
  destruct (is_active (users w !! uid)); [reflexivity|].
  cbn [negb andb]. destruct (FREE_USER_DAILY_LIMIT <=? quota_used env uid (jobs w))%nat;
    reflexivity.
Qed.

Lemma counts_toward_quota_spec uid dayAgo j :
  counts_toward_quota uid dayAgo j = true
  <-> userId j = uid /\ (status j = processing \/ status j = completed)
      /\ dayAgo <= createdAt j.
Proof.
  unfold counts_toward_quota.
  rewrite !andb_true_iff, orb_true_iff, String.eqb_eq, !Status_eqb_eq, Z.leb_le.
  tauto.
Qed.

(** C6, as amended. A [startJob] call that reaches the quota check (token
    accepted, job present, owned by the caller and [pending]) is refused
    exactly when the user document does not say ['active'] and at least 2
    jobs of the user with status [processing] or [completed] were created
    in the last 24 hours; the refusal is the reply 500 that carries the
    free-tier message, and nothing is written or called for it. Otherwise
    the call goes on with the rest of the handler; in particular an
    ['active'] user is never refused by the quota, and [pending] and
    [failed] jobs are not counted. *)
Theorem startJob_quota
    (env : Env) (req : Request) (w : World) (authHeader uid mail id : string) (job : Job) :
  method req = "POST"%string ->
  authorization req = Some authHeader ->
  String.prefix "Bearer " authHeader = true ->
  verifyIdToken_result env = TokenOk uid mail ->
  get_prop (req_body req) "jobId" = JStr id ->
  id <> EmptyString ->
  contains_char "/" id = false ->
  jobs w !! id = Some job ->
  userId job = uid ->
  status job = pending ->
  let w' := mkWorld (jobs w) (users w)
                    (calls w ++ [EvVerifyIdToken (idToken_of authHeader);
                                 EvValidateSubscription uid]) in
  let refused := negb (is_active (users w !! uid))
                 && (2 <=? quota_used env uid (jobs w))%nat in
  run (startJob env req) w
  = (if refused
     then (Replied (mkResponse 500 (json_error rate_limit_message)), w')
     else run (try_catch
                 (start_processing env uid id (JStr id) job
                                   (get_prop (req_body req) "imageUrl"))
                 (fun msg => reply 500 (json_error (message_or_default msg)))) w')
  /\ (forall dayAgo j,
      counts_toward_quota uid dayAgo j = true
      <-> userId j = uid /\ (status j = processing \/ status j = completed)
          /\ dayAgo <= createdAt j).
Proof.
  intros Hm Ha Hp Ht Hj Hid Hslash Hl Hu Hs w' refused.
  split; [|intros; apply counts_toward_quota_spec].
  rewrite (startJob_authenticated env req w authHeader uid mail id Hm Ha Hp Ht Hj Hid Hslash).
  rewrite Hl, Hu, Hs, String.eqb_refl. cbn [negb Status_eqb].
  unfold run, try_catch, bind, validateSubscription, call.
  cbn [jobs users calls]. rewrite <- app_assoc. cbn [app]. fold w'.
  rewrite checkRateLimit_spec.
  change (users w') with (users w). change (jobs w') with (jobs w).
  change FREE_USER_DAILY_LIMIT with 2%nat. fold refused.
  destruct refused; reflexivity.
Qed.

(** ** [startJob]: the check of the uploaded image *)

(** The earlier revision does what C7 asks: a job whose image is not in
    storage is recorded as [failed], the reply is 400, and the inference
    provider is not called. *)
Lemma Legacy_startJob_missing_image
    (env : Env) (req : Request) (w : World) (authHeader uid mail id : string) (job : Job) :
  method req = "POST"%string ->
  authorization req = Some authHeader ->
  String.prefix "Bearer " authHeader = true ->
  verifyIdToken_result env = TokenOk uid mail ->
  get_prop (req_body req) "jobId" = JStr id ->
  id <> EmptyString ->
  contains_char "/" id = false ->
  jobs w !! id = Some job ->
  userId job = uid ->
  status job = pending ->
  bucket env = true ->
  exists_result env = ExistsIs false ->
  run (Legacy.startJob env req) w
  = (Replied (mkResponse 400 (json_error "Image not found. Please upload first.")),
     with_job id (set_failed (JStr "Image not uploaded") (now env) job) w
       [EvVerifyIdToken (idToken_of authHeader); EvValidateSubscription uid;
        EvStorageExists (inputImagePath job)]).
Proof.
  intros Hm Ha Hp Ht Hj Hid Hslash Hl Hu Hs Hb He.
  unfold run, Legacy.startJob. rewrite Hm.
  change (String.eqb "POST" "OPTIONS") with false.
  change (String.eqb "POST" "POST") with true.
  cbn [negb].
  unfold try_catch, bind, authenticate. rewrite Ha, Hp, Ht.
  unfold bind, call, ret. cbn [fst snd jobs users calls].
  rewrite Hj, (truthy_nonempty_string _ Hid), (doc_plain _ Hid Hslash).
  cbn [negb]. unfold ret, doc_get. cbn [jobs].
  rewrite Hl, Hu, Hs, String.eqb_refl, Hb.
  cbn [negb Status_eqb]. unfold validateSubscription, call, Legacy.signed_input,
    try_catch, bind, call. rewrite He. unfold bind, job_update.
  cbn [jobs users calls]. rewrite Hl. unfold with_job.
  rewrite <- !app_assoc. reflexivity.
Qed.

(** ** The scenario of the specification, run on the model *)

Example scenario_completes :
  admissible scenario empty_world = true
  /\ jobs (exec (firstn 1 scenario) empty_world) !! "j1"
     = Some {| userId := "u1"; inputImagePath := "uploads/u1/j1/original.jpg";
               outputVideoPath := None; status := pending; danceStyle := "disco";
               replicateJobId := None; createdAt := 1700000000000;
               completedAt := None; errorMessage := JNull |}
  /\ jobs started_world !! "j1" = Some processing_j1
  /\ jobs completed_world !! "j1" = Some completed_j1.
Proof. vm_compute. auto. Qed.

(** A callback for a prediction that no job knows is acknowledged and
    changes nothing. *)
Example unknown_prediction_is_acknowledged :
  let body := "{" +:+ json_member "id" (json_string "unknown-999") +:+ ","
                  +:+ json_member "status" (json_string "succeeded") +:+ "}" in
  run (replicateWebhook sample_env (signed_request body)) started_world
  = (ok_reply, started_world).
Proof. vm_compute. reflexivity. Qed.

(** ** Where the code departs from the claims *)

(** C1, counterexample. With the secret configured, a callback that carries
    no signature header at all is not verified, yet it is processed: the
    job goes from [processing] to [failed]. *)
Lemma unsigned_callback_changes_job :
  let req := unsigned_request failure_body in
  let result := run (replicateWebhook sample_env req) started_world in
  REPLICATE_WEBHOOK_SECRET sample_env = Some "whsec_abc"%string
  /\ webhook_signature req = None
  /\ verification_runs sample_env req = false
  /\ result.1 = ok_reply
  /\ status <$> jobs started_world !! "j1" = Some processing
  /\ status <$> jobs result.2 !! "j1" = Some failed.
Proof. vm_compute. auto 10. Qed.

(** C2, counterexample. After the scenario the job is [completed]; one more
    callback for the same prediction, correctly signed and reporting a
    failure, turns it into [failed]. *)
Lemma late_failure_overwrites_completed :
  let late := OpWebhook later_env (signed_request failure_body) in
  admissible (scenario ++ [late]) empty_world = true
  /\ verification_runs later_env (signed_request failure_body) = true
  /\ signature_valid later_env (signed_request failure_body) = true
  /\ status <$> jobs (exec scenario empty_world) !! "j1" = Some completed
  /\ status <$> jobs (exec (scenario ++ [late]) empty_world) !! "j1" = Some failed.
Proof. vm_compute. auto 10. Qed.

(** C3, counterexample. The header carries the expected signature without
    its padding character: no candidate equals the Base64 text of the HMAC,
    the timestamp is fresh, and the answer is [true]. *)
Lemma unpadded_signature_is_accepted :
  let expected := expectedSignature "{}" "msg_1" "1700000000" "whsec_abc" in
  verifyWebhookSignature 1700000000000 "{}" "msg_1" "1700000000" unpadded_header "whsec_abc"
  = true
  /\ isRecent 1700000000000 "1700000000" = true
  /\ expected = "dWBzc6Wq1qY3RhXpsQmvNUUlNaNww3B2e4l6GLDJMZI="%string
  /\ ~ In expected (signatures unpadded_header)
  /\ ~ In expected (split_char " " unpadded_header).
Proof.
  vm_compute. repeat split; try reflexivity.
  - intros [H|[]]. discriminate.
  - intros [H|[]]. discriminate.
Qed.

(** The same key results from a secret with and without the marker: a
    different secret does not always change the answer. *)
Example marker_is_only_stripped :
  verifyWebhookSignature 1700000000000 "{}" "msg_1" "1700000000"
    ("v1," +:+ expectedSignature "{}" "msg_1" "1700000000" "whsec_abc") "abc"
  = true.
Proof. vm_compute. reflexivity. Qed.

(** The self-check of scripts/test-webhook-signature.js fails: a signature
    made by [signWebhook] is refused by [verifyWebhookSignature] under the
    same secret. *)
Example script_self_check_fails :
  let secret := "whsec_MfKQ9r8GKYqrTwjUPD8ILPZIo2LaLaSw"%string in
  signWebhook "{}" "msg_1" "1700000000" secret
  = "x5lVgj0b/JJJaUYaa1+6I5J/EECcryrPlFN4VrkmI94="%string
  /\ expectedSignature "{}" "msg_1" "1700000000" secret
     = "qdB0i7f7kAr98mQyB9SAUpz57aOfegFn5KeKnXJ3unk="%string
  /\ verifyWebhookSignature 1700000000000 "{}" "msg_1" "1700000000"
       ("v1," +:+ signWebhook "{}" "msg_1" "1700000000" secret) secret
     = false.
Proof. vm_compute. auto. Qed.

(** The three changes named by the specification, on an example. *)
Example verification_examples :
  let sig := "v1," +:+ expectedSignature "{}" "msg_1" "1700000000" "whsec_abc" in
  verifyWebhookSignature 1700000000000 "{}" "msg_1" "1700000000" sig "whsec_abc" = true
  /\ verifyWebhookSignature 1700000000000 "{ }" "msg_1" "1700000000" sig "whsec_abc" = false
  /\ verifyWebhookSignature 1700000600000 "{}" "msg_1" "1700000000" sig "whsec_abc" = false
  /\ verifyWebhookSignature 1700000000000 "{}" "msg_1" "1700000000" sig "whsec_abd" = false.
Proof. vm_compute. auto. Qed.

(** C4, counterexample. An authentic success callback whose output holds no
    locator is answered 500 and the job stays [processing]. *)
Lemma missing_locator_is_not_recorded :
  let req := signed_request no_locator_body in
  let result := run (replicateWebhook sample_env req) started_world in
  verification_runs sample_env req = true
  /\ signature_valid sample_env req = true
  /\ JSON_parse (rawBody req)
     = Some (JObj [("id", JStr "pred-1"); ("status", JStr "succeeded");
                   ("output", JObj [])]%string)
  /\ result.1 = processing_error
  /\ jobs result.2 !! "j1" = Some processing_j1.
Proof. vm_compute. auto 10. Qed.

(** C5, counterexample. The success callback of the scenario, delivered a
    second time, downloads the result and writes the storage object again,
    and rewrites the job document. *)
Lemma repeated_success_writes_again :
  let req := signed_request success_body in
  let result := run (replicateWebhook later_env req) completed_world in
  signature_valid later_env req = true
  /\ jobs completed_world !! "j1" = Some completed_j1
  /\ storage_writes (calls completed_world) = 1%nat
  /\ result.1 = ok_reply
  /\ storage_writes (calls result.2) = 2%nat
  /\ completedAt <$> jobs result.2 !! "j1" = Some (Some 1700000060000)
  /\ jobs result.2 !! "j1" <> jobs completed_world !! "j1".
Proof. vm_compute. repeat split; try reflexivity. discriminate. Qed.

(** C6, counterexample. A free user with two jobs in [processing] created
    in the last day starts a third: the reply is 500, not 429. *)
Lemma quota_refusal_is_500 :
  let result := run (startJob sample_env start_j3_request) busy_world in
  is_active (users busy_world !! "u1") = false
  /\ quota_used sample_env "u1" (jobs busy_world) = 2%nat
  /\ result.1 = Replied (mkResponse 500 (json_error rate_limit_message))
  /\ jobs result.2 = jobs busy_world
  /\ inference_calls (calls result.2) = 0%nat.
Proof. vm_compute. auto 10. Qed.

(** C8, counterexample. Two authenticated calls that name no job and are
    not answered 404: without [jobId] the reply is 400, and with the path
    [jobs/j1], which is not the path of a document of the collection and
    the id of no job, the reply is 500; nothing is written or called. *)
Lemma unnamed_job_is_not_answered_404 :
  let missing := run (startJob sample_env start_without_jobId) started_world in
  let invalid := run (startJob sample_env start_with_full_path) started_world in
  get_prop (req_body start_without_jobId) "jobId" = JUndefined
  /\ missing.1 = Replied (mkResponse 400 (BJson (JObj [("error", JStr "jobId is required")]%string)))
  /\ get_prop (req_body start_with_full_path) "jobId" = JStr "jobs/j1"
  /\ jobs started_world !! "jobs/j1" = None
  /\ (exists r, invalid.1 = Replied r /\ code r = 500)
  /\ jobs invalid.2 = jobs started_world
  /\ inference_calls (calls invalid.2) = inference_calls (calls started_world).
Proof.
  vm_compute. repeat split; try reflexivity. eexists. split; reflexivity.
Qed.

(** C10, counterexample. An authentic success callback whose output is
    the empty array, routed to the job of the scenario, is answered 500. *)
Lemma empty_output_is_answered_500 :
  let req := signed_request empty_output_body in
  let result := run (replicateWebhook sample_env req) started_world in
  verification_runs sample_env req = true
  /\ signature_valid sample_env req = true
  /\ JSON_parse (rawBody req)
     = Some (JObj [("id", JStr "pred-1"); ("status", JStr "succeeded");
                   ("output", JArr [])]%string)
  /\ routed_job (JObj [("id", JStr "pred-1"); ("status", JStr "succeeded");
                       ("output", JArr [])]%string) started_world
     = Some ("j1"%string, processing_j1)
  /\ result.1 = Replied (mkResponse 500 (BText "Processing error"))
  /\ result.1 <> Replied (mkResponse 200 (BText "OK")).
Proof. vm_compute. repeat split; try reflexivity. discriminate. Qed.

(** C7: the current revision at a job whose image was never uploaded. The
    storage answers that the object does not exist, and would be asked by
    the earlier revision, which records the job as [failed]; the current
    revision does not ask, calls the inference provider and records the job
    as [processing]. *)
Theorem startJob_does_not_check_upload :
  let w := exec (firstn 1 scenario) empty_world in
  let current := run (startJob sample_env start_request) w in
  let earlier := run (Legacy.startJob sample_env start_request) w in
  exists_result sample_env = ExistsIs false
  /\ status <$> jobs w !! "j1" = Some pending
  /\ current.1
     = Replied (mkResponse 200
         (BJson (JObj [("jobId", JStr "j1"); ("replicateJobId", JStr "pred-1");
                       ("status", JStr "processing")]%string)))
  /\ inference_calls (calls current.2) = 1%nat
  /\ status <$> jobs current.2 !! "j1" = Some processing
  /\ earlier.1
     = Replied (mkResponse 400 (json_error "Image not found. Please upload first."))
  /\ inference_calls (calls earlier.2) = 0%nat
  /\ jobs earlier.2 !! "j1"
     = Some (set_failed (JStr "Image not uploaded") 1700000000000
               {| userId := "u1"; inputImagePath := "uploads/u1/j1/original.jpg";
                  outputVideoPath := None; status := pending; danceStyle := "disco";
                  replicateJobId := None; createdAt := 1700000000000;
                  completedAt := None; errorMessage := JNull |}).
Proof. vm_compute. auto 10. Qed.

(** ** What an overlap can do *)

(** The two parts, run one after the other on the same store, are the
    handler. *)
Lemma startJob_in_two_parts (env : Env) (req : Request) (w : World) :
  run (startJob env req) w
  = run (remains <- startJob_asks env req;; startJob_records req remains) w.
Proof.
  unfold run, startJob, startJob_asks, startJob_records, start_processing, ask_provider,
    mock_branch, try_catch, bind, authenticate, bind, call, ret, reply, throw.
  repeat step; reflexivity.
Qed.

(** The second part does not look at the document it updates: whatever the
    job has become since it was read, it is made [processing] again, its
    output, its date of completion and its error message being kept. *)
Lemma startJob_records_whatever (req : Request) (w : World) (id predictionId : string)
    (job : Job) :
  jobs w !! id = Some job ->
  run (startJob_records req (Some (id, predictionId))) w
  = (Replied (mkResponse 200 (BJson (JObj [("jobId", get_prop (req_body req) "jobId");
                                           ("replicateJobId", JStr predictionId);
                                           ("status", JStr "processing")]))),
     with_job id (set_processing predictionId job) w []).
Proof.
  intros Hl. unfold run, startJob_records, try_catch, bind, job_update, reply, with_job.
  rewrite Hl. cbn [jobs users calls]. rewrite app_nil_r. reflexivity.
Qed.

(** Two invocations of [startJob] for the same job overlap: the first has
    read the job, still [pending], and has the answer of the provider when
    the second runs, and when the callback for the prediction of the second
    completes the job. The update of the first then takes the [completed]
    job back to [processing], with the video and the date of completion it
    had. No sequence of whole invocations does this. *)
Lemma overlapping_startJob_reopens_a_completed_job :
  let asked := startJob_asks overtaken_env start_request created_world in
  let started := run (startJob sample_env start_request) asked.2 in
  let reported := run (replicateWebhook sample_env (signed_request success_body)) started.2 in
  let recorded := run (startJob_records start_request (Some ("j1", "pred-0")%string))
                      reported.2 in
  jobs created_world !! "j1" = Some pending_j1
  /\ asked.1 = Next (Some ("j1", "pred-0")%string)
  /\ jobs asked.2 = jobs created_world
  /\ jobs started.2 !! "j1" = Some processing_j1
  /\ jobs reported.2 !! "j1" = Some completed_j1
  /\ recorded.1
     = Replied (mkResponse 200
         (BJson (JObj [("jobId", JStr "j1"); ("replicateJobId", JStr "pred-0");
                       ("status", JStr "processing")]%string)))
  /\ jobs recorded.2 !! "j1"
     = Some {| userId := "u1";
               inputImagePath := "uploads/u1/j1/original.jpg";
               outputVideoPath := Some "outputs/u1/j1/dance.mp4"%string;
               status := processing;
               danceStyle := "disco";
               replicateJobId := Some "pred-0"%string;
               createdAt := 1700000000000;
               completedAt := Some 1700000000000;
               errorMessage := JNull |}.
Proof. vm_compute. auto 10. Qed.

(** ** The theorems at work on the scenario *)

Lemma verify_ignores_version_tags_witness :
  let sig := expectedSignature "{}" "msg_1" "1700000000" "whsec_abc" in
  Forall well_formed_candidate
    [(Some "v2", "AAAA"); (None, sig); (Some "any,tag", "BBBB")]%string
  /\ verifyWebhookSignature 1700000000000 "{}" "msg_1" "1700000000"
       (header_of (Some "v2", "AAAA") [(None, sig); (Some "any,tag", "BBBB")]%string)
       "whsec_abc"
     = true.
Proof.
  cbv zeta.
  assert (H : Forall well_formed_candidate
                [(Some "v2", "AAAA");
                 (None, expectedSignature "{}" "msg_1" "1700000000" "whsec_abc");
                 (Some "any,tag", "BBBB")]%string).
  { repeat constructor; vm_compute; reflexivity. }
  split; [exact H|].
  rewrite (verify_ignores_version_tags _ _ _ _ _ _ _ H). vm_compute. reflexivity.
Defined.

Lemma verifyWebhookSignature_true_iff_witness :
  let sig := "v1," +:+ expectedSignature "{}" "msg_1" "1700000000" "whsec_abc" in
  (exists c, In c (signatures sig)
             /\ Buffer_from_base64 c
                = SHA256.hmac (bytes_of_string (secretKey "whsec_abc"))
                              (bytes_of_string (signedContent "msg_1" "1700000000" "{}")))
  /\ (exists t, parseInt "1700000000" = Some t
                /\ Z.abs (1700000000000 - 1000 * t) < 300 * 1000).
Proof.
  cbv zeta.
  apply (proj1 (proj1 (verifyWebhookSignature_true_iff 1700000000000 "{}" "msg_1"
                         "1700000000"
                         ("v1," +:+ expectedSignature "{}" "msg_1" "1700000000" "whsec_abc")
                         "whsec_abc"))).
  vm_compute. reflexivity.
Defined.

Lemma failed_verification_is_rejected_witness :
  verifyWebhookSignature (now sample_env) (rawBody tampered_request) "msg_1" "1700000000"
    ("v1," +:+ expectedSignature success_body "msg_1" "1700000000" "whsec_abc") "whsec_abc"
  = false
  /\ run (replicateWebhook sample_env tampered_request) started_world
     = (Replied (mkResponse 401 (BText "Invalid signature")), started_world).
Proof.
  assert (H : verifyWebhookSignature (now sample_env) (rawBody tampered_request) "msg_1"
                "1700000000"
                ("v1," +:+ expectedSignature success_body "msg_1" "1700000000" "whsec_abc")
                "whsec_abc" = false) by (vm_compute; reflexivity).
  split; [exact H|].
  apply (proj1 (proj1 (failed_verification_is_rejected sample_env tampered_request
                         started_world)
                  "whsec_abc"%string "msg_1"%string "1700000000"%string
                  ("v1," +:+ expectedSignature success_body "msg_1" "1700000000" "whsec_abc")
                  eq_refl eq_refl ltac:(discriminate) eq_refl ltac:(discriminate)
                  eq_refl ltac:(discriminate) eq_refl
                  ltac:(apply String.eqb_neq; vm_compute; reflexivity) H)).
  discriminate.
Defined.

Lemma status_never_moves_backwards_witness :
  let more := [OpWebhook later_env (signed_request failure_body)] in
  admissible more (exec scenario empty_world) = true
  /\ jobs (exec scenario empty_world) !! "j1" = Some completed_j1
  /\ exists j', jobs (exec more (exec scenario empty_world)) !! "j1" = Some j'
                /\ (rank (status completed_j1) <= rank (status j'))%nat
                /\ (terminal (status completed_j1) = true -> terminal (status j') = true)
                /\ (forall op, more = [op] -> transition (status completed_j1) (status j')).
Proof.
  cbv zeta.
  assert (H1 : admissible [OpWebhook later_env (signed_request failure_body)]
                          (exec scenario empty_world) = true) by (vm_compute; reflexivity).
  assert (H2 : jobs (exec scenario empty_world) !! "j1" = Some completed_j1)
    by (vm_compute; reflexivity).
  split; [exact H1|]. split; [exact H2|].
  exact (status_never_moves_backwards scenario _ _ _ H1 H2).
Defined.

Lemma callback_outcomes_witness :
  let payload := JObj [("id", JStr "pred-1"); ("status", JStr "succeeded");
                       ("output", JStr "https://cdn/vid.mp4")]%string in
  JSON_parse (rawBody (signed_request success_body)) = Some payload
  /\ routed_job payload started_world = Some ("j1"%string, processing_j1)
  /\ run (replicateWebhook sample_env (signed_request success_body)) started_world
     = (ok_reply,
        with_job "j1" (set_completed "outputs/u1/j1/dance.mp4" 1700000000000 processing_j1)
          started_world
          [EvFetch (JStr "https://cdn/vid.mp4");
           EvStorageSave "outputs/u1/j1/dance.mp4" [0; 0; 0; 24]]).
Proof.
  cbv zeta.
  assert (Hp : JSON_parse (rawBody (signed_request success_body))
               = Some (JObj [("id", JStr "pred-1"); ("status", JStr "succeeded");
                             ("output", JStr "https://cdn/vid.mp4")]%string))
    by (vm_compute; reflexivity).
  assert (Hr : routed_job (JObj [("id", JStr "pred-1"); ("status", JStr "succeeded");
                                 ("output", JStr "https://cdn/vid.mp4")]%string)
                          started_world
               = Some ("j1"%string, processing_j1)) by (vm_compute; reflexivity).
  assert (Hacc : accepted sample_env (signed_request success_body) = true)
    by (vm_compute; reflexivity).
  split; [exact Hp|]. split; [exact Hr|].
  destruct (callback_outcomes sample_env (signed_request success_body)
              started_world _ _ _ eq_refl Hacc Hp eq_refl Hr)
    as (_ & _ & _ & _ & H & _).
  exact (H [0; 0; 0; 24] eq_refl eq_refl eq_refl eq_refl eq_refl).
Defined.

Lemma repeated_callback_keeps_output_path_witness :
  jobs (exec scenario empty_world) !! "j1" = Some completed_j1
  /\ exists job',
       jobs (run (replicateWebhook later_env (signed_request success_body))
                 (exec scenario empty_world)).2 !! "j1" = Some job'
       /\ outputVideoPath job' = outputVideoPath completed_j1.
Proof.
  assert (H : jobs (exec scenario empty_world) !! "j1" = Some completed_j1)
    by (vm_compute; reflexivity).
  split; [exact H|].
  exact (repeated_callback_keeps_output_path scenario later_env
           (signed_request success_body) "j1" completed_j1 H eq_refl).
Defined.

Lemma startJob_quota_witness :
  jobs busy_world !! "j3" = Some pending_j3
  /\ run (startJob sample_env start_j3_request) busy_world
     = (Replied (mkResponse 500 (json_error rate_limit_message)),
        mkWorld (jobs busy_world) (users busy_world)
                [EvVerifyIdToken "token-of-u1"; EvValidateSubscription "u1"]).
Proof.
  assert (Hl : jobs busy_world !! "j3" = Some pending_j3) by (vm_compute; reflexivity).
  split; [exact Hl|].
  pose proof (proj1 (startJob_quota sample_env start_j3_request busy_world
                       "Bearer token-of-u1" "u1" "u1@example.com" "j3" pending_j3
                       eq_refl eq_refl eq_refl eq_refl eq_refl ltac:(discriminate)
                       eq_refl Hl eq_refl eq_refl)) as H.
  assert (R : negb (is_active (users busy_world !! "u1"))
              && (2 <=? quota_used sample_env "u1" (jobs busy_world))%nat = true)
    by (vm_compute; reflexivity).
  rewrite R in H. exact H.
Defined.

Lemma startJob_guards_witness :
  let refused (w : World) (c : Z) (msg : string) :=
    (Replied (mkResponse c (BJson (JObj [("error", JStr msg)]%string))),
     mkWorld (jobs w) (users w) (calls w ++ [EvVerifyIdToken "token-of-u1"])) in
  run (startJob sample_env start_request) empty_world
  = refused empty_world 404 "Job not found"%string
  /\ run (startJob u2_env start_request) started_world
     = refused started_world 403 "Unauthorized"%string
  /\ run (startJob sample_env start_request) started_world
     = refused started_world 400 "Job already processing"%string
  /\ run (startJob sample_env start_request) completed_world
     = refused completed_world 400 "Job already completed"%string
  /\ run (startJob sample_env start_request) failed_world
     = refused failed_world 400 "Job already failed"%string
  /\ run (startJob sample_env start_without_jobId) started_world
     = refused started_world 400 "jobId is required"%string
  /\ exists msg, run (startJob sample_env start_with_full_path) started_world
                 = refused started_world 500 msg.
Proof.
  cbv zeta.
  assert (Hs : jobs started_world !! "j1" = Some processing_j1) by (vm_compute; reflexivity).
  assert (Hc : jobs completed_world !! "j1" = Some completed_j1) by (vm_compute; reflexivity).
  assert (Hf : status <$> jobs failed_world !! "j1" = Some failed) by (vm_compute; reflexivity).
  split; [|split; [|split; [|split; [|split; [|split]]]]].
  - exact (proj1 (startJob_guards sample_env start_request empty_world "Bearer token-of-u1" "u1" "u1@example.com"
                     eq_refl eq_refl eq_refl eq_refl)
             "j1"%string "j1"%string eq_refl eq_refl eq_refl).
  - pose proof (proj1 (startJob_guards u2_env start_request started_world "Bearer token-of-u1" "u2" "u2@example.com"
                     eq_refl eq_refl eq_refl eq_refl)
                  "j1"%string "j1"%string eq_refl eq_refl eq_refl) as H.
    rewrite Hs in H. apply (proj1 H). discriminate.
  - pose proof (proj1 (startJob_guards sample_env start_request started_world "Bearer token-of-u1" "u1" "u1@example.com"
                     eq_refl eq_refl eq_refl eq_refl)
                  "j1"%string "j1"%string eq_refl eq_refl eq_refl) as H.
    rewrite Hs in H. exact (proj1 (proj2 H) eq_refl eq_refl).
  - pose proof (proj1 (startJob_guards sample_env start_request completed_world "Bearer token-of-u1" "u1" "u1@example.com"
                     eq_refl eq_refl eq_refl eq_refl)
                  "j1"%string "j1"%string eq_refl eq_refl eq_refl) as H.
    rewrite Hc in H. exact (proj1 (proj2 (proj2 H)) eq_refl eq_refl).
  - pose proof (proj1 (startJob_guards sample_env start_request failed_world "Bearer token-of-u1" "u1" "u1@example.com"
                     eq_refl eq_refl eq_refl eq_refl)
                  "j1"%string "j1"%string eq_refl eq_refl eq_refl) as H.
    destruct (jobs failed_world !! "j1") as [job|] eqn:Hl; [|discriminate Hf].
    injection Hf as Hf.
    assert (Hu : userId job = "u1"%string).
    { assert (E : userId <$> jobs failed_world !! "j1" = Some "u1"%string)
        by (vm_compute; reflexivity).
      rewrite Hl in E. injection E as E. exact E. }
    exact (proj2 (proj2 (proj2 H)) Hu Hf).
  - exact (proj1 (proj2 (startJob_guards sample_env start_without_jobId started_world "Bearer token-of-u1" "u1" "u1@example.com"
                     eq_refl eq_refl eq_refl eq_refl))
             eq_refl).
  - apply (proj1 (proj2 (proj2 (startJob_guards sample_env start_with_full_path started_world "Bearer token-of-u1" "u1" "u1@example.com"
                     eq_refl eq_refl eq_refl eq_refl))) eq_refl).
    intros p [= <-]. right. reflexivity.
Defined.

Lemma other_status_changes_nothing_witness :
  let progress := JObj [("id", JStr "pred-1"); ("status", JStr "processing")]%string in
  let empty := JObj [("id", JStr "pred-1"); ("status", JStr "succeeded");
                     ("output", JArr [])]%string in
  (JSON_parse (rawBody (signed_request progress_body)) = Some progress
   /\ routed_job progress started_world = Some ("j1"%string, processing_j1)
   /\ run (replicateWebhook sample_env (signed_request progress_body)) started_world
      = (Replied (mkResponse 200 (BText "OK")), started_world))
  /\ (JSON_parse (rawBody (signed_request empty_output_body)) = Some empty
      /\ routed_job empty started_world = Some ("j1"%string, processing_j1)
      /\ run (replicateWebhook sample_env (signed_request empty_output_body)) started_world
         = (Replied (mkResponse 500 (BText "Processing error")), started_world)).
Proof.
  cbv zeta.
  assert (Hp : JSON_parse (rawBody (signed_request progress_body))
               = Some (JObj [("id", JStr "pred-1"); ("status", JStr "processing")]%string))
    by (vm_compute; reflexivity).
  assert (Hr : routed_job (JObj [("id", JStr "pred-1"); ("status", JStr "processing")]%string)
                          started_world
               = Some ("j1"%string, processing_j1)) by (vm_compute; reflexivity).
  assert (Hacc : accepted sample_env (signed_request progress_body) = true)
    by (vm_compute; reflexivity).
  assert (Hp' : JSON_parse (rawBody (signed_request empty_output_body))
                = Some (JObj [("id", JStr "pred-1"); ("status", JStr "succeeded");
                              ("output", JArr [])]%string))
    by (vm_compute; reflexivity).
  assert (Hr' : routed_job (JObj [("id", JStr "pred-1"); ("status", JStr "succeeded");
                                  ("output", JArr [])]%string) started_world
                = Some ("j1"%string, processing_j1)) by (vm_compute; reflexivity).
  assert (Hacc' : accepted sample_env (signed_request empty_output_body) = true)
    by (vm_compute; reflexivity).
  split.
  - split; [exact Hp|]. split; [exact Hr|].
    refine (proj1 (proj1 (other_status_changes_nothing sample_env (signed_request progress_body)
                            started_world _ _ _ eq_refl Hacc Hp eq_refl Hr _ _) _)).
    + discriminate.
    + discriminate.
    + left. discriminate.
  - split; [exact Hp'|]. split; [exact Hr'|].
    refine (proj2 (proj2 (other_status_changes_nothing sample_env
                            (signed_request empty_output_body)
                            started_world _ _ _ eq_refl Hacc' Hp' eq_refl Hr' _ _)) _ _).
    + discriminate.
    + discriminate.
    + reflexivity.
    + left. reflexivity.
Defined.

(** ** The quota of the earlier revision *)

(** The earlier [checkRateLimit] counts every job of the last day, the
    current one only those that reached the inference provider: a free user
    with two [pending] jobs is refused by the former and let through by the
    latter. *)
Example quota_counts_differ :
  let w := {| jobs := <["k1" := pending_j3]> (<["k2" := pending_j3]> ∅);
              users := ∅;
              calls := [] |} in
  (Legacy.checkRateLimit sample_env "u1" w).1 = Thrown rate_limit_message
  /\ (checkRateLimit sample_env "u1" w).1 = Next true.
Proof. vm_compute. auto. Qed.

(** * Further properties *)

(** ** Dates on known values *)

Example toISOString_values :
  toISOString 0 = Some "1970-01-01T00:00:00.000Z"%string
  /\ toISOString 1700000000000 = Some "2023-11-14T22:13:20.000Z"%string
  /\ toISOString (-1) = Some "1969-12-31T23:59:59.999Z"%string
  /\ toISOString 951782400000 = Some "2000-02-29T00:00:00.000Z"%string
  /\ toISOString 253402300799999 = Some "9999-12-31T23:59:59.999Z"%string
  /\ toISOString 253402300800000 = Some "+010000-01-01T00:00:00.000Z"%string
  /\ toISOString (-62167219200000) = Some "0000-01-01T00:00:00.000Z"%string
  /\ toISOString (-62167219200001) = Some "-000001-12-31T23:59:59.999Z"%string
  /\ toISOString 8640000000000000 = Some "+275760-09-13T00:00:00.000Z"%string
  /\ toISOString (-8640000000000000) = Some "-271821-04-20T00:00:00.000Z"%string
  /\ toISOString 8640000000000001 = None.
Proof. vm_compute. repeat split. Qed.

(** ** The checks shared by the endpoints *)

Lemma method_not (m expected : string) : m <> expected -> String.eqb m expected = false.
Proof. intros H. now apply String.eqb_neq. Qed.

(** X1. A request whose method an endpoint does not serve is answered at
    once: 204 with an empty body for OPTIONS and 405 otherwise on the four
    JSON endpoints, 405 for every method but POST on the webhook. Nothing
    is read, written or called for it. *)
Theorem unserved_method_is_answered_at_once
    (env : Env) (req : Request) (sreq : StatusRequest) (wreq : WebhookRequest) (w : World) :
  (method req <> "POST"%string ->
   run (createJob env req) w = (method_reply (method req), w)
   /\ run (startJob env req) w = (method_reply (method req), w)
   /\ run (getDownloadUrl env req) w = (method_reply (method req), w))
  /\ (st_method sreq <> "GET"%string ->
      run (getJobStatus env sreq) w = (method_reply (st_method sreq), w))
  /\ (wh_method wreq <> "POST"%string ->
      run (replicateWebhook env wreq) w
      = (Replied (mkResponse 405 (BText "Method not allowed")), w)).
Proof.
  split; [|split]; intros H; apply method_not in H;
    unfold run, createJob, startJob, getDownloadUrl, getJobStatus, replicateWebhook,
      method_reply, refusal; rewrite H; cbn [negb].
  - destruct (String.eqb (method req) "OPTIONS"); repeat split.
  - destruct (String.eqb (st_method sreq) "OPTIONS"); reflexivity.
  - reflexivity.
Qed.

Lemma authenticate_refuses env req w :
  has_bearer (authorization req) = false ->
  authenticate env req w
  = (Sent (mkResponse 401 (json_error "Missing or invalid Authorization header")), w).
Proof.
  unfold has_bearer, authenticate. destruct (authorization req) as [h|]; [|reflexivity].
  intros ->. reflexivity.
Qed.

Lemma authenticate_throws env req w h msg :
  authorization req = Some h -> String.prefix "Bearer " h = true ->
  verifyIdToken_result env = TokenRejected msg ->
  authenticate env req w = (Thrown msg, logged w [EvVerifyIdToken (idToken_of h)]).
Proof.
  intros Ha Hp Ht. unfold authenticate. rewrite Ha, Hp, Ht. reflexivity.
Qed.

Lemma authenticate_accepts env req w h uid mail :
  authorization req = Some h -> String.prefix "Bearer " h = true ->
  verifyIdToken_result env = TokenOk uid mail ->
  authenticate env req w = (Next (uid, mail), logged w [EvVerifyIdToken (idToken_of h)]).
Proof.
  intros Ha Hp Ht. unfold authenticate. rewrite Ha, Hp, Ht. reflexivity.
Qed.

(** X2. On the four JSON endpoints a request of the right method without
    an [Authorization] header that starts with [Bearer ] is answered 401;
    the identity provider is not called and nothing is read or written. *)
Theorem missing_bearer_is_401
    (env : Env) (req : Request) (sreq : StatusRequest) (w : World) :
  let unauthenticated := refusal 401 "Missing or invalid Authorization header" in
  (method req = "POST"%string -> has_bearer (authorization req) = false ->
   run (createJob env req) w = (unauthenticated, w)
   /\ run (startJob env req) w = (unauthenticated, w)
   /\ run (getDownloadUrl env req) w = (unauthenticated, w))
  /\ (st_method sreq = "GET"%string -> has_bearer (st_authorization sreq) = false ->
      run (getJobStatus env sreq) w = (unauthenticated, w)).
Proof.
  intros unauthenticated. split.
  - intros Hm Hb. unfold run, createJob, startJob, getDownloadUrl, try_catch, bind.
    served Hm. rewrite (authenticate_refuses env req w Hb). repeat split.
  - intros Hm Hb. unfold run, getJobStatus, try_catch, bind. served Hm.
    rewrite authenticate_refuses by exact Hb. reflexivity.
Qed.

(** X3. When the identity provider rejects the token, the four JSON
    endpoints answer 500 (not 401) with the message of the provider, or
    with the default text when that message is empty; the call to the
    provider is the only thing that happened. *)
Theorem rejected_token_is_500
    (env : Env) (req : Request) (sreq : StatusRequest) (w : World) (h msg : string) :
  String.prefix "Bearer " h = true ->
  verifyIdToken_result env = TokenRejected msg ->
  let failure := refusal 500 (message_or_default msg) in
  let w' := logged w [EvVerifyIdToken (idToken_of h)] in
  (method req = "POST"%string -> authorization req = Some h ->
   run (createJob env req) w = (failure, w')
   /\ run (startJob env req) w = (failure, w')
   /\ run (getDownloadUrl env req) w = (failure, w'))
  /\ (st_method sreq = "GET"%string -> st_authorization sreq = Some h ->
      run (getJobStatus env sreq) w = (failure, w')).
Proof.
  intros Hp Ht failure w'. split.
  - intros Hm Ha. unfold run, createJob, startJob, getDownloadUrl, try_catch, bind.
    served Hm. rewrite (authenticate_throws env req w h msg Ha Hp Ht). repeat split.
  - intros Hm Ha. unfold run, getJobStatus, try_catch, bind. served Hm.
    erewrite authenticate_throws; [reflexivity | exact Ha | exact Hp | exact Ht].
Qed.


(** ** [createJob] *)

Lemma existsb_eqb_In (s : string) (l : list string) :
  existsb (String.eqb s) l = true <-> In s l.
Proof.
  rewrite existsb_exists. split.
  - intros (x & Hin & He). apply String.eqb_eq in He. now subst.
  - intros H. exists s. split; [exact H | apply String.eqb_refl].
Qed.

(** X4. [createJob] checks the dance style before it writes anything: a
    body without a [danceStyle] that is one of the six styles is answered
    400, and neither the user document nor a job document is created. *)
Theorem createJob_checks_the_style_first
    (env : Env) (req : Request) (w : World) (h uid mail : string) :
  method req = "POST"%string ->
  authorization req = Some h ->
  String.prefix "Bearer " h = true ->
  verifyIdToken_result env = TokenOk uid mail ->
  (forall s, get_prop (req_body req) "danceStyle" = JStr s -> ~ In s validStyles) ->
  exists msg,
    run (createJob env req) w
    = (refusal 400 msg, logged w [EvVerifyIdToken (idToken_of h)])
    /\ (msg = "danceStyle is required"%string
        \/ msg = "Invalid danceStyle. Allowed: hip-hop, ballet, disco, breakdance, salsa, robot"%string).
Proof.
  intros Hm Ha Hp Ht Hbad. unfold run, createJob, try_catch, bind. served Hm.
  rewrite (authenticate_accepts env req w h uid mail Ha Hp Ht). cbn [fst snd].
  destruct (get_prop (req_body req) "danceStyle") as [| |b|m e|s|l|l] eqn:Hs;
    try (eexists; split; [reflexivity | now left]).
  destruct (String.eqb s ""); [eexists; split; [reflexivity | now left]|].
  destruct (existsb (String.eqb s) validStyles) eqn:Hv.
  - apply existsb_eqb_In in Hv. destruct (Hbad s eq_refl Hv).
  - eexists; split; [reflexivity | now right].
Qed.

Lemma createJob_creates_pending
    (env : Env) (req : Request) (w : World) (h uid mail style : string) :
  method req = "POST"%string ->
  authorization req = Some h ->
  String.prefix "Bearer " h = true ->
  verifyIdToken_result env = TokenOk uid mail ->
  get_prop (req_body req) "danceStyle" = JStr style ->
  In style validStyles ->
  let jobId := auto_id env in
  let path := uploadPath_of uid jobId in
  run (createJob env req) w
  = (Replied (mkResponse 200 (BJson (JObj [("jobId", JStr jobId);
                                           ("uploadPath", JStr path)]))),
     mkWorld (<[jobId := mkJob uid path None pending style None (now env) None JNull]>
                (jobs w))
             (ensured_users env uid mail (users w))
             (calls w ++ [EvVerifyIdToken (idToken_of h); EvValidateSubscription uid])).
Proof.
  intros Hm Ha Hp Ht Hs Hv jobId path. unfold run, createJob, try_catch, bind. served Hm.
  rewrite (authenticate_accepts env req w h uid mail Ha Hp Ht). cbn [fst snd].
  rewrite Hs. assert (Hne : String.eqb style "" = false).
  { apply String.eqb_neq. intros ->. simpl in Hv. intuition discriminate. }
  rewrite Hne. apply existsb_eqb_In in Hv. rewrite Hv. cbn [negb].
  unfold getOrCreateUser, bind, user_get, logged, ensured_users. cbn [users jobs calls].
  destruct (users w !! uid); cbn; rewrite <- app_assoc; reflexivity.
Qed.

(** X5. An authenticated [createJob] call with one of the six styles
    answers 200 with the id drawn for the job and its upload path; it
    stores a [pending] job owned by the caller, without prediction, output
    or error, and creates the user document (status ['none']) only when the
    caller has none: an existing user document is left as it is. *)
Theorem createJob_creates_a_pending_job
    (env : Env) (req : Request) (w : World) (h uid mail style : string) :
  method req = "POST"%string ->
  authorization req = Some h ->
  String.prefix "Bearer " h = true ->
  verifyIdToken_result env = TokenOk uid mail ->
  get_prop (req_body req) "danceStyle" = JStr style ->
  In style validStyles ->
  let jobId := auto_id env in
  let path := uploadPath_of uid jobId in
  run (createJob env req) w
  = (Replied (mkResponse 200 (BJson (JObj [("jobId", JStr jobId);
                                           ("uploadPath", JStr path)]))),
     mkWorld (<[jobId := mkJob uid path None pending style None (now env) None JNull]>
                (jobs w))
             (ensured_users env uid mail (users w))
             (calls w ++ [EvVerifyIdToken (idToken_of h); EvValidateSubscription uid])).
Proof.
  intros Hm Ha Hp Ht Hs Hv jobId path.
  pose proof (createJob_creates_pending env req w h uid mail style Hm Ha Hp Ht Hs Hv) as H.
  exact H.
Qed.


(** ** What the handlers keep true of the store *)

Lemma createJob_writes env req w :
  let w' := (run (createJob env req) w).2 in
  (jobs w' = jobs w
   \/ exists uid style, In style validStyles
        /\ jobs w' = <[auto_id env := mkJob uid (uploadPath_of uid (auto_id env)) None pending
                                            style None (now env) None JNull]> (jobs w))
  /\ (users w' = users w
      \/ exists uid mail, users w !! uid = None
           /\ users w' = <[uid := mkUser mail (now env) "none" uid]> (users w)).
Proof.
  cbv zeta.
  unfold run, createJob, try_catch, bind, authenticate, bind, call, ret, reply, throw,
    getOrCreateUser, validateSubscription, bind, user_get, user_set, job_set, call, ret,
    reply.
  repeat step.
  all: cbn beta iota; cbn [jobs users calls fst snd].
  all: try (split; left; reflexivity).
  all: match goal with
       | H : negb (existsb (String.eqb ?s) validStyles) = false |- _ =>
           apply negb_false_iff, existsb_eqb_In in H
       end.
  all: split; [right; eexists; eexists; split; [eassumption | reflexivity]|].
  - left; reflexivity.
  - right. eexists; eexists; split; [eassumption | reflexivity].
Qed.

Lemma step_users op w :
  (forall uid u, users w !! uid = Some u -> well_formed_user uid u) ->
  forall uid u, users (step op w).2 !! uid = Some u -> well_formed_user uid u.
Proof.
  intros H. destruct op as [env req|env req|env req]; simpl.
  - destruct (createJob_writes env req w) as (_ & [E|(uid0 & mail & Hnone & E)]); rewrite E.
    + exact H.
    + intros uid u. destruct (decide (uid0 = uid)) as [->|Hne].
      * rewrite lookup_insert_eq. intros [= <-]. split; reflexivity.
      * rewrite lookup_insert_ne by exact Hne. apply H.
  - destruct (startJob_effect env req w) as (E & _). rewrite E. exact H.
  - destruct (webhook_effect env req w) as (E & _). rewrite E. exact H.
Qed.

Lemma exec_users ops : forall w,
  (forall uid u, users w !! uid = Some u -> well_formed_user uid u) ->
  forall uid u, users (exec ops w) !! uid = Some u -> well_formed_user uid u.
Proof.
  induction ops as [|op ops IH]; intros w H; simpl; [exact H|].
  apply IH, step_users, H.
Qed.

Lemma reachable_users ops uid u :
  users (exec ops empty_world) !! uid = Some u -> well_formed_user uid u.
Proof.
  apply exec_users. intros uid' u' H. simpl in H. rewrite lookup_empty in H. discriminate.
Qed.

(** X6. No sequence of [createJob], [startJob] and [replicateWebhook]
    invocations makes anyone a subscriber: in a store that only these
    handlers wrote, every user document has the status ['none'], so that
    the free-tier limit of [checkRateLimit] applies to every caller. *)
Theorem quota_applies_to_everyone (ops : list Op) (env : Env) (uid : string) :
  let w := exec ops empty_world in
  (forall u, users w !! uid = Some u ->
     subscriptionStatus u = "none"%string /\ revenuecatUserId u = uid)
  /\ checkRateLimit env uid w
     = if (FREE_USER_DAILY_LIMIT <=? quota_used env uid (jobs w))%nat
       then (Thrown rate_limit_message, w)
       else (Next true, w).
Proof.
  intros w. split; [intros u; apply reachable_users|].
  rewrite checkRateLimit_spec.
  assert (is_active (users w !! uid) = false) as ->; [|reflexivity].
  unfold is_active. destruct (users w !! uid) as [u|] eqn:Hu; [|reflexivity].
  destruct (reachable_users ops uid u Hu) as [-> _]. reflexivity.
Qed.

Lemma step_identity op w id j :
  auto_id_fresh op w = true -> jobs w !! id = Some j ->
  exists j', jobs (step op w).2 !! id = Some j' /\ same_identity j j'.
Proof.
  intros Hfresh Hl.
  assert (Hsame : forall w', jobs w' = jobs w ->
            exists j', jobs w' !! id = Some j' /\ same_identity j j').
  { intros w' E. exists j. rewrite E. repeat split; auto. }
  assert (Hupd : forall w' id0 job0 j0, jobs w !! id0 = Some job0 ->
            jobs w' = <[id0 := j0]> (jobs w) -> same_identity job0 j0 ->
            exists j', jobs w' !! id = Some j' /\ same_identity j j').
  { intros w' id0 job0 j0 Hl0 E Hi. rewrite E. destruct (decide (id0 = id)) as [->|Hne].
    - exists j0. rewrite lookup_insert_eq. split; [reflexivity|].
      rewrite Hl in Hl0. injection Hl0 as <-. exact Hi.
    - exists j. rewrite lookup_insert_ne by exact Hne. repeat split; auto. }
  destruct op as [env req|env req|env req]; simpl in *.
  - destruct (createJob_effect env req w) as [E|(j0 & _ & _ & E)]; [now apply Hsame|].
    destruct (jobs w !! auto_id env) eqn:Hnone; [discriminate|].
    exists j. rewrite E, lookup_insert_ne; [repeat split; auto|].
    intros <-. rewrite Hl in Hnone. discriminate.
  - destruct (startJob_effect env req w) as (_ & [E|(id0 & job0 & j0 & Hl0 & Hs & E & Hj)]);
      [now apply Hsame|].
    apply (Hupd _ _ _ _ Hl0 E). destruct Hj as [(rid & ->)| ->]; repeat split.
  - destruct (webhook_effect env req w)
      as (_ & [E|(id0 & job0 & j0 & Hl0 & Hrid & E & Hj)]); [now apply Hsame|].
    apply (Hupd _ _ _ _ Hl0 E). destruct Hj as [(msg & ->)| ->]; repeat split.
Qed.

(** X7. The handlers never delete a job and never change its owner, its
    input path, its dance style or its date of creation: along any sequence
    of invocations (each new job getting an id that no document has) these
    fields keep the values they had. *)
Theorem job_identity_is_kept (ops : list Op) (w : World) (id : string) (j : Job) :
  admissible ops w = true ->
  jobs w !! id = Some j ->
  exists j', jobs (exec ops w) !! id = Some j'
             /\ userId j' = userId j /\ inputImagePath j' = inputImagePath j
             /\ danceStyle j' = danceStyle j /\ createdAt j' = createdAt j.
Proof.
  revert w j. induction ops as [|op ops IH]; intros w j Hadm Hl; simpl.
  - exists j. auto.
  - simpl in Hadm. apply andb_true_iff in Hadm as [Hf Hrest].
    destruct (step_identity op w id j Hf Hl) as (j1 & Hl1 & H1 & H2 & H3 & H4).
    destruct (IH _ j1 Hrest Hl1) as (j' & Hl' & H1' & H2' & H3' & H4').
    exists j'. repeat split; [exact Hl' | congruence ..].
Qed.

Lemma well_formed_insert (w w' : World) id0 j' :
  jobs w' = <[id0 := j']> (jobs w) -> well_formed_job id0 j' ->
  (forall id j, jobs w !! id = Some j -> well_formed_job id j) ->
  forall id j, jobs w' !! id = Some j -> well_formed_job id j.
Proof.
  intros E Hj' H id j. rewrite E. destruct (decide (id0 = id)) as [->|Hne].
  - rewrite lookup_insert_eq. intros [= <-]. exact Hj'.
  - rewrite lookup_insert_ne by exact Hne. apply H.
Qed.

Lemma step_well_formed op w :
  (forall id j, jobs w !! id = Some j -> well_formed_job id j) ->
  forall id j, jobs (step op w).2 !! id = Some j -> well_formed_job id j.
Proof.
  intros H. destruct op as [env req|env req|env req]; simpl.
  - destruct (createJob_writes env req w) as ([E|(uid & style & Hv & E)] & _).
    + rewrite E. exact H.
    + apply (well_formed_insert _ _ _ _ E); [|exact H].
      unfold well_formed_job; simpl. repeat split; auto; try discriminate.
  - destruct (startJob_effect env req w) as (_ & [E|(id & job & j' & Hl & Hs & E & Hj)]).
    + rewrite E. exact H.
    + apply (well_formed_insert _ _ _ _ E); [|exact H].
      destruct (H id job Hl) as (Hin & Hst & Hrid & Hterm & Hout & Hnone & Herr).
      destruct Hj as [(rid & ->)| ->]; unfold well_formed_job; simpl; repeat split;
        auto; try discriminate; try (intros; exfalso; congruence).
      * intros Hc. apply Hterm in Hc. rewrite Hs in Hc. discriminate.
      * intros _. apply Herr. rewrite Hs. discriminate.
      * intros [[=]|[=]].
  - destruct (webhook_effect env req w) as (_ & [E|(id & job & j' & Hl & Hrid0 & E & Hj)]).
    + rewrite E. exact H.
    + apply (well_formed_insert _ _ _ _ E); [|exact H].
      destruct (H id job Hl) as (Hin & Hst & Hrid & Hterm & Hout & Hnone & Herr).
      destruct Hj as [(msg & ->)| ->]; unfold well_formed_job; simpl; repeat split;
        auto; try discriminate; try (intros; exfalso; congruence).
      all: try (intros [[=]|[=]]).
Qed.

Lemma exec_well_formed ops : forall w,
  (forall id j, jobs w !! id = Some j -> well_formed_job id j) ->
  forall id j, jobs (exec ops w) !! id = Some j -> well_formed_job id j.
Proof.
  induction ops as [|op ops IH]; intros w H; simpl; [exact H|].
  apply IH, step_well_formed, H.
Qed.

Lemma reachable_well_formed ops id j :
  jobs (exec ops empty_world) !! id = Some j -> well_formed_job id j.
Proof.
  apply exec_well_formed. intros id' j' H. simpl in H. rewrite lookup_empty in H.
  discriminate.
Qed.

(** X8. When the invocations of [createJob], [startJob] and
    [replicateWebhook] run one at a time from the empty store, every job
    document is consistent: its input path is [uploads/<owner>/<id>/original.jpg], its
    style is one of the six, it has a prediction id exactly when it is no
    longer [pending] and a completion date exactly when it is [completed]
    or [failed]; a [completed] job points to
    [outputs/<owner>/<id>/dance.mp4], a job that is [pending] or
    [processing] has no output, and only a [failed] job carries an error
    message. *)
Theorem stored_jobs_are_consistent (ops : list Op) (id : string) (j : Job) :
  jobs (exec ops empty_world) !! id = Some j ->
  inputImagePath j = uploadPath_of (userId j) id
  /\ In (danceStyle j) validStyles
  /\ (status j = pending <-> replicateJobId j = None)
  /\ (terminal (status j) = true <-> completedAt j <> None)
  /\ (status j = completed ->
      outputVideoPath j = Some (outputPath_of (userId j) id))
  /\ (status j = pending \/ status j = processing -> outputVideoPath j = None)
  /\ (status j <> failed -> errorMessage j = JNull).
Proof. exact (reachable_well_formed ops id j). Qed.


(** ** [startJob]: after the guards and the quota *)

Lemma ltb_irrefl (s : string) : String.ltb s s = false.
Proof.
  unfold String.ltb. pose proof (String.compare_antisym s s) as H.
  destruct (String.compare s s); try reflexivity; discriminate.
Qed.

Lemma first_by_id_only (l : list (string * Job)) (a : string * Job) :
  l <> [] -> (forall x, In x l -> x = a) -> first_by_id l = Some a.
Proof.
  induction l as [|x l IH]; intros Hne Hall; [contradiction|].
  assert (x = a) as -> by (apply Hall; now left).
  simpl. destruct l as [|y l'].
  - reflexivity.
  - rewrite IH; [|discriminate | intros z Hz; apply Hall; now right].
    rewrite ltb_irrefl. reflexivity.
Qed.

Lemma inference_calls_app (l cs : list Event) :
  inference_calls (l ++ cs) = (inference_calls l + inference_calls cs)%nat.
Proof. unfold inference_calls. rewrite List.filter_app, length_app. reflexivity. Qed.

Section Started.

Variables (env : Env) (req : Request) (w : World).
Variables (authHeader uid mail id : string) (job : Job).

Hypothesis Hpost : method req = "POST"%string.
Hypothesis Hauth : authorization req = Some authHeader.
Hypothesis Hbearer : String.prefix "Bearer " authHeader = true.
Hypothesis Htoken : verifyIdToken_result env = TokenOk uid mail.
Hypothesis HjobId : get_prop (req_body req) "jobId" = JStr id.
Hypothesis Hid : id <> EmptyString.
Hypothesis Hplain : contains_char "/" id = false.
Hypothesis Hjob : jobs w !! id = Some job.
Hypothesis Howner : userId job = uid.
Hypothesis Hpending : status job = pending.
Hypothesis Hquota :
  is_active (users w !! uid) = true \/ (quota_used env uid (jobs w) < 2)%nat.

Lemma started_run :
  run (startJob env req) w
  = run (try_catch
           (start_processing env uid id (JStr id) job (get_prop (req_body req) "imageUrl"))
           (fun msg => reply 500 (json_error (message_or_default msg))))
        (logged w (checked_calls authHeader uid)).
Proof.
  rewrite (startJob_authenticated env req w authHeader uid mail id
             Hpost Hauth Hbearer Htoken HjobId Hid Hplain).
  rewrite Hjob, Howner, Hpending, String.eqb_refl. cbn [negb Status_eqb].
  unfold run, try_catch, bind, validateSubscription, call.
  cbn [jobs users calls]. rewrite <- app_assoc. cbn [app].
  rewrite checkRateLimit_spec. cbn [jobs users calls].
  assert (negb (is_active (users w !! uid))
          && (FREE_USER_DAILY_LIMIT <=? quota_used env uid (jobs w))%nat = false) as ->.
  { destruct Hquota as [-> | Hlt]; [reflexivity|].
    apply andb_false_iff. right. apply Nat.leb_gt. exact Hlt. }
  reflexivity.
Qed.

Lemma started_bad_imageUrl :
  usable_imageUrl (get_prop (req_body req) "imageUrl") = None ->
  exists msg,
    run (startJob env req) w = (refusal 400 msg, logged w (checked_calls authHeader uid))
    /\ (msg = "imageUrl is required. Upload image first, then call startJob with the download URL."%string
        \/ msg = "imageUrl must be a valid HTTP URL"%string).
Proof.
  intros Hu. rewrite started_run. unfold run, try_catch, start_processing.
  destruct (get_prop (req_body req) "imageUrl") as [| |b|m e|u|l|l];
    try (eexists; split; [reflexivity | now left]).
  simpl in Hu. destruct (String.eqb u ""); [eexists; split; [reflexivity | now left]|].
  cbn [negb andb] in Hu. destruct (String.prefix "http" u); [discriminate|].
  eexists; split; [reflexivity | now right].
Qed.

Lemma started_without_storage u :
  usable_imageUrl (get_prop (req_body req) "imageUrl") = Some u ->
  storage_writable env = false ->
  run (startJob env req) w
  = (refusal 503 STORAGE_UNAVAILABLE_MSG,
     logged w (checked_calls authHeader uid ++ if bucket env then probe_calls env uid id else [])).
Proof.
  intros Hu Hs. rewrite started_run. unfold run, try_catch, start_processing.
  destruct (get_prop (req_body req) "imageUrl") as [| |b|m e|u'|l|l]; try discriminate.
  simpl in Hu. destruct (String.eqb u' ""); [discriminate|].
  cbn [negb andb] in Hu. destruct (String.prefix "http" u'); [|discriminate].
  cbn [negb]. unfold storage_writable in Hs. unfold verifyStorageWritable, probe_calls.
  destruct (bucket env); cbn [negb andb] in *.
  - unfold bind. destruct (is_1 (STORAGE_SKIP_PROBE env)); [discriminate|].
    cbn [orb] in Hs. unfold call, ret. cbn [fst snd]. rewrite Hs. cbn [negb].
    unfold logged, reply. cbn [jobs users calls]. rewrite <- app_assoc. reflexivity.
  - unfold logged. rewrite app_nil_r. reflexivity.
Qed.

Lemma started_ready u :
  usable_imageUrl (get_prop (req_body req) "imageUrl") = Some u ->
  storage_writable env = true ->
  run (startJob env req) w
  = run (try_catch
           (if is_1 (REPLICATE_MOCK env) then mock_branch env uid id (JStr id)
            else
              webhookUrl <- webhookUrl_of env;;
              predictionId <- createPrediction env u (danceStyle job) webhookUrl;;
              job_update id (set_processing predictionId);;
              reply 200 (BJson (JObj [("jobId", JStr id);
                                      ("replicateJobId", JStr predictionId);
                                      ("status", JStr "processing")])))
           (fun msg => reply 500 (json_error (message_or_default msg))))
        (logged w (checked_calls authHeader uid ++ probe_calls env uid id)).
Proof.
  intros Hu Hs. rewrite started_run. unfold run, try_catch, start_processing.
  destruct (get_prop (req_body req) "imageUrl") as [| |b|m e|u'|l|l]; try discriminate.
  simpl in Hu. destruct (String.eqb u' ""); [discriminate|].
  cbn [negb andb] in Hu. destruct (String.prefix "http" u'); [|discriminate].
  injection Hu as ->.
  cbn [negb]. unfold storage_writable in Hs. unfold verifyStorageWritable, probe_calls.
  destruct (bucket env); cbn [negb andb] in *; [|discriminate].
  unfold bind at 1. destruct (is_1 (STORAGE_SKIP_PROBE env)).
  - unfold ret, logged. cbn [negb]. rewrite app_nil_r. reflexivity.
  - cbn [orb] in Hs. unfold bind, call, ret. cbn [fst snd]. rewrite Hs. cbn [negb].
    unfold logged. cbn [jobs users calls]. rewrite <- app_assoc. reflexivity.
Qed.

(** X9. A [startJob] call that passed the guards and the quota is refused
    with 400 when the body holds no [imageUrl], or one that is not a
    non-empty string, or one that does not start with [http]; the job stays
    [pending] and neither storage nor the inference provider is called. *)
Theorem startJob_requires_an_image_url :
  usable_imageUrl (get_prop (req_body req) "imageUrl") = None ->
  exists msg,
    run (startJob env req) w = (refusal 400 msg, logged w (checked_calls authHeader uid))
    /\ (msg = "imageUrl is required. Upload image first, then call startJob with the download URL."%string
        \/ msg = "imageUrl must be a valid HTTP URL"%string).
Proof.
  intros Hu. destruct (started_bad_imageUrl Hu) as (msg & Hrun & Hmsg).
  exists msg. split; [exact Hrun | exact Hmsg].
Qed.

(** X10. When storage cannot take the result (no bucket, or the probe
    write fails and is not skipped by configuration), [startJob] answers
    503 before the inference provider is called: the job stays [pending],
    and the probe is the only call added. *)
Theorem startJob_needs_writable_storage u :
  usable_imageUrl (get_prop (req_body req) "imageUrl") = Some u ->
  storage_writable env = false ->
  let result := run (startJob env req) w in
  result = (refusal 503 STORAGE_UNAVAILABLE_MSG,
            logged w (checked_calls authHeader uid ++ if bucket env then probe_calls env uid id else []))
  /\ jobs result.2 !! id = Some job
  /\ inference_calls (calls result.2) = inference_calls (calls w).
Proof.
  intros Hu Hs result. unfold result. rewrite (started_without_storage u Hu Hs).
  split; [reflexivity|]. split; [exact Hjob|].
  cbn [snd logged calls]. rewrite inference_calls_app.
  unfold probe_calls, checked_calls.
  unfold inference_calls at 2.
  destruct (bucket env), (is_1 (STORAGE_SKIP_PROBE env)); simpl; lia.
Qed.

Lemma started_provider_answers u url p :
  usable_imageUrl (get_prop (req_body req) "imageUrl") = Some u ->
  storage_writable env = true ->
  is_1 (REPLICATE_MOCK env) = false ->
  webhookUrl_result env = WebhookUrl url ->
  createPrediction_result env = PredictionCreated p ->
  run (startJob env req) w
  = (Replied (mkResponse 200 (BJson (JObj [("jobId", JStr id);
                                           ("replicateJobId", JStr p);
                                           ("status", JStr "processing")]))),
     with_job id (set_processing p job) w
       (checked_calls authHeader uid ++ probe_calls env uid id
        ++ [EvCreatePrediction u (danceStyle job) (truthy_opt url)])).
Proof.
  intros Hu Hs Hmock Hurl Hp. rewrite (started_ready u Hu Hs), Hmock.
  unfold run, try_catch, bind, webhookUrl_of. rewrite Hurl.
  unfold ret, createPrediction, bind, call. cbn [fst snd logged jobs users calls].
  rewrite Hp. unfold ret, job_update. cbn [jobs users calls]. rewrite Hjob.
  unfold with_job, reply. rewrite <- !app_assoc. reflexivity.
Qed.

(** X11. Outside the mock mode, a [startJob] call that passed every check
    asks the inference provider once, with the image URL of the request,
    the style of the job and the webhook URL. When the provider answers,
    the job becomes [processing] with the id of the prediction and the
    reply is 200; when the call fails, the reply is 500 with its message
    and the job stays [pending], so that the call can be made again. *)
Theorem startJob_asks_the_provider_once u url :
  usable_imageUrl (get_prop (req_body req) "imageUrl") = Some u ->
  storage_writable env = true ->
  is_1 (REPLICATE_MOCK env) = false ->
  webhookUrl_result env = WebhookUrl url ->
  let asked := checked_calls authHeader uid ++ probe_calls env uid id
               ++ [EvCreatePrediction u (danceStyle job) (truthy_opt url)] in
  match createPrediction_result env with
  | PredictionCreated p =>
      run (startJob env req) w
      = (Replied (mkResponse 200 (BJson (JObj [("jobId", JStr id);
                                               ("replicateJobId", JStr p);
                                               ("status", JStr "processing")]))),
         with_job id (set_processing p job) w asked)
  | PredictionThrows msg =>
      run (startJob env req) w = (refusal 500 (message_or_default msg), logged w asked)
  end.
Proof.
  intros Hu Hs Hmock Hurl asked. rewrite (started_ready u Hu Hs), Hmock.
  unfold run, try_catch, bind, webhookUrl_of. rewrite Hurl.
  unfold ret, createPrediction, bind, call. cbn [fst snd logged jobs users calls].
  destruct (createPrediction_result env) as [msg|p].
  - unfold throw, reply, refusal, logged. rewrite <- ?app_assoc. reflexivity.
  - unfold ret, job_update. cbn [jobs users calls]. rewrite Hjob.
    unfold with_job, reply. rewrite <- ?app_assoc. reflexivity.
Qed.

(** X12. In the mock mode ([REPLICATE_MOCK] is ['1']) [startJob] never
    calls the inference provider. It downloads the sample video and stores
    it as the output of the job: when both succeed the job becomes
    [completed] with the prediction id [mock-<id>] and the reply is 200;
    when the download or the write fails the reply is 500 with a message
    that starts with [Mock mode failed: ] and the job stays [pending]. *)
Theorem startJob_mock_mode_skips_the_provider u :
  usable_imageUrl (get_prop (req_body req) "imageUrl") = Some u ->
  storage_writable env = true ->
  is_1 (REPLICATE_MOCK env) = true ->
  let result := run (startJob env req) w in
  let path := outputPath_of uid id in
  let fetched := checked_calls authHeader uid ++ probe_calls env uid id
                 ++ [EvFetch (JStr (mockVideoUrl env))] in
  inference_calls (calls result.2) = inference_calls (calls w)
  /\ match fetch_result env with
     | FetchOk content =>
         match save_result env with
         | None =>
             result
             = (Replied (mkResponse 200 (BJson (JObj [("jobId", JStr id);
                                                      ("status", JStr "completed");
                                                      ("mock", JBool true)]))),
                with_job id (set_completed_mock path ("mock-" +:+ id) (now env) job) w
                  (fetched ++ [EvStorageSave path content]))
         | Some msg =>
             result = (refusal 500 ("Mock mode failed: " +:+ msg),
                       logged w (fetched ++ [EvStorageSave path content]))
         end
     | FetchNotOk c =>
         result = (refusal 500 ("Mock mode failed: Mock video fetch failed: " +:+ c),
                   logged w fetched)
     | FetchThrows msg | FetchBodyThrows msg =>
         result = (refusal 500 ("Mock mode failed: " +:+ msg), logged w fetched)
     end.
Proof.
  intros Hu Hs Hmock result path fetched.
  assert (Hquiet : forall cs, inference_calls cs = 0%nat ->
            inference_calls (calls w ++ fetched ++ cs) = inference_calls (calls w)).
  { intros cs Hcs. rewrite !inference_calls_app, Hcs. unfold fetched.
    rewrite !inference_calls_app. unfold probe_calls, checked_calls.
    set (n := inference_calls (calls w)). unfold inference_calls.
    destruct (is_1 (STORAGE_SKIP_PROBE env)); simpl; lia. }
  assert (Hrun : result = run (try_catch (mock_branch env uid id (JStr id))
                                 (fun msg => reply 500 (json_error (message_or_default msg))))
                              (logged w (checked_calls authHeader uid ++ probe_calls env uid id))).
  { unfold result. rewrite (started_ready u Hu Hs), Hmock. reflexivity. }
  rewrite Hrun. clear Hrun.
  unfold run, try_catch, mock_branch, try_catch, bind, fetch_bytes, bind, call.
  fold (mockVideoUrl env). cbn [fst snd logged jobs users calls].
  destruct (fetch_result env) as [msg|c|msg|content].
  1-3: cbn [snd calls]; split;
    [match goal with
     | |- inference_calls ?l = _ =>
         replace l with (calls w ++ fetched ++ [])
           by (unfold fetched; rewrite ?app_nil_r, <- ?app_assoc; reflexivity)
     end; apply Hquiet; reflexivity
    |unfold refusal, logged, fetched; rewrite <- ?app_assoc; reflexivity].
  unfold ret, storage_save, bind, call, ret. cbn [fst snd jobs users calls].
  destruct (save_result env) as [msg|].
  - cbn [snd calls]. split.
    + match goal with
      | |- inference_calls ?l = _ =>
          replace l with (calls w ++ fetched ++ [EvStorageSave path content])
            by (unfold fetched; rewrite <- ?app_assoc; reflexivity)
      end. apply Hquiet. reflexivity.
    + unfold refusal, logged, fetched. rewrite <- ?app_assoc. reflexivity.
  - unfold job_update. cbn [jobs users calls]. rewrite Hjob. cbn [snd calls]. split.
    + match goal with
      | |- inference_calls ?l = _ =>
          replace l with (calls w ++ fetched ++ [EvStorageSave path content])
            by (unfold fetched; rewrite <- ?app_assoc; reflexivity)
      end. apply Hquiet. reflexivity.
    + unfold with_job, fetched. rewrite <- ?app_assoc. reflexivity.
Qed.

Lemma started_store u url p :
  usable_imageUrl (get_prop (req_body req) "imageUrl") = Some u ->
  storage_writable env = true ->
  is_1 (REPLICATE_MOCK env) = false ->
  webhookUrl_result env = WebhookUrl url ->
  createPrediction_result env = PredictionCreated p ->
  jobs (run (startJob env req) w).2 = <[id := set_processing p job]> (jobs w).
Proof.
  intros Hu Hs Hmock Hurl Hp. rewrite (started_ready u Hu Hs), Hmock.
  unfold run, try_catch, bind, webhookUrl_of. rewrite Hurl.
  unfold ret, createPrediction, bind, call. cbn [fst snd logged jobs users calls].
  rewrite Hp. unfold ret, job_update. cbn [jobs users calls]. rewrite Hjob. reflexivity.
Qed.

Lemma started_routes u url p payload :
  usable_imageUrl (get_prop (req_body req) "imageUrl") = Some u ->
  storage_writable env = true ->
  is_1 (REPLICATE_MOCK env) = false ->
  webhookUrl_result env = WebhookUrl url ->
  createPrediction_result env = PredictionCreated p ->
  (forall id' j', jobs w !! id' = Some j' -> replicateJobId j' <> Some p) ->
  get_prop payload "id" = JStr p ->
  routed_job payload (run (startJob env req) w).2 = Some (id, set_processing p job).
Proof.
  intros Hu Hs Hmock Hurl Hp Hfresh Hpid.
  unfold routed_job. rewrite (started_store u url p Hu Hs Hmock Hurl Hp), Hpid.
  apply first_by_id_only.
  - intros Hnil.
    assert (Hin : In (id, set_processing p job)
                    (jobs_where (has_replicateJobId (JStr p))
                                (<[id := set_processing p job]> (jobs w)))).
    { apply jobs_where_in. rewrite lookup_insert_eq. split; [reflexivity|].
      simpl. apply String.eqb_refl. }
    rewrite Hnil in Hin. destruct Hin.
  - intros [k j] Hin. apply jobs_where_in in Hin as [Hl Hhas].
    destruct (decide (id = k)) as [<-|Hk].
    + rewrite lookup_insert_eq in Hl. now injection Hl as <-.
    + rewrite lookup_insert_ne in Hl by exact Hk. exfalso.
      unfold has_replicateJobId in Hhas.
      destruct (replicateJobId j) as [r|] eqn:Hrid; [|discriminate].
      apply String.eqb_eq in Hhas. subst r. exact (Hfresh k j Hl Hrid).
Qed.

(** X13. The prediction id that [startJob] stores routes the callback of
    the provider back to the job: when no other job carries that id, a
    callback that names it and passes the signature gate is applied to the
    started job, as [startJob] left it. *)
Theorem callback_reaches_the_started_job
    u url p (env' : Env) (wreq : WebhookRequest) (payload : JsValue) :
  usable_imageUrl (get_prop (req_body req) "imageUrl") = Some u ->
  storage_writable env = true ->
  is_1 (REPLICATE_MOCK env) = false ->
  webhookUrl_result env = WebhookUrl url ->
  createPrediction_result env = PredictionCreated p ->
  (forall id' j', jobs w !! id' = Some j' -> replicateJobId j' <> Some p) ->
  wh_method wreq = "POST"%string ->
  accepted env' wreq = true ->
  JSON_parse (rawBody wreq) = Some payload ->
  get_prop payload "id" = JStr p ->
  p <> EmptyString ->
  let w' := (run (startJob env req) w).2 in
  routed_job payload w' = Some (id, set_processing p job)
  /\ run (replicateWebhook env' wreq) w'
     = run (try_catch
              (apply_callback env' id (set_processing p job) (get_prop payload "status")
                              (get_prop payload "output") (get_prop payload "error"))
              (fun _ => reply 500 (BText "Processing error"));;
            reply 200 (BText "OK")) w'.
Proof.
  intros Hu Hs Hmock Hurl Hp Hfresh Hm Hacc Hparse Hpid Hne w'.
  assert (Hr : routed_job payload w' = Some (id, set_processing p job))
    by exact (started_routes u url p payload Hu Hs Hmock Hurl Hp Hfresh Hpid).
  split; [exact Hr|].
  assert (Hid' : truthy (get_prop payload "id") = true).
  { rewrite Hpid. now apply truthy_nonempty_string. }
  rewrite (replicateWebhook_accepted _ _ _ _ Hm Hacc Hparse).
  exact (process_payload_routed _ _ _ _ _ (truthy_id_nonnull _ Hid') Hid' Hr).
Qed.

End Started.


(** ** The webhook: callbacks that reach no job *)

Lemma jobs_where_none P (m : gmap string Job) :
  (forall id j, m !! id = Some j -> P j = false) -> jobs_where P m = [].
Proof.
  intros H. destruct (jobs_where P m) as [|[id j] l] eqn:E; [reflexivity|].
  assert (Hin : In (id, j) (jobs_where P m)) by (rewrite E; now left).
  apply jobs_where_in in Hin as [Hl Hp]. rewrite (H id j Hl) in Hp. discriminate.
Qed.

(** X14. A callback that passes the signature gate and names a prediction
    that no job carries is acknowledged with 200 and changes nothing: no
    document is written and no call is made. *)
Theorem unrouted_callback_is_acknowledged
    (env : Env) (req : WebhookRequest) (w : World) (payload : JsValue) :
  wh_method req = "POST"%string ->
  accepted env req = true ->
  JSON_parse (rawBody req) = Some payload ->
  truthy (get_prop payload "id") = true ->
  (forall id j, jobs w !! id = Some j ->
     has_replicateJobId (get_prop payload "id") j = false) ->
  run (replicateWebhook env req) w = (ok_reply, w).
Proof.
  intros Hm Hacc Hparse Hid Hnone.
  rewrite (replicateWebhook_accepted _ _ _ _ Hm Hacc Hparse).
  apply process_payload_unrouted; [exact (truthy_id_nonnull _ Hid) | exact Hid|].
  unfold routed_job. rewrite (jobs_where_none _ _ Hnone). reflexivity.
Qed.

(** X15. A callback that passes the signature gate but whose body is not
    JSON is answered 400 [Invalid JSON]; one whose payload has no [id] that
    counts as present is answered 400 [Missing prediction id]; nothing is
    written or called in either case. A body that is the JSON text [null]
    makes the handler fail on [payload.id] outside of any [try] block: no
    reply is sent by the handler. *)
Theorem malformed_callback_is_refused (env : Env) (req : WebhookRequest) (w : World) :
  wh_method req = "POST"%string ->
  accepted env req = true ->
  match JSON_parse (rawBody req) with
  | None =>
      run (replicateWebhook env req) w
      = (Replied (mkResponse 400 (BText "Invalid JSON")), w)
  | Some JNull =>
      exists msg, run (replicateWebhook env req) w = (Unhandled msg, w)
  | Some payload =>
      truthy (get_prop payload "id") = false ->
      run (replicateWebhook env req) w
      = (Replied (mkResponse 400 (BText "Missing prediction id")), w)
  end.
Proof.
  intros Hm Hacc.
  destruct (JSON_parse (rawBody req)) as [payload|] eqn:Hparse.
  - rewrite (replicateWebhook_accepted _ _ _ _ Hm Hacc Hparse).
    unfold run, process_payload.
    destruct payload; try (intros ->; reflexivity).
    eexists. reflexivity.
  - unfold run, replicateWebhook. served Hm. unfold bind.
    rewrite (signature_gate_accepted _ _ _ Hacc), Hparse. reflexivity.
Qed.

(** ** [verifyWebhookSignature]: candidates of the wrong length *)

Lemma round_length st kw : length (SHA256.round st kw) = length st.
Proof.
  unfold SHA256.round.
  destruct st as [|a [|b [|c [|d [|e [|f [|g [|h [|i st]]]]]]]]]; reflexivity.
Qed.

Lemma rounds_length l : forall st, length (fold_left SHA256.round l st) = length st.
Proof.
  induction l as [|kw l IH]; intros st; simpl; [reflexivity|].
  rewrite IH. apply round_length.
Qed.

Lemma compress_length h block : length (SHA256.compress h block) = length h.
Proof.
  unfold SHA256.compress. rewrite length_map, length_combine, rounds_length. lia.
Qed.

Lemma digest_length msg : length (SHA256.digest msg) = 32%nat.
Proof.
  unfold SHA256.digest.
  set (bs := SHA256.blocks _ _).
  assert (H : forall h, length h = 8%nat -> length (fold_left SHA256.compress bs h) = 8%nat).
  { induction bs as [|b bs IH]; intros h Hh; simpl; [exact Hh|].
    apply IH. rewrite compress_length. exact Hh. }
  specialize (H SHA256.H0 eq_refl).
  destruct (fold_left SHA256.compress bs SHA256.H0)
    as [|a [|b [|c [|d [|e [|f [|g [|h [|i st]]]]]]]]]; try discriminate.
  reflexivity.
Qed.

Lemma expected_decodes_to_32_bytes body webhookId timestamp secret :
  length (Buffer_from_base64 (expectedSignature body webhookId timestamp secret)) = 32%nat.
Proof.
  unfold expectedSignature. rewrite decode_encode by apply hmac_is_bytes.
  unfold SHA256.hmac. apply digest_length.
Qed.

(** X16. A signature header none of whose candidates decodes from Base64
    to exactly 32 bytes never verifies: the error that [timingSafeEqual]
    raises for buffers of different lengths is caught and counts as a
    mismatch. In particular an empty header, whose only candidate is the
    empty text, is refused whatever the body, the secret and the time. *)
Theorem signature_of_wrong_length_is_refused
    (now : Z) (body webhookId timestamp signature secret : string) :
  (forall c, In c (signatures signature) -> length (Buffer_from_base64 c) <> 32%nat) ->
  verifyWebhookSignature now body webhookId timestamp signature secret = false.
Proof.
  intros Hlen. unfold verifyWebhookSignature.
  assert (existsb (candidate_matches (expectedSignature body webhookId timestamp secret))
                  (signatures signature) = false) as ->; [|reflexivity].
  apply not_true_is_false. intros H. apply existsb_exists in H as (c & Hin & Hc).
  unfold candidate_matches, timingSafeEqual in Hc.
  rewrite expected_decodes_to_32_bytes in Hc.
  destruct (Nat.eqb_spec (length (Buffer_from_base64 c)) 32) as [E|E]; [|discriminate].
  exact (Hlen c Hin E).
Qed.

(** ** [verifyWebhookSignature]: the marker of the secret *)

Lemma replace_first_absent (pat rep s : string) :
  includes pat s = false -> replace_first pat rep s = s.
Proof.
  induction s as [|c s IH]; simpl; intros H; apply orb_false_iff in H as [Hp Hr].
  - rewrite Hp. reflexivity.
  - rewrite Hp. f_equal. exact (IH Hr).
Qed.

(** X17. The secret may be configured with or without its [whsec_]
    marker: [verifyWebhookSignature] keys the HMAC with the secret from
    which the first [whsec_] is removed, so that a secret and the same
    secret behind the marker verify the same requests. *)
Theorem secret_marker_is_optional
    (now : Z) (body webhookId timestamp signature secret : string) :
  secretKey ("whsec_" +:+ secret) = secret
  /\ (includes "whsec_" secret = false ->
      secretKey secret = secret
      /\ verifyWebhookSignature now body webhookId timestamp signature ("whsec_" +:+ secret)
         = verifyWebhookSignature now body webhookId timestamp signature secret).
Proof.
  assert (Hstrip : secretKey ("whsec_" +:+ secret) = secret).
  { unfold secretKey. unfold replace_first.
    change (String.prefix "whsec_" ("whsec_" +:+ secret)) with true.
    cbn. destruct secret; reflexivity. }
  split; [exact Hstrip|]. intros Habs.
  assert (Hsame : secretKey secret = secret) by now apply replace_first_absent.
  split; [exact Hsame|].
  unfold verifyWebhookSignature, expectedSignature. rewrite Hstrip, Hsame. reflexivity.
Qed.

(** ** The two revisions of the quota *)

Lemma filter_length_le {A} (P Q : A -> bool) (l : list A) :
  (forall x, P x = true -> Q x = true) ->
  (length (List.filter P l) <= length (List.filter Q l))%nat.
Proof.
  intros H. induction l as [|x l IH]; simpl; [lia|].
  destruct (P x) eqn:Hp.
  - rewrite (H x Hp). simpl. lia.
  - destruct (Q x); simpl; lia.
Qed.

(** X18. The later revision of [checkRateLimit] is the more permissive
    one: it counts the [processing] and [completed] jobs of the last day
    where the earlier one counts every job of the last day, so that it
    never counts more, and whoever it refuses the earlier revision refuses
    too. *)
Theorem later_quota_is_more_permissive (env : Env) (uid : string) (w : World) :
  (quota_used env uid (jobs w)
   <= length (jobs_where (Legacy.counts_toward_quota uid (now env - 24 * 60 * 60 * 1000))
                         (jobs w)))%nat
  /\ (checkRateLimit env uid w = (Thrown rate_limit_message, w) ->
      Legacy.checkRateLimit env uid w = (Thrown rate_limit_message, w)).
Proof.
  assert (Hle : (quota_used env uid (jobs w)
                 <= length (jobs_where
                              (Legacy.counts_toward_quota uid (now env - 24 * 60 * 60 * 1000))
                              (jobs w)))%nat).
  { unfold quota_used, jobs_where. apply filter_length_le. intros [id j].
    unfold counts_toward_quota, Legacy.counts_toward_quota. cbn [snd].
    intros H. apply andb_true_iff in H as [H1 H3]. apply andb_true_iff in H1 as [H1 _].
    rewrite H1, H3. reflexivity. }
  split; [exact Hle|].
  rewrite checkRateLimit_spec. unfold Legacy.checkRateLimit, bind, user_get.
  destruct (is_active (users w !! uid)); cbn [negb andb]; [discriminate|].
  destruct (Nat.leb_spec FREE_USER_DAILY_LIMIT (quota_used env uid (jobs w))) as [H|H];
    [|discriminate].
  intros _.
  destruct (Nat.leb_spec FREE_USER_DAILY_LIMIT
              (length (jobs_where
                         (Legacy.counts_toward_quota uid (now env - 24 * 60 * 60 * 1000))
                         (jobs w)))) as [H'|H']; [reflexivity | lia].
Qed.


(** ** The endpoints that read *)

(** X19. [getDownloadUrl] (in both revisions) and [getJobStatus] only
    read the store, for every request: no job or user document is changed,
    the inference provider is not called and nothing is written to
    storage. *)
Theorem read_endpoints_only_read
    (env : Env) (req : Request) (sreq : StatusRequest) (w : World) :
  reads_only (getDownloadUrl env req) w
  /\ reads_only (getJobStatus env sreq) w
  /\ reads_only (Earlier.getDownloadUrl env req) w.
Proof.
  repeat split; unfold reads_only; unfold_reader; repeat step;
    cbn beta iota; cbn [jobs users calls fst snd]; reads.
Qed.

Lemma ready_video_spec job path :
  ready_video job = Some path
  <-> status job = completed /\ outputVideoPath job = Some path /\ path <> EmptyString.
Proof.
  unfold ready_video, truthy_opt. split.
  - destruct (Status_eqb (status job) completed) eqn:Es; [|discriminate].
    apply Status_eqb_eq in Es. destruct (outputVideoPath job) as [p|]; [|discriminate].
    destruct (String.eqb_spec p ""); [discriminate|]. intros [= <-]. auto.
  - intros (-> & -> & Hne). simpl. destruct (String.eqb_spec path ""); [contradiction|].
    reflexivity.
Qed.

(** A path without slash that names a document is the id of the document. *)
Lemma path_segments_plain p id :
  path_segments p = [id] -> contains_char "/" p = false -> id = p.
Proof.
  unfold path_segments. intros H Hs. rewrite (split_char_absent _ _ Hs) in H.
  simpl in H. destruct (String.eqb p ""); [discriminate|]. now injection H.
Qed.

(** X20. [getDownloadUrl] gives the path of a video only to the owner of
    a completed job: whatever the request, a reply 200 means that the
    token was accepted, that the [jobId] of the body is a path whose only
    segment is the id of a job (the id itself when it holds no slash), and
    that this job belongs to the caller, is [completed] and has an output
    path; the reply carries that path, and in a store that the handlers
    wrote one invocation at a time it is [outputs/<caller>/<job>/dance.mp4]. *)
Theorem download_path_is_for_the_owner
    (env : Env) (req : Request) (w w' : World) (r : Response) :
  run (getDownloadUrl env req) w = (Replied r, w') ->
  code r = 200 ->
  exists uid mail p id job path,
    verifyIdToken_result env = TokenOk uid mail
    /\ get_prop (req_body req) "jobId" = JStr p
    /\ path_segments p = [id] /\ (contains_char "/" p = false -> id = p)
    /\ jobs w !! id = Some job
    /\ userId job = uid /\ status job = completed
    /\ outputVideoPath job = Some path /\ path <> EmptyString
    /\ body r = BJson (JObj [("outputVideoPath", JStr path); ("expiresIn", JNum 3600 0)])
    /\ (forall ops, w = exec ops empty_world -> path = outputPath_of uid id).
Proof.
  unfold_reader. repeat step; cbn beta iota; cbn [jobs users calls fst snd].
  all: intros H Hc; injection H as <- <-; try discriminate Hc.
  all: match goal with
       | Ho : negb (String.eqb (userId ?j) ?u) = false,
         Hr : ready_video ?j = Some ?p,
         Hl : jobs _ !! ?i = Some ?j,
         Ht : verifyIdToken_result _ = TokenOk ?u ?m,
         Hj : get_prop _ "jobId" = JStr ?q,
         Hseg : path_segments ?q = [?i] |- _ =>
           apply negb_false_iff, String.eqb_eq in Ho;
           apply ready_video_spec in Hr as (Hs & Hp & Hne);
           exists u, m, q, i, j, p; repeat split; auto;
           [ apply path_segments_plain; exact Hseg
           | intros ops ->;
             destruct (reachable_well_formed ops i j Hl) as (_ & _ & _ & _ & Hout & _);
             rewrite (Hout Hs) in Hp; injection Hp as <-; now rewrite Ho ]
       end.
Qed.

(** X21. [getJobStatus] describes a job only to its owner: whatever the
    request, a reply 200 means that the token was accepted, that the
    [jobId] of the query is a path whose only segment is the id of a job
    (the id itself when it holds no slash), and that this job belongs to
    the caller. The reply then gives the [jobId] of the query, the status
    and the style of the job, its dates in ISO format, its error message,
    and its output path exactly when the job is [completed] and has one. *)
Theorem job_status_is_for_the_owner
    (env : Env) (sreq : StatusRequest) (w w' : World) (r : Response) :
  run (getJobStatus env sreq) w = (Replied r, w') ->
  code r = 200 ->
  exists uid mail p id job created finished,
    verifyIdToken_result env = TokenOk uid mail
    /\ query_jobId sreq = JStr p
    /\ path_segments p = [id] /\ (contains_char "/" p = false -> id = p)
    /\ jobs w !! id = Some job
    /\ userId job = uid
    /\ iso_value (Some (createdAt job)) = Some created
    /\ iso_value (completedAt job) = Some finished
    /\ body r
       = BJson (JObj ([("jobId", JStr p);
                       ("status", JStr (status_string (status job)));
                       ("danceStyle", JStr (danceStyle job));
                       ("createdAt", created);
                       ("completedAt", finished);
                       ("errorMessage", errorMessage job)]%string
                      ++ match ready_video job with
                         | Some path => [("outputVideoPath", JStr path)]%string
                         | None => []
                         end)).
Proof.
  unfold_reader. repeat step; cbn beta iota; cbn [jobs users calls fst snd].
  all: intros H Hc; injection H as <- <-; try discriminate Hc.
  all: match goal with
       | Ho : negb (String.eqb (userId ?j) ?u) = false,
         Hl : jobs _ !! ?i = Some ?j,
         Ht : verifyIdToken_result _ = TokenOk ?u ?m,
         Hj : query_jobId _ = JStr ?q,
         Hseg : path_segments ?q = [?i],
         H1 : iso_value (Some (createdAt ?j)) = Some ?c,
         H2 : iso_value (completedAt ?j) = Some ?f |- _ =>
           apply negb_false_iff, String.eqb_eq in Ho;
           exists u, m, q, i, j, c, f; repeat split; auto;
           [ apply path_segments_plain; exact Hseg |]
       end.
  all: match goal with
       | Hr : ready_video _ = _ |- _ => rewrite Hr
       end; try rewrite app_nil_r; reflexivity.
Qed.


(** ** scripts/grant-pro.js and the quota *)

(** X22. The script [grant-pro.js] lifts the free-tier limit of the user
    it names: it creates the user document or sets its status to
    ['active'], keeping the e-mail, the date of creation and the
    RevenueCat id of an existing document; no other user and no job is
    touched; and from then on [checkRateLimit] lets the user through,
    whatever the number of their jobs. *)
Theorem grant_pro_lifts_the_quota (t : Z) (uid : string) (env : Env) (w : World) :
  uid <> EmptyString ->
  contains_char "/" uid = false ->
  let w' := (run (grant_pro t (Some uid)) w).2 in
  jobs w' = jobs w
  /\ users w' !! uid = Some (granted t uid (users w !! uid))
  /\ (forall other, other <> uid -> users w' !! other = users w !! other)
  /\ checkRateLimit env uid w' = (Next true, w').
Proof.
  intros Hne Hplain w'.
  assert (Hw : w' = mkWorld (jobs w) (<[uid := granted t uid (users w !! uid)]> (users w))
                            (calls w)).
  { unfold w', run, grant_pro, truthy_opt.
    destruct (String.eqb_spec uid ""); [contradiction|].
    unfold bind. rewrite (doc_plain _ Hne Hplain). unfold ret, user_get, user_set, granted.
    destruct (users w !! uid); reflexivity. }
  rewrite Hw. cbn [jobs users calls]. split; [reflexivity|].
  split; [apply lookup_insert_eq|].
  split; [intros other Ho; apply lookup_insert_ne; congruence|].
  rewrite checkRateLimit_spec. cbn [users]. rewrite lookup_insert_eq.
  assert (is_active (Some (granted t uid (users w !! uid))) = true) as ->; [|reflexivity].
  unfold granted. destruct (users w !! uid); reflexivity.
Qed.

(** ** The earlier revision of [createJob] *)

Lemma earlier_checkRateLimit_spec env uid w :
  Legacy.checkRateLimit env uid w
  = if negb (is_active (users w !! uid))
       && (FREE_USER_DAILY_LIMIT <=? earlier_quota_used env uid (jobs w))%nat
    then (Thrown rate_limit_message, w)
    else (Next true, w).
Proof.
  unfold Legacy.checkRateLimit, bind, user_get, earlier_quota_used.
  destruct (is_active (users w !! uid)); [reflexivity|].
  cbn [negb andb].
  destruct (FREE_USER_DAILY_LIMIT <=? _)%nat; reflexivity.
Qed.

Section EarlierCreate.

Variables (env : Env) (req : Request) (w : World) (h uid mail style : string).

Hypothesis Hpost : method req = "POST"%string.
Hypothesis Hauth : authorization req = Some h.
Hypothesis Hbearer : String.prefix "Bearer " h = true.
Hypothesis Htoken : verifyIdToken_result env = TokenOk uid mail.
Hypothesis Hstyle : get_prop (req_body req) "danceStyle" = JStr style.
Hypothesis Hvalid : In style validStyles.

Lemma earlier_createJob_run :
  run (Earlier.createJob env req) w
  = run (try_catch
           (Legacy.checkRateLimit env uid;;
            validateSubscription uid;;
            if negb (bucket env) then reply 503 (json_error STORAGE_UNAVAILABLE_MSG)
            else
              let jobId := auto_id env in
              let inputPath := uploadPath_of uid jobId in
              job_set jobId (mkJob uid inputPath None pending style None
                                   (now env) None JNull);;
              call (EvGetSignedUrl inputPath);;
              match getSignedUrl_result env with
              | None => reply 503 (json_error STORAGE_UNAVAILABLE_MSG)
              | Some uploadUrl =>
                  expiresAt <- iso_field (Some (now env + 15 * 60 * 1000));;
                  reply 200 (BJson (JObj [("jobId", JStr jobId);
                                          ("uploadUrl", JStr uploadUrl);
                                          ("expiresAt", expiresAt);
                                          ("inputPath", JStr inputPath)]))
              end)
           (fun msg => reply 500 (json_error (message_or_default msg))))
        (mkWorld (jobs w) (ensured_users env uid mail (users w))
                 (calls w ++ [EvVerifyIdToken (idToken_of h)])).
Proof.
  unfold run, Earlier.createJob, try_catch, bind. served Hpost.
  rewrite (authenticate_accepts env req w h uid mail Hauth Hbearer Htoken). cbn [fst snd].
  rewrite Hstyle. assert (Hne : String.eqb style "" = false).
  { apply String.eqb_neq. intros ->. simpl in Hvalid. intuition discriminate. }
  rewrite Hne. pose proof Hvalid as Hv. apply existsb_eqb_In in Hv. rewrite Hv. cbn [negb].
  unfold getOrCreateUser, bind, user_get, logged, ensured_users. cbn [users jobs calls].
  destruct (users w !! uid); reflexivity.
Qed.

(** X23. The earlier revision of [createJob] applies the quota when the
    job is created, and counts every job of the last day whatever its
    status: a caller who is not ['active'] and has two such jobs is
    answered 500 with the free-tier message, and no job document is
    written. *)
Theorem earlier_createJob_applies_the_quota :
  is_active (ensured_users env uid mail (users w) !! uid) = false ->
  (2 <= earlier_quota_used env uid (jobs w))%nat ->
  run (Earlier.createJob env req) w
  = (refusal 500 rate_limit_message,
     mkWorld (jobs w) (ensured_users env uid mail (users w))
             (calls w ++ [EvVerifyIdToken (idToken_of h)])).
Proof.
  intros Hfree Hfull. rewrite earlier_createJob_run.
  unfold run, try_catch, bind. rewrite earlier_checkRateLimit_spec. cbn [users jobs].
  rewrite Hfree. cbn [negb andb].
  destruct (Nat.leb_spec FREE_USER_DAILY_LIMIT (earlier_quota_used env uid (jobs w)))
    as [_|Hlt]; [reflexivity|].
  unfold FREE_USER_DAILY_LIMIT in Hlt. lia.
Qed.

(** X24. In the earlier revision of [createJob] the job document is
    written before the upload URL is signed: when the signing fails the
    reply is 503 although the [pending] job is in the store, where the
    quota of that revision counts it. *)
Theorem earlier_createJob_keeps_the_job_on_503 :
  is_active (ensured_users env uid mail (users w) !! uid) = true
  \/ (earlier_quota_used env uid (jobs w) < 2)%nat ->
  bucket env = true ->
  getSignedUrl_result env = None ->
  let result := run (Earlier.createJob env req) w in
  let job := mkJob uid (uploadPath_of uid (auto_id env)) None pending style None
                   (now env) None JNull in
  result.1 = refusal 503 STORAGE_UNAVAILABLE_MSG
  /\ jobs result.2 = <[auto_id env := job]> (jobs w)
  /\ Legacy.counts_toward_quota uid (now env - 24 * 60 * 60 * 1000) job = true.
Proof.
  intros Hquota Hb Hsign result job. unfold result. rewrite earlier_createJob_run.
  unfold run, try_catch, bind. rewrite earlier_checkRateLimit_spec. cbn [users jobs].
  assert (negb (is_active (ensured_users env uid mail (users w) !! uid))
          && (FREE_USER_DAILY_LIMIT <=? earlier_quota_used env uid (jobs w))%nat = false)
    as ->.
  { destruct Hquota as [-> | Hlt]; [reflexivity|].
    apply andb_false_iff. right. apply Nat.leb_gt. exact Hlt. }
  unfold validateSubscription, call. cbn [fst snd jobs users calls].
  rewrite Hb. cbn [negb]. unfold bind, job_set, call. cbn [fst snd jobs users calls].
  rewrite Hsign. cbn [fst snd reply jobs]. repeat split.
  unfold Legacy.counts_toward_quota. cbn [userId createdAt job].
  rewrite String.eqb_refl. apply Z.leb_le. lia.
Qed.

End EarlierCreate.


(** ** helpers/replicate.js: what is sent to the provider *)

Lemma prefix_refl (s : string) : String.prefix s s = true.
Proof.
  induction s as [|c s IH]; simpl; [reflexivity|].
  destruct (ascii_dec c c); [exact IH | contradiction].
Qed.

Lemma prefix_append (s t : string) : String.prefix s (s +:+ t) = true.
Proof.
  induction s as [|c s IH]; simpl; [now destruct t|].
  destruct (ascii_dec c c); [exact IH | contradiction].
Qed.

Lemma getModelVersion_names_the_model p model requests version :
  Replicate.getModelVersion p model = (requests, inr version) ->
  String.prefix model version = true
  /\ forall auth payload, ~ In (Replicate.PostPrediction auth payload) requests.
Proof.
  unfold Replicate.getModelVersion.
  destruct (Replicate.versions_answer p) as [msg| |[latest|]]; intros [= <- <-];
    (split; [try apply prefix_refl; apply prefix_append|]);
    intros auth payload [H|[]]; discriminate.
Qed.

Lemma getModelVersion_never_posts p model requests result :
  Replicate.getModelVersion p model = (requests, result) ->
  forall auth payload, ~ In (Replicate.PostPrediction auth payload) requests.
Proof.
  unfold Replicate.getModelVersion.
  destruct (Replicate.versions_answer p) as [msg| |[latest|]]; intros [= <- <-];
    intros auth payload [H|[]]; discriminate.
Qed.

Lemma prediction_post_with default input p imageUrl danceStyle webhookUrl apiToken modelConfig
    auth payload :
  In (Replicate.PostPrediction auth payload)
     (Replicate.createPrediction_with default input p imageUrl danceStyle
        webhookUrl apiToken modelConfig).1 ->
  let model := Replicate.model_used default p modelConfig in
  exists token version,
    Replicate.or_else apiToken (Replicate.REPLICATE_API_TOKEN p) = Some token
    /\ token <> EmptyString
    /\ auth = ("Bearer " +:+ token)%string
    /\ String.prefix model version = true
    /\ payload = Replicate.payload_of version (input model imageUrl danceStyle) webhookUrl.
Proof.
  intros Hin model. unfold Replicate.createPrediction_with in Hin. fold model in Hin.
  destruct (Replicate.or_else apiToken (Replicate.REPLICATE_API_TOKEN p)) as [token|] eqn:Ht;
    [|destruct Hin].
  assert (Hne : token <> EmptyString).
  { unfold Replicate.or_else, truthy_opt in Ht.
    destruct apiToken as [a|].
    - destruct (String.eqb_spec a "").
      + destruct (Replicate.REPLICATE_API_TOKEN p) as [b|]; [|discriminate].
        destruct (String.eqb_spec b ""); [discriminate|]. now injection Ht as <-.
      + now injection Ht as <-.
    - destruct (Replicate.REPLICATE_API_TOKEN p) as [b|]; [|discriminate].
      destruct (String.eqb_spec b ""); [discriminate|]. now injection Ht as <-. }
  destruct (includes ":" model) eqn:Hpin.
  - exists token, model. cbn [app] in Hin.
    assert (Hin' : In (Replicate.PostPrediction auth payload)
                      [Replicate.PostPrediction ("Bearer " +:+ token)
                         (Replicate.payload_of model (input model imageUrl danceStyle)
                                               webhookUrl)]).
    { destruct (Replicate.predictions_answer p); exact Hin. }
    destruct Hin' as [[= <- <-]|[]]. repeat split; auto. apply prefix_refl.
  - destruct (Replicate.getModelVersion p model) as [lookup [msg|version]] eqn:Hv.
    + exfalso. exact (getModelVersion_never_posts _ _ _ _ Hv auth payload Hin).
    + destruct (getModelVersion_names_the_model _ _ _ _ Hv) as [Hpre Hnone].
      exists token, version.
      assert (Hin' : In (Replicate.PostPrediction auth payload)
                        (lookup ++ [Replicate.PostPrediction ("Bearer " +:+ token)
                           (Replicate.payload_of version (input model imageUrl danceStyle)
                                                 webhookUrl)])).
      { destruct (Replicate.predictions_answer p); exact Hin. }
      apply in_app_or in Hin' as [Hl|[[= <- <-]|[]]].
      * destruct (Hnone _ _ Hl).
      * repeat split; auto.
Qed.

(** X25. [createPrediction] never creates a prediction without a token,
    and what it posts names the configured model: in both revisions every
    prediction request carries [Bearer] followed by a non-empty token (the
    argument or, failing that, the environment variable), a version that
    is the model or the model followed by more text, the [input] built for
    that model from the image URL, and the webhook with its filter
    ['completed'] exactly when a webhook URL is given. When no token is
    configured no request at all is made and the call fails with the
    configuration message. *)
Theorem prediction_requests_are_authorized
    (p : Replicate.Provider) (imageUrl danceStyle : string)
    (webhookUrl apiToken modelConfig : option string) :
  let later := Replicate.createPrediction p imageUrl danceStyle webhookUrl apiToken modelConfig in
  let earlier :=
    Replicate.earlier_createPrediction p imageUrl danceStyle webhookUrl apiToken modelConfig in
  (Replicate.or_else apiToken (Replicate.REPLICATE_API_TOKEN p) = None ->
   later = ([], inl "REPLICATE_API_TOKEN is not configured"%string)
   /\ earlier = ([], inl "REPLICATE_API_TOKEN is not configured"%string))
  /\ (forall auth payload,
      In (Replicate.PostPrediction auth payload) later.1 ->
      let model := Replicate.model_used Replicate.default_model p modelConfig in
      exists token version,
        Replicate.or_else apiToken (Replicate.REPLICATE_API_TOKEN p) = Some token
        /\ token <> EmptyString
        /\ auth = ("Bearer " +:+ token)%string
        /\ String.prefix model version = true
        /\ payload = Replicate.payload_of version
                       (Replicate.input_of model imageUrl danceStyle) webhookUrl)
  /\ (forall auth payload,
      In (Replicate.PostPrediction auth payload) earlier.1 ->
      let model := Replicate.model_used Replicate.earlier_default_model p modelConfig in
      exists token version,
        Replicate.or_else apiToken (Replicate.REPLICATE_API_TOKEN p) = Some token
        /\ token <> EmptyString
        /\ auth = ("Bearer " +:+ token)%string
        /\ String.prefix model version = true
        /\ payload = Replicate.payload_of version
                       (Replicate.earlier_input_of model imageUrl danceStyle) webhookUrl).
Proof.
  intros later earlier. split; [|split].
  - intros Hnone. unfold later, earlier, Replicate.createPrediction,
      Replicate.earlier_createPrediction, Replicate.createPrediction_with.
    rewrite Hnone. split; reflexivity.
  - intros auth payload Hin. exact (prediction_post_with _ _ _ _ _ _ _ _ _ _ Hin).
  - intros auth payload Hin. exact (prediction_post_with _ _ _ _ _ _ _ _ _ _ Hin).
Qed.

(** X26. The dance style does not reach every model. In the later
    revision a [stability-ai/] model (whose name does not contain
    [hailuo]) gets the image alone, and in the earlier revision so does
    every model that is not a [minimax/] one, the model used when none is
    configured included: for these models two calls that differ only by
    the style make the same requests and have the same result. *)
Theorem style_is_ignored_by_image_only_models
    (p : Replicate.Provider) (imageUrl style1 style2 : string)
    (webhookUrl apiToken modelConfig : option string) :
  let later := Replicate.model_used Replicate.default_model p modelConfig in
  let earlier := Replicate.model_used Replicate.earlier_default_model p modelConfig in
  (includes "hailuo" later = false -> String.prefix "stability-ai/" later = true ->
   Replicate.createPrediction p imageUrl style1 webhookUrl apiToken modelConfig
   = Replicate.createPrediction p imageUrl style2 webhookUrl apiToken modelConfig)
  /\ (String.prefix "minimax/" earlier = false ->
      Replicate.earlier_createPrediction p imageUrl style1 webhookUrl apiToken modelConfig
      = Replicate.earlier_createPrediction p imageUrl style2 webhookUrl apiToken modelConfig)
  /\ (Replicate.or_else modelConfig (Replicate.REPLICATE_MODEL p) = None ->
      Replicate.earlier_createPrediction p imageUrl style1 webhookUrl apiToken modelConfig
      = Replicate.earlier_createPrediction p imageUrl style2 webhookUrl apiToken modelConfig).
Proof.
  intros later earlier.
  assert (Hearlier : String.prefix "minimax/" earlier = false ->
            Replicate.earlier_createPrediction p imageUrl style1 webhookUrl apiToken modelConfig
            = Replicate.earlier_createPrediction p imageUrl style2 webhookUrl apiToken
                modelConfig).
  { intros Hm. unfold Replicate.earlier_createPrediction, Replicate.createPrediction_with.
    fold earlier. unfold Replicate.earlier_input_of. rewrite Hm. reflexivity. }
  split; [|split; [exact Hearlier|]].
  - intros Hh Hs. unfold Replicate.createPrediction, Replicate.createPrediction_with.
    fold later. unfold Replicate.input_of. rewrite Hh, Hs.
    destruct (String.prefix "minimax/" later) eqn:Hm; [|reflexivity].
    exfalso. destruct later as [|c l]; [discriminate|].
    cbn [String.prefix] in Hm, Hs.
    destruct (ascii_dec "m" c) as [<-|]; [|discriminate].
    destruct (ascii_dec "s" "m"); discriminate.
  - intros Hnone. apply Hearlier. unfold earlier, Replicate.model_used. rewrite Hnone.
    reflexivity.
Qed.


(** ** js/app.js: the polling of the status *)

(** One round of [poll] that makes a request: it goes on to the next
    round after a wait, or ends with a verdict. *)
Lemma poll_round fuel c attempts :
  (attempts <= 120)%nat ->
  (App.still_running (App.answer c attempts) = true
   /\ App.poll (S fuel) c attempts
      = App.UiGetJobStatus :: App.UiProgress (progress_at attempts) :: App.UiWait 3000
        :: App.poll fuel c (S attempts))
  \/ (App.still_running (App.answer c attempts) = false
      /\ exists pre v,
           App.poll (S fuel) c attempts = App.UiGetJobStatus :: pre ++ [v]
           /\ App.is_verdict v = true
           /\ requests_made pre = 0%nat
           /\ forall p, In (App.UiProgress p) pre -> p = progress_at attempts).
Proof.
  intros Hle. cbn [App.poll]. unfold App.maxAttempts.
  destruct (Nat.ltb_spec 120 attempts) as [Hgt|_]; [lia|].
  fold (progress_at attempts).
  assert (Hstop : forall pre v, App.is_verdict v = true -> requests_made pre = 0%nat ->
            (forall p, In (App.UiProgress p) pre -> p = progress_at attempts) ->
            exists pre0 v0,
              App.UiGetJobStatus :: pre ++ [v] = App.UiGetJobStatus :: pre0 ++ [v0]
              /\ App.is_verdict v0 = true /\ requests_made pre0 = 0%nat
              /\ forall p, In (App.UiProgress p) pre0 -> p = progress_at attempts).
  { intros pre v Hv Hr Hp. exists pre, v. auto. }
  assert (Hone : forall p, In (App.UiProgress p) [App.UiProgress (progress_at attempts)] ->
                           p = progress_at attempts).
  { intros p [[= <-]|[]]. reflexivity. }
  assert (Htwo : forall x p,
            In (App.UiProgress p) [App.UiProgress (progress_at attempts); App.UiResolve x] ->
            p = progress_at attempts).
  { intros x p [[= <-]|[[=]|[]]]. reflexivity. }
  destruct (App.answer c attempts) as [msg|data].
  { right. split; [reflexivity|]. apply (Hstop []); [reflexivity | reflexivity | intros p []]. }
  unfold App.still_running.
  destruct data as [| |b|m e|s|l|l];
    try (right; split; [reflexivity|];
         apply (Hstop [App.UiProgress (progress_at attempts)]); [reflexivity | reflexivity | exact Hone]).
  all: match goal with
       | |- context [is_str (get_prop ?d "status") "completed"] =>
           destruct (is_str (get_prop d "status") "completed") eqn:Hc;
           [|destruct (is_str (get_prop d "status") "failed") eqn:Hf]
       end; cbn [negb andb].
  all: try (left; split; reflexivity).
  all: right; split; [reflexivity|].
  all: try (apply (Hstop [App.UiProgress (progress_at attempts)]);
            [reflexivity | reflexivity | exact Hone]).
  all: match goal with
       | |- context [if ?b then _ else _] => destruct b
       end;
       try (apply (Hstop [App.UiProgress (progress_at attempts)]);
            [reflexivity | reflexivity | exact Hone]).
  all: match goal with
       | |- context [App.resolve ?c ?p] => destruct (App.resolve c p)
       end;
       (apply (Hstop [App.UiProgress (progress_at attempts); App.UiResolve _]);
        [reflexivity | reflexivity | apply Htwo]).
Qed.

Lemma poll_late fuel c attempts :
  (120 < attempts)%nat -> App.poll (S fuel) c attempts = [timed_out].
Proof.
  intros H. cbn [App.poll]. unfold App.maxAttempts.
  destruct (Nat.ltb_spec 120 attempts); [reflexivity | lia].
Qed.

Lemma requests_made_cons e l :
  requests_made (e :: l) = ((if App.is_request e then 1 else 0) + requests_made l)%nat.
Proof. unfold requests_made. simpl. destruct (App.is_request e); reflexivity. Qed.

Lemma requests_made_app l l' :
  requests_made (l ++ l') = (requests_made l + requests_made l')%nat.
Proof. unfold requests_made. rewrite List.filter_app, length_app. reflexivity. Qed.

Lemma verdict_is_no_request v : App.is_verdict v = true -> requests_made [v] = 0%nat.
Proof. destruct v; simpl; intros H; try discriminate; reflexivity. Qed.

Lemma poll_requests fuel c : forall attempts,
  (requests_made (App.poll fuel c attempts) <= 121 - attempts)%nat.
Proof.
  induction fuel as [|fuel IH]; intros attempts; [unfold requests_made; simpl; lia|].
  destruct (Nat.le_gt_cases attempts 120) as [Hle|Hgt].
  - destruct (poll_round fuel c attempts Hle) as [[_ ->]|(_ & pre & v & -> & Hv & Hr & _)].
    + rewrite !requests_made_cons. cbn [App.is_request]. specialize (IH (S attempts)). lia.
    + rewrite requests_made_cons, requests_made_app, Hr, (verdict_is_no_request v Hv).
      cbn [App.is_request]. lia.
  - rewrite (poll_late _ _ _ Hgt). unfold requests_made. simpl. lia.
Qed.

Lemma progress_range attempts : 62 <= progress_at attempts <= 95.
Proof. unfold progress_at. lia. Qed.

Lemma poll_progress fuel c : forall attempts p,
  In (App.UiProgress p) (App.poll fuel c attempts) -> 62 <= p <= 95.
Proof.
  induction fuel as [|fuel IH]; intros attempts p; [intros []|].
  destruct (Nat.le_gt_cases attempts 120) as [Hle|Hgt].
  - destruct (poll_round fuel c attempts Hle) as [[_ ->]|(_ & pre & v & -> & Hv & _ & Hp)].
    + intros [[=]|[[= <-]|[[=]|Hin]]]; [apply progress_range | exact (IH _ _ Hin)].
    + intros [[=]|Hin]. apply in_app_or in Hin as [Hin|[E|[]]].
      * rewrite (Hp p Hin). apply progress_range.
      * rewrite E in Hv. discriminate.
  - rewrite (poll_late _ _ _ Hgt). intros [[=]|[]].
Qed.

Lemma poll_ends fuel c : forall attempts,
  (121 <= fuel + attempts)%nat ->
  exists pre v, App.poll (S fuel) c attempts = pre ++ [v] /\ App.is_verdict v = true.
Proof.
  induction fuel as [|fuel IH]; intros attempts Hfuel.
  - exists [], timed_out. rewrite (poll_late 0 c attempts) by lia. split; reflexivity.
  - destruct (Nat.le_gt_cases attempts 120) as [Hle|Hgt].
    + destruct (poll_round (S fuel) c attempts Hle)
        as [[_ ->]|(_ & pre & v & -> & Hv & _ & _)].
      * destruct (IH (S attempts) ltac:(lia)) as (pre & v & -> & Hv).
        exists (App.UiGetJobStatus :: App.UiProgress (progress_at attempts)
                :: App.UiWait 3000 :: pre), v. split; [reflexivity | exact Hv].
      * exists (App.UiGetJobStatus :: pre), v. split; [reflexivity | exact Hv].
    + exists [], timed_out. rewrite (poll_late _ _ _ Hgt). split; reflexivity.
Qed.

Lemma poll_forever fuel c :
  (forall n, App.still_running (App.answer c n) = true) ->
  forall attempts, (121 <= fuel + attempts)%nat -> (attempts <= 121)%nat ->
  requests_made (App.poll (S fuel) c attempts) = (121 - attempts)%nat
  /\ List.last (App.poll (S fuel) c attempts) (App.UiWait 0) = timed_out.
Proof.
  intros Hrun. induction fuel as [|fuel IH]; intros attempts Hfuel Hle.
  - rewrite (poll_late 0 c attempts) by lia. split; [|reflexivity].
    unfold requests_made. simpl. lia.
  - destruct (Nat.le_gt_cases attempts 120) as [Hle'|Hgt].
    + destruct (poll_round (S fuel) c attempts Hle') as [[_ ->]|(Hstop & _)].
      * destruct (IH (S attempts) ltac:(lia) ltac:(lia)) as [Hr Hl].
        rewrite !requests_made_cons, Hr. cbn [App.is_request]. split; [lia|].
        destruct (poll_ends fuel c (S attempts) ltac:(lia)) as (pre & v & E & _).
        rewrite E in *. rewrite !app_comm_cons. rewrite last_last in *. exact Hl.
      * rewrite Hrun in Hstop. discriminate.
    + rewrite (poll_late _ _ _ Hgt). split; [|reflexivity].
      unfold requests_made. simpl. lia.
Qed.

(** X27. The page polls the status of a job at most 121 times: whatever
    the server answers, [pollJobStatus] ends by showing the result or an
    error, after at most 121 requests; the progress it displays stays
    between 62 and 95 per cent; and when every answer tells of a job still
    running, it makes exactly 121 requests and ends with the time-out
    message. *)
Theorem polling_is_bounded (c : App.Client) :
  let trace := App.pollJobStatus c in
  (requests_made trace <= 121)%nat
  /\ (forall p, In (App.UiProgress p) trace -> 62 <= p <= 95)
  /\ (exists before verdict, trace = before ++ [verdict] /\ App.is_verdict verdict = true)
  /\ ((forall n, App.still_running (App.answer c n) = true) ->
      requests_made trace = 121%nat /\ List.last trace (App.UiWait 0) = timed_out).
Proof.
  intros trace. unfold trace, App.pollJobStatus, App.maxAttempts.
  change (120 + 2)%nat with (S 121).
  split; [|split; [|split]].
  - pose proof (poll_requests (S 121) c 0). lia.
  - intros p. apply poll_progress.
  - apply (poll_ends 121 c 0). lia.
  - intros Hrun. destruct (poll_forever 121 c Hrun 0) as [Hr Hl]; [lia | lia|].
    split; [rewrite Hr; reflexivity | exact Hl].
Qed.


(** ** The webhook: when the signature is not looked at *)

Lemma unverified_run env req w :
  verification_runs env req = false ->
  run (replicateWebhook env req) w = run (replicateWebhook env (without_signature req)) w.
Proof.
  intros Hoff.
  assert (Hoff' : verification_runs env (without_signature req) = false).
  { unfold verification_runs, without_signature. cbn.
    destruct (truthy_opt (REPLICATE_WEBHOOK_SECRET env)); reflexivity. }
  unfold run, replicateWebhook, bind, signature_gate. rewrite Hoff, Hoff'. reflexivity.
Qed.

(** X28. The verification of the callbacks can be switched off: when
    [REPLICATE_SKIP_WEBHOOK_VERIFY] is ['1'], or when no webhook secret is
    configured, the signature headers are not looked at, and a request is
    handled exactly as the same request without these headers, valid
    signature or not. *)
Theorem switched_off_verification_ignores_the_signature
    (env : Env) (req : WebhookRequest) (w : World) :
  is_1 (REPLICATE_SKIP_WEBHOOK_VERIFY env) = true
  \/ truthy_opt (REPLICATE_WEBHOOK_SECRET env) = None ->
  accepted env req = true
  /\ run (replicateWebhook env req) w
     = run (replicateWebhook env (without_signature req)) w.
Proof.
  intros Hoff.
  assert (Hruns : verification_runs env req = false).
  { unfold verification_runs. destruct Hoff as [-> | ->]; [|reflexivity].
    destruct (truthy_opt (REPLICATE_WEBHOOK_SECRET env)), (truthy_opt (webhook_id req)),
      (truthy_opt (webhook_timestamp req)), (truthy_opt (webhook_signature req));
      reflexivity. }
  split; [unfold accepted; rewrite Hruns; reflexivity | exact (unverified_run _ _ _ Hruns)].
Qed.

(** ** From [createJob] to [startJob] *)

(** X29. A job that [createJob] has just created can be started by its
    owner under the id that the reply gave: [startJob] finds the job,
    accepts it as [pending] and owned by the caller, and, the quota and the
    checks on the image and on storage being passed, hands it to the
    provider; the job is then [processing] with the id of the prediction,
    its other fields being those that [createJob] wrote. *)
Theorem created_job_can_be_started
    (env env' : Env) (req req' : Request) (w : World)
    (h h' uid mail mail' style u p : string) (url : option string) :
  method req = "POST"%string ->
  authorization req = Some h ->
  String.prefix "Bearer " h = true ->
  verifyIdToken_result env = TokenOk uid mail ->
  get_prop (req_body req) "danceStyle" = JStr style ->
  In style validStyles ->
  method req' = "POST"%string ->
  authorization req' = Some h' ->
  String.prefix "Bearer " h' = true ->
  verifyIdToken_result env' = TokenOk uid mail' ->
  get_prop (req_body req') "jobId" = JStr (auto_id env) ->
  auto_id env <> EmptyString ->
  contains_char "/" (auto_id env) = false ->
  (quota_used env' uid (<[auto_id env := mkJob uid (uploadPath_of uid (auto_id env)) None
                                             pending style None (now env) None JNull]>
                          (jobs w)) < 2)%nat ->
  usable_imageUrl (get_prop (req_body req') "imageUrl") = Some u ->
  storage_writable env' = true ->
  is_1 (REPLICATE_MOCK env') = false ->
  webhookUrl_result env' = WebhookUrl url ->
  createPrediction_result env' = PredictionCreated p ->
  let created := (run (createJob env req) w).2 in
  let started := run (startJob env' req') created in
  started.1 = Replied (mkResponse 200 (BJson (JObj [("jobId", JStr (auto_id env));
                                                    ("replicateJobId", JStr p);
                                                    ("status", JStr "processing")])))
  /\ jobs started.2 !! auto_id env
     = Some (mkJob uid (uploadPath_of uid (auto_id env)) None processing style (Some p)
                   (now env) None JNull)
  /\ inference_calls (calls started.2) = S (inference_calls (calls w)).
Proof.
  intros Hm Ha Hp Ht Hs Hv Hm' Ha' Hp' Ht' Hj Hne Hplain Hq Hu Hst Hmock Hurl Hpred
    created started.
  set (job := mkJob uid (uploadPath_of uid (auto_id env)) None pending style None
                    (now env) None JNull) in *.
  assert (Hc : created = mkWorld (<[auto_id env := job]> (jobs w))
                                 (ensured_users env uid mail (users w))
                                 (calls w ++ [EvVerifyIdToken (idToken_of h);
                                              EvValidateSubscription uid])).
  { unfold created.
    rewrite (createJob_creates_pending env req w h uid mail style Hm Ha Hp Ht Hs Hv).
    reflexivity. }
  assert (Hl : jobs created !! auto_id env = Some job).
  { rewrite Hc. cbn [jobs]. apply lookup_insert_eq. }
  assert (Hq' : is_active (users created !! uid) = true
                \/ (quota_used env' uid (jobs created) < 2)%nat).
  { right. rewrite Hc. cbn [jobs]. exact Hq. }
  pose proof (started_provider_answers env' req' created h' uid mail' (auto_id env) job
                Hm' Ha' Hp' Ht' Hj Hne Hplain Hl eq_refl eq_refl Hq' u url p
                Hu Hst Hmock Hurl Hpred) as Hrun.
  unfold started. rewrite Hrun. cbn [fst snd]. split; [reflexivity|]. split.
  - unfold with_job. cbn [jobs]. apply lookup_insert_eq.
  - unfold with_job. cbn [calls]. rewrite Hc. cbn [calls].
    rewrite !inference_calls_app. unfold probe_calls, checked_calls.
    set (n := inference_calls (calls w)). unfold inference_calls.
    destruct (is_1 (STORAGE_SKIP_PROBE env')); simpl; lia.
Qed.


(** ** From the creation of a job to the download of its video *)

(** A [getDownloadUrl] call that passes the method, token and [jobId]
    checks. *)
Lemma getDownloadUrl_authenticated
    (env : Env) (req : Request) (w : World) (h uid mail id : string) :
  method req = "POST"%string ->
  authorization req = Some h ->
  String.prefix "Bearer " h = true ->
  verifyIdToken_result env = TokenOk uid mail ->
  get_prop (req_body req) "jobId" = JStr id ->
  id <> EmptyString ->
  contains_char "/" id = false ->
  run (getDownloadUrl env req) w
  = (match jobs w !! id with
     | None => refusal 404 "Job not found"
     | Some job =>
         if negb (String.eqb (userId job) uid) then refusal 403 "Unauthorized"
         else match ready_video job with
              | Some path =>
                  Replied (mkResponse 200 (BJson (JObj [("outputVideoPath", JStr path);
                                                        ("expiresIn", JNum 3600 0)])))
              | None => refusal 400 "Video not ready for download"
              end
     end,
     logged w [EvVerifyIdToken (idToken_of h)]).
Proof.
  intros Hm Ha Hp Ht Hj Hid Hplain. unfold run, getDownloadUrl, try_catch, bind. served Hm.
  rewrite (authenticate_accepts env req w h uid mail Ha Hp Ht). cbn [fst snd].
  rewrite Hj, (truthy_nonempty_string _ Hid), (doc_plain _ Hid Hplain). cbn [negb].
  unfold ret, doc_get, logged. cbn [jobs].
  destruct (jobs w !! id) as [job|]; [|reflexivity].
  destruct (negb (String.eqb (userId job) uid)); [reflexivity|].
  destruct (ready_video job); reflexivity.
Qed.

Section Flow.

Variables (w : World) (uid style imageUrl p : string) (content : list Z).
Variables (env1 : Env) (create : Request) (h1 mail1 : string).
Variables (env2 : Env) (start : Request) (h2 mail2 : string) (url : option string).
Variables (env3 : Env) (callback : WebhookRequest) (payload : JsValue).
Variables (env4 : Env) (download : Request) (h4 mail4 : string).

Hypothesis create_post : method create = "POST"%string.
Hypothesis create_auth : authorization create = Some h1.
Hypothesis create_bearer : String.prefix "Bearer " h1 = true.
Hypothesis create_token : verifyIdToken_result env1 = TokenOk uid mail1.
Hypothesis create_style : get_prop (req_body create) "danceStyle" = JStr style.
Hypothesis style_valid : In style validStyles.
Hypothesis jobId_nonempty : auto_id env1 <> EmptyString.
Hypothesis jobId_plain : contains_char "/" (auto_id env1) = false.

Hypothesis start_post : method start = "POST"%string.
Hypothesis start_auth : authorization start = Some h2.
Hypothesis start_bearer : String.prefix "Bearer " h2 = true.
Hypothesis start_token : verifyIdToken_result env2 = TokenOk uid mail2.
Hypothesis start_jobId : get_prop (req_body start) "jobId" = JStr (auto_id env1).
Hypothesis start_image : usable_imageUrl (get_prop (req_body start) "imageUrl") = Some imageUrl.
Hypothesis under_quota :
  (quota_used env2 uid
     (<[auto_id env1 := mkJob uid (uploadPath_of uid (auto_id env1)) None pending
                                style None (now env1) None JNull]> (jobs w)) < 2)%nat.
Hypothesis storage_ready : storage_writable env2 = true.
Hypothesis not_mock : is_1 (REPLICATE_MOCK env2) = false.
Hypothesis webhook_known : webhookUrl_result env2 = WebhookUrl url.
Hypothesis provider_answers : createPrediction_result env2 = PredictionCreated p.
Hypothesis prediction_named : p <> EmptyString.
Hypothesis prediction_new :
  forall id j, jobs w !! id = Some j -> replicateJobId j <> Some p.

Hypothesis callback_post : wh_method callback = "POST"%string.
Hypothesis callback_accepted : accepted env3 callback = true.
Hypothesis callback_parses : JSON_parse (rawBody callback) = Some payload.
Hypothesis callback_id : get_prop payload "id" = JStr p.
Hypothesis callback_success : is_success payload = true.
Hypothesis callback_locator : truthy (videoUrl_of (get_prop payload "output")) = true.
Hypothesis bucket_exists : bucket env3 = true.
Hypothesis video_fetched : fetch_result env3 = FetchOk content.
Hypothesis video_saved : save_result env3 = None.

Hypothesis download_post : method download = "POST"%string.
Hypothesis download_auth : authorization download = Some h4.
Hypothesis download_bearer : String.prefix "Bearer " h4 = true.
Hypothesis download_token : verifyIdToken_result env4 = TokenOk uid mail4.
Hypothesis download_jobId : get_prop (req_body download) "jobId" = JStr (auto_id env1).

(** X30. The whole life of a job. When [createJob] creates a job,
    [startJob] hands it to the provider, and the provider reports a
    success whose video is downloaded and stored, then the job is
    [completed] and [getDownloadUrl] answers its owner 200 with the path
    [outputs/<owner>/<job>/dance.mp4] under which the video was stored. *)
Theorem completed_flow_delivers_the_video :
  let created := (run (createJob env1 create) w).2 in
  let started := (run (startJob env2 start) created).2 in
  let reported := (run (replicateWebhook env3 callback) started).2 in
  let path := outputPath_of uid (auto_id env1) in
  (exists job, jobs reported !! auto_id env1 = Some job
               /\ status job = completed /\ userId job = uid
               /\ outputVideoPath job = Some path
               /\ replicateJobId job = Some p /\ danceStyle job = style)
  /\ In (EvStorageSave path content) (calls reported)
  /\ run (getDownloadUrl env4 download) reported
     = (Replied (mkResponse 200 (BJson (JObj [("outputVideoPath", JStr path);
                                              ("expiresIn", JNum 3600 0)]))),
        logged reported [EvVerifyIdToken (idToken_of h4)]).
Proof.
  intros created started reported path.
  set (job0 := mkJob uid (uploadPath_of uid (auto_id env1)) None pending style None
                     (now env1) None JNull) in *.
  assert (Hc : created = mkWorld (<[auto_id env1 := job0]> (jobs w))
                                 (ensured_users env1 uid mail1 (users w))
                                 (calls w ++ [EvVerifyIdToken (idToken_of h1);
                                              EvValidateSubscription uid])).
  { unfold created.
    rewrite (createJob_creates_pending env1 create w h1 uid mail1 style
               create_post create_auth create_bearer create_token create_style style_valid).
    reflexivity. }
  assert (Hl : jobs created !! auto_id env1 = Some job0).
  { rewrite Hc. cbn [jobs]. apply lookup_insert_eq. }
  assert (Hq : is_active (users created !! uid) = true
               \/ (quota_used env2 uid (jobs created) < 2)%nat).
  { right. rewrite Hc. cbn [jobs]. exact under_quota. }
  assert (Hfresh : forall id j, jobs created !! id = Some j -> replicateJobId j <> Some p).
  { intros id j. rewrite Hc. cbn [jobs]. destruct (decide (auto_id env1 = id)) as [<-|Hne].
    - rewrite lookup_insert_eq. intros [= <-]. discriminate.
    - rewrite lookup_insert_ne by exact Hne. apply prediction_new. }
  pose proof (started_routes env2 start created h2 uid mail2 (auto_id env1) job0
                start_post start_auth start_bearer start_token start_jobId
                jobId_nonempty jobId_plain Hl eq_refl eq_refl Hq imageUrl url p payload
                start_image storage_ready not_mock webhook_known provider_answers
                Hfresh callback_id) as Hr.
  fold started in Hr.
  assert (Hid : truthy (get_prop payload "id") = true).
  { rewrite callback_id. now apply truthy_nonempty_string. }
  pose proof (success_completes env3 callback started payload (auto_id env1)
                (set_processing p job0) callback_post callback_accepted callback_parses
                (truthy_id_nonnull _ Hid) Hid Hr content callback_success callback_locator
                bucket_exists video_fetched video_saved) as Hrun.
  fold reported in Hrun. cbn [userId set_processing job0] in Hrun. fold path in Hrun.
  assert (Hrep : reported
                 = with_job (auto_id env1)
                     (set_completed path (now env3) (set_processing p job0))
                     started [EvFetch (videoUrl_of (get_prop payload "output"));
                              EvStorageSave path content]).
  { unfold reported. rewrite Hrun. reflexivity. }
  assert (Hl3 : jobs reported !! auto_id env1
                = Some (set_completed path (now env3) (set_processing p job0))).
  { rewrite Hrep. unfold with_job. cbn [jobs]. apply lookup_insert_eq. }
  split; [|split].
  - eexists. split; [exact Hl3|]. repeat split.
  - rewrite Hrep. unfold with_job. cbn [calls]. apply in_or_app. right. right. now left.
  - rewrite (getDownloadUrl_authenticated env4 download reported h4 uid mail4 (auto_id env1)
               download_post download_auth download_bearer download_token download_jobId
               jobId_nonempty jobId_plain).
    rewrite Hl3. cbn [userId set_completed set_processing job0]. rewrite String.eqb_refl.
    cbn [negb]. unfold ready_video. cbn [status outputVideoPath set_completed Status_eqb].
    unfold truthy_opt, path, outputPath_of. reflexivity.
Qed.

End Flow.


(** ** The further theorems at work *)

Lemma unserved_method_is_answered_at_once_witness :
  run (createJob sample_env (mkRequest "GET" None JUndefined)) started_world
  = (refusal 405 "Method not allowed", started_world).
Proof.
  exact (proj1 (proj1 (unserved_method_is_answered_at_once sample_env
                         (mkRequest "GET" None JUndefined) status_request
                         (signed_request success_body) started_world)
                      ltac:(discriminate))).
Defined.

Lemma missing_bearer_is_401_witness :
  run (startJob sample_env (mkRequest "POST" (Some "Basic dTE6cHc="%string) JUndefined))
      started_world
  = (refusal 401 "Missing or invalid Authorization header", started_world).
Proof.
  exact (proj1 (proj2 (proj1 (missing_bearer_is_401 sample_env
                                (mkRequest "POST" (Some "Basic dTE6cHc="%string) JUndefined)
                                status_request started_world)
                             eq_refl eq_refl))).
Defined.

Lemma rejected_token_is_500_witness :
  run (createJob rejecting_env create_request) empty_world
  = (refusal 500 "Token expired", logged empty_world [EvVerifyIdToken "token-of-u1"]).
Proof.
  exact (proj1 (proj1 (rejected_token_is_500 rejecting_env create_request status_request
                         empty_world "Bearer token-of-u1" "Token expired" eq_refl eq_refl)
                      eq_refl eq_refl)).
Defined.

Lemma createJob_checks_the_style_first_witness :
  exists msg,
    run (createJob sample_env tango_request) empty_world
    = (refusal 400 msg, logged empty_world [EvVerifyIdToken "token-of-u1"])
    /\ (msg = "danceStyle is required"%string
        \/ msg = "Invalid danceStyle. Allowed: hip-hop, ballet, disco, breakdance, salsa, robot"%string).
Proof.
  apply (createJob_checks_the_style_first sample_env tango_request empty_world
           "Bearer token-of-u1" "u1" "u1@example.com" eq_refl eq_refl eq_refl eq_refl).
  intros s [= <-] Hin. simpl in Hin. intuition discriminate.
Defined.

Lemma createJob_creates_a_pending_job_witness :
  run (createJob sample_env create_request) empty_world
  = (Replied (mkResponse 200 (BJson (JObj [("jobId", JStr "j1");
                                           ("uploadPath", JStr "uploads/u1/j1/original.jpg")]))),
     mkWorld (<["j1" := pending_j1]> ∅) (<["u1" := u1_user]> ∅)
             [EvVerifyIdToken "token-of-u1"; EvValidateSubscription "u1"]).
Proof.
  exact (createJob_creates_a_pending_job sample_env create_request empty_world
           "Bearer token-of-u1" "u1" "u1@example.com" "disco"
           eq_refl eq_refl eq_refl eq_refl eq_refl ltac:(simpl; tauto)).
Defined.

Lemma job_identity_is_kept_witness :
  admissible (skipn 1 scenario) created_world = true
  /\ jobs created_world !! "j1" = Some pending_j1
  /\ exists j', jobs completed_world !! "j1" = Some j'
                /\ userId j' = "u1"%string
                /\ inputImagePath j' = "uploads/u1/j1/original.jpg"%string
                /\ danceStyle j' = "disco"%string /\ createdAt j' = 1700000000000.
Proof.
  assert (Ha : admissible (skipn 1 scenario) created_world = true) by (vm_compute; reflexivity).
  assert (Hl : jobs created_world !! "j1" = Some pending_j1) by (vm_compute; reflexivity).
  split; [exact Ha|]. split; [exact Hl|].
  exact (job_identity_is_kept (skipn 1 scenario) created_world "j1" pending_j1 Ha Hl).
Defined.

Lemma stored_jobs_are_consistent_witness :
  jobs completed_world !! "j1" = Some completed_j1
  /\ inputImagePath completed_j1 = uploadPath_of "u1" "j1"
  /\ outputVideoPath completed_j1 = Some (outputPath_of "u1" "j1").
Proof.
  assert (Hl : jobs (exec scenario empty_world) !! "j1" = Some completed_j1)
    by (vm_compute; reflexivity).
  split; [exact Hl|].
  destruct (stored_jobs_are_consistent scenario "j1" completed_j1 Hl)
    as (Hin & _ & _ & _ & Hout & _).
  split; [exact Hin | exact (Hout eq_refl)].
Defined.

Lemma startJob_requires_an_image_url_witness :
  jobs created_world !! "j1" = Some pending_j1
  /\ exists msg,
       run (startJob sample_env start_without_image) created_world
       = (refusal 400 msg, logged created_world (checked_calls "Bearer token-of-u1" "u1"))
       /\ (msg = "imageUrl is required. Upload image first, then call startJob with the download URL."%string
           \/ msg = "imageUrl must be a valid HTTP URL"%string).
Proof.
  assert (Hl : jobs created_world !! "j1" = Some pending_j1) by (vm_compute; reflexivity).
  split; [exact Hl|].
  apply (startJob_requires_an_image_url sample_env start_without_image created_world
           "Bearer token-of-u1" "u1" "u1@example.com" "j1" pending_j1
           eq_refl eq_refl eq_refl eq_refl eq_refl ltac:(discriminate) eq_refl Hl
           eq_refl eq_refl).
  - right. vm_compute. lia.
  - reflexivity.
Defined.

Lemma startJob_needs_writable_storage_witness :
  jobs created_world !! "j1" = Some pending_j1
  /\ run (startJob no_bucket_env start_request) created_world
     = (refusal 503 STORAGE_UNAVAILABLE_MSG,
        logged created_world (checked_calls "Bearer token-of-u1" "u1")).
Proof.
  assert (Hl : jobs created_world !! "j1" = Some pending_j1) by (vm_compute; reflexivity).
  split; [exact Hl|].
  assert (Hq : is_active (users created_world !! "u1") = true
               \/ (quota_used no_bucket_env "u1" (jobs created_world) < 2)%nat)
    by (right; vm_compute; lia).
  pose proof (startJob_needs_writable_storage no_bucket_env start_request created_world
                "Bearer token-of-u1" "u1" "u1@example.com" "j1" pending_j1
                eq_refl eq_refl eq_refl eq_refl eq_refl ltac:(discriminate) eq_refl Hl
                eq_refl eq_refl Hq "https://cdn/pet.jpg" eq_refl eq_refl) as H.
  cbv zeta in H. destruct H as [H _]. rewrite H. unfold logged. cbn [bucket no_bucket_env
    sample_env_with]. rewrite app_nil_r. reflexivity.
Defined.

Lemma startJob_asks_the_provider_once_witness :
  jobs created_world !! "j1" = Some pending_j1
  /\ run (startJob failing_provider_env start_request) created_world
     = (refusal 500 "Replicate API error: 402 - no credit",
        logged created_world
          [EvVerifyIdToken "token-of-u1"; EvValidateSubscription "u1";
           EvStorageProbe "outputs/u1/j1/.probe";
           EvCreatePrediction "https://cdn/pet.jpg" "disco"
             (Some "https://us-central1-petdance.cloudfunctions.net/replicateWebhook"%string)]).
Proof.
  assert (Hl : jobs created_world !! "j1" = Some pending_j1) by (vm_compute; reflexivity).
  split; [exact Hl|].
  assert (Hq : is_active (users created_world !! "u1") = true
               \/ (quota_used failing_provider_env "u1" (jobs created_world) < 2)%nat)
    by (right; vm_compute; lia).
  exact (startJob_asks_the_provider_once failing_provider_env start_request created_world
           "Bearer token-of-u1" "u1" "u1@example.com" "j1" pending_j1
           eq_refl eq_refl eq_refl eq_refl eq_refl ltac:(discriminate) eq_refl Hl
           eq_refl eq_refl Hq "https://cdn/pet.jpg" _ eq_refl eq_refl eq_refl eq_refl).
Defined.

Lemma startJob_mock_mode_skips_the_provider_witness :
  jobs created_world !! "j1" = Some pending_j1
  /\ inference_calls (calls (run (startJob mock_env start_request) created_world).2)
     = inference_calls (calls created_world)
  /\ jobs (run (startJob mock_env start_request) created_world).2 !! "j1"
     = Some (set_completed_mock "outputs/u1/j1/dance.mp4" "mock-j1" 1700000000000 pending_j1).
Proof.
  assert (Hl : jobs created_world !! "j1" = Some pending_j1) by (vm_compute; reflexivity).
  split; [exact Hl|].
  assert (Hq : is_active (users created_world !! "u1") = true
               \/ (quota_used mock_env "u1" (jobs created_world) < 2)%nat)
    by (right; vm_compute; lia).
  pose proof (startJob_mock_mode_skips_the_provider mock_env start_request created_world
                "Bearer token-of-u1" "u1" "u1@example.com" "j1" pending_j1
                eq_refl eq_refl eq_refl eq_refl eq_refl ltac:(discriminate) eq_refl Hl
                eq_refl eq_refl Hq "https://cdn/pet.jpg" eq_refl eq_refl eq_refl) as H.
  cbv zeta in H. destruct H as [Hquiet Hrun]. split; [exact Hquiet|].
  change (fetch_result mock_env) with (FetchOk [0; 0; 0; 24]) in Hrun.
  change (save_result mock_env) with (@None string) in Hrun.
  cbn beta iota in Hrun. rewrite Hrun. unfold with_job. cbn [snd jobs].
  apply lookup_insert_eq.
Defined.

Lemma callback_reaches_the_started_job_witness :
  let payload := JObj [("id", JStr "pred-1"); ("status", JStr "succeeded");
                       ("output", JStr "https://cdn/vid.mp4")]%string in
  jobs created_world !! "j1" = Some pending_j1
  /\ JSON_parse (rawBody (signed_request success_body)) = Some payload
  /\ routed_job payload (run (startJob sample_env start_request) created_world).2
     = Some ("j1"%string, set_processing "pred-1" pending_j1).
Proof.
  cbv zeta.
  assert (Hl : jobs created_world !! "j1" = Some pending_j1) by (vm_compute; reflexivity).
  assert (Hp : JSON_parse (rawBody (signed_request success_body))
               = Some (JObj [("id", JStr "pred-1"); ("status", JStr "succeeded");
                             ("output", JStr "https://cdn/vid.mp4")]%string))
    by (vm_compute; reflexivity).
  assert (Hacc : accepted sample_env (signed_request success_body) = true)
    by (vm_compute; reflexivity).
  split; [exact Hl|]. split; [exact Hp|].
  assert (Hq : is_active (users created_world !! "u1") = true
               \/ (quota_used sample_env "u1" (jobs created_world) < 2)%nat)
    by (right; vm_compute; lia).
  assert (Hfresh : forall id' j', jobs created_world !! id' = Some j' ->
                                  replicateJobId j' <> Some "pred-1"%string).
  { intros id' j' Hj' Hrid.
    destruct (reachable_well_formed (firstn 1 scenario) id' j' Hj')
      as (_ & _ & Hpend & _).
    assert (Hs : status j' = pending).
    { destruct (createJob_effect sample_env create_request empty_world) as [E|(j & Hs & _ & E)].
      - unfold created_world in Hj'. cbn [firstn scenario exec step] in Hj'.
        rewrite E in Hj'. cbn in Hj'. rewrite lookup_empty in Hj'. discriminate.
      - unfold created_world in Hj'. cbn [firstn scenario exec step] in Hj'.
        rewrite E in Hj'. cbn [jobs empty_world] in Hj'.
        destruct (decide (auto_id sample_env = id')) as [<-|Hne].
        + rewrite lookup_insert_eq in Hj'. now injection Hj' as <-.
        + rewrite lookup_insert_ne, lookup_empty in Hj' by exact Hne. discriminate. }
    apply Hpend in Hs. rewrite Hs in Hrid. discriminate. }
  exact (proj1 (callback_reaches_the_started_job sample_env start_request created_world
                  "Bearer token-of-u1" "u1" "u1@example.com" "j1" pending_j1
                  eq_refl eq_refl eq_refl eq_refl eq_refl ltac:(discriminate) eq_refl Hl
                  eq_refl eq_refl Hq "https://cdn/pet.jpg" _ "pred-1" sample_env
                  (signed_request success_body) _
                  eq_refl eq_refl eq_refl eq_refl eq_refl Hfresh eq_refl Hacc Hp eq_refl
                  ltac:(discriminate))).
Defined.

Lemma unrouted_callback_is_acknowledged_witness :
  run (replicateWebhook sample_env (signed_request success_body)) created_world
  = (ok_reply, created_world).
Proof.
  assert (Hp : JSON_parse (rawBody (signed_request success_body))
               = Some (JObj [("id", JStr "pred-1"); ("status", JStr "succeeded");
                             ("output", JStr "https://cdn/vid.mp4")]%string))
    by (vm_compute; reflexivity).
  assert (Hacc : accepted sample_env (signed_request success_body) = true)
    by (vm_compute; reflexivity).
  apply (unrouted_callback_is_acknowledged sample_env (signed_request success_body)
           created_world _ eq_refl Hacc Hp eq_refl).
  intros id j Hl.
  destruct (reachable_well_formed (firstn 1 scenario) id j Hl) as (_ & _ & Hpend & _).
  assert (Hs : status j = pending).
  { destruct (createJob_effect sample_env create_request empty_world) as [E|(j0 & Hs & _ & E)].
    - unfold created_world in Hl. cbn [firstn scenario exec step] in Hl.
      rewrite E in Hl. cbn in Hl. rewrite lookup_empty in Hl. discriminate.
    - unfold created_world in Hl. cbn [firstn scenario exec step] in Hl.
      rewrite E in Hl. cbn [jobs empty_world] in Hl.
      destruct (decide (auto_id sample_env = id)) as [<-|Hne].
      + rewrite lookup_insert_eq in Hl. now injection Hl as <-.
      + rewrite lookup_insert_ne, lookup_empty in Hl by exact Hne. discriminate. }
  apply Hpend in Hs. unfold has_replicateJobId. rewrite Hs.
  destruct (get_prop _ "id"); reflexivity.
Defined.

Lemma malformed_callback_is_refused_witness :
  run (replicateWebhook sample_env (signed_request "{oops")) started_world
  = (Replied (mkResponse 400 (BText "Invalid JSON")), started_world)
  /\ run (replicateWebhook sample_env (signed_request "{}")) started_world
     = (Replied (mkResponse 400 (BText "Missing prediction id")), started_world).
Proof.
  split.
  - pose proof (malformed_callback_is_refused sample_env (signed_request "{oops")
                  started_world eq_refl ltac:(vm_compute; reflexivity)) as H.
    assert (Hp : JSON_parse (rawBody (signed_request "{oops")) = None)
      by (vm_compute; reflexivity).
    rewrite Hp in H. exact H.
  - pose proof (malformed_callback_is_refused sample_env (signed_request "{}")
                  started_world eq_refl ltac:(vm_compute; reflexivity)) as H.
    assert (Hp : JSON_parse (rawBody (signed_request "{}")) = Some (JObj []))
      by (vm_compute; reflexivity).
    rewrite Hp in H. exact (H eq_refl).
Defined.

Lemma signature_of_wrong_length_is_refused_witness :
  signatures "" = [EmptyString]
  /\ verifyWebhookSignature 1700000000000 "{}" "msg_1" "1700000000" "" "whsec_abc" = false.
Proof.
  split; [reflexivity|].
  apply signature_of_wrong_length_is_refused.
  intros c [<-|[]]. discriminate.
Defined.

Lemma secret_marker_is_optional_witness :
  verifyWebhookSignature 1700000000000 "{}" "msg_1" "1700000000" unpadded_header "whsec_abc"
  = verifyWebhookSignature 1700000000000 "{}" "msg_1" "1700000000" unpadded_header "abc".
Proof.
  exact (proj2 (proj2 (secret_marker_is_optional 1700000000000 "{}" "msg_1" "1700000000"
                         unpadded_header "abc") eq_refl)).
Defined.

Lemma later_quota_is_more_permissive_witness :
  Legacy.checkRateLimit sample_env "u1" busy_world = (Thrown rate_limit_message, busy_world).
Proof.
  apply (proj2 (later_quota_is_more_permissive sample_env "u1" busy_world)).
  vm_compute. reflexivity.
Defined.

Lemma download_path_is_for_the_owner_witness :
  run (getDownloadUrl sample_env download_request) completed_world
  = (Replied (mkResponse 200 (BJson (JObj [("outputVideoPath", JStr "outputs/u1/j1/dance.mp4");
                                           ("expiresIn", JNum 3600 0)]))),
     logged completed_world [EvVerifyIdToken "token-of-u1"])
  /\ exists job,
       jobs completed_world !! "j1" = Some job
       /\ userId job = "u1"%string /\ status job = completed
       /\ outputVideoPath job = Some (outputPath_of "u1" "j1").
Proof.
  assert (Hrun : run (getDownloadUrl sample_env download_request) completed_world
                 = (Replied (mkResponse 200
                      (BJson (JObj [("outputVideoPath", JStr "outputs/u1/j1/dance.mp4");
                                    ("expiresIn", JNum 3600 0)]))),
                    logged completed_world [EvVerifyIdToken "token-of-u1"]))
    by (vm_compute; reflexivity).
  split; [exact Hrun|].
  destruct (download_path_is_for_the_owner sample_env download_request completed_world _ _
              Hrun eq_refl)
    as (uid & mail & p & id & job & path & Ht & Hj & Hseg & Hplain & Hl & Ho & Hs & Hp
        & Hne & _ & Hcan).
  injection Ht as <- <-. injection Hj as <-.
  rewrite (Hplain eq_refl) in Hl, Hcan.
  exists job. repeat split; auto.
  rewrite Hp. f_equal. apply (Hcan scenario). reflexivity.
Defined.

Lemma job_status_is_for_the_owner_witness :
  exists r w',
    run (getJobStatus sample_env status_request) completed_world = (Replied r, w')
    /\ code r = 200
    /\ exists job, jobs completed_world !! "j1" = Some job /\ userId job = "u1"%string.
Proof.
  assert (Hrun : run (getJobStatus sample_env status_request) completed_world
                 = (Replied (mkResponse 200 (BJson (JObj
                      [("jobId", JStr "j1"); ("status", JStr "completed");
                       ("danceStyle", JStr "disco");
                       ("createdAt", JStr "2023-11-14T22:13:20.000Z");
                       ("completedAt", JStr "2023-11-14T22:13:20.000Z");
                       ("errorMessage", JNull);
                       ("outputVideoPath", JStr "outputs/u1/j1/dance.mp4")]%string))),
                    logged completed_world [EvVerifyIdToken "token-of-u1"]))
    by (vm_compute; reflexivity).
  eexists; eexists. split; [exact Hrun|]. split; [reflexivity|].
  destruct (job_status_is_for_the_owner sample_env status_request completed_world _ _
              Hrun eq_refl)
    as (uid & mail & p & id & job & created & finished & Ht & Hj & Hseg & Hplain & Hl & Ho & _).
  injection Ht as <- <-. injection Hj as <-. rewrite (Hplain eq_refl) in Hl.
  exists job. auto.
Defined.

Lemma grant_pro_lifts_the_quota_witness :
  (checkRateLimit sample_env "u1" busy_world).1 = Thrown rate_limit_message
  /\ (checkRateLimit sample_env "u1"
        (run (grant_pro 1700000000000 (Some "u1"%string)) busy_world).2).1 = Next true.
Proof.
  split; [vm_compute; reflexivity|].
  destruct (grant_pro_lifts_the_quota 1700000000000 "u1" sample_env busy_world
              ltac:(discriminate) eq_refl) as (_ & _ & _ & H).
  rewrite H. reflexivity.
Defined.

Lemma earlier_createJob_applies_the_quota_witness :
  run (Earlier.createJob later_env create_request) busy_world
  = (refusal 500 rate_limit_message,
     logged busy_world [EvVerifyIdToken "token-of-u1"]).
Proof.
  pose proof (earlier_createJob_applies_the_quota later_env create_request busy_world
                "Bearer token-of-u1" "u1" "u1@example.com" "disco"
                eq_refl eq_refl eq_refl eq_refl eq_refl ltac:(simpl; tauto)
                ltac:(vm_compute; reflexivity) ltac:(vm_compute; lia)) as H.
  rewrite H. reflexivity.
Defined.

Lemma earlier_createJob_keeps_the_job_on_503_witness :
  (run (Earlier.createJob unsigned_env create_request) empty_world).1
  = refusal 503 STORAGE_UNAVAILABLE_MSG
  /\ jobs (run (Earlier.createJob unsigned_env create_request) empty_world).2 !! "j1"
     = Some pending_j1.
Proof.
  destruct (earlier_createJob_keeps_the_job_on_503 unsigned_env create_request empty_world
              "Bearer token-of-u1" "u1" "u1@example.com" "disco"
              eq_refl eq_refl eq_refl eq_refl eq_refl ltac:(simpl; tauto)
              ltac:(right; vm_compute; lia) eq_refl eq_refl) as (H1 & H2 & _).
  split; [exact H1|]. rewrite H2. apply lookup_insert_eq.
Defined.

Lemma style_is_ignored_by_image_only_models_witness :
  let p := Replicate.mkProvider (Some "r8_token"%string) None (Replicate.VersionsRead None)
             (Replicate.PredictionsRead (JObj [("id", JStr "pred-1")]%string)) in
  Replicate.earlier_createPrediction p "https://cdn/pet.jpg" "disco" None None None
  = Replicate.earlier_createPrediction p "https://cdn/pet.jpg" "salsa" None None None.
Proof.
  cbv zeta.
  apply (proj2 (proj2 (style_is_ignored_by_image_only_models _ _ _ _ _ _ _))).
  reflexivity.
Defined.

Lemma polling_is_bounded_witness :
  requests_made (App.pollJobStatus patient_client) = 121%nat
  /\ List.last (App.pollJobStatus patient_client) (App.UiWait 0) = timed_out.
Proof.
  apply (proj2 (proj2 (proj2 (polling_is_bounded patient_client)))).
  intros n. reflexivity.
Defined.

Lemma switched_off_verification_ignores_the_signature_witness :
  accepted unverified_env tampered_request = true
  /\ run (replicateWebhook unverified_env tampered_request) started_world
     = run (replicateWebhook unverified_env (unsigned_request failure_body)) started_world.
Proof.
  exact (switched_off_verification_ignores_the_signature unverified_env tampered_request
           started_world (or_introl eq_refl)).
Defined.

Lemma created_job_can_be_started_witness :
  jobs (exec (firstn 2 scenario) empty_world) !! "j1" = Some processing_j1.
Proof.
  destruct (created_job_can_be_started sample_env sample_env create_request start_request
              empty_world "Bearer token-of-u1" "Bearer token-of-u1" "u1" "u1@example.com"
              "u1@example.com" "disco" "https://cdn/pet.jpg" "pred-1" _
              eq_refl eq_refl eq_refl eq_refl eq_refl ltac:(simpl; tauto)
              eq_refl eq_refl eq_refl eq_refl eq_refl ltac:(discriminate) eq_refl
              ltac:(vm_compute; lia) eq_refl eq_refl eq_refl eq_refl eq_refl)
    as (_ & H & _).
  exact H.
Defined.

Lemma completed_flow_delivers_the_video_witness :
  run (getDownloadUrl sample_env download_request) completed_world
  = (Replied (mkResponse 200 (BJson (JObj [("outputVideoPath", JStr "outputs/u1/j1/dance.mp4");
                                           ("expiresIn", JNum 3600 0)]))),
     logged completed_world [EvVerifyIdToken "token-of-u1"]).
Proof.
  assert (Hp : JSON_parse (rawBody (signed_request success_body))
               = Some (JObj [("id", JStr "pred-1"); ("status", JStr "succeeded");
                             ("output", JStr "https://cdn/vid.mp4")]%string))
    by (vm_compute; reflexivity).
  assert (Hacc : accepted sample_env (signed_request success_body) = true)
    by (vm_compute; reflexivity).
  exact (proj2 (proj2 (completed_flow_delivers_the_video empty_world "u1" "disco"
           "https://cdn/pet.jpg" "pred-1" [0; 0; 0; 24]
           sample_env create_request "Bearer token-of-u1" "u1@example.com"
           sample_env start_request "Bearer token-of-u1" "u1@example.com" _
           sample_env (signed_request success_body) _
           sample_env download_request "Bearer token-of-u1" "u1@example.com"
           eq_refl eq_refl eq_refl eq_refl eq_refl ltac:(simpl; tauto)
           ltac:(discriminate) eq_refl
           eq_refl eq_refl eq_refl eq_refl eq_refl eq_refl ltac:(vm_compute; lia)
           eq_refl eq_refl eq_refl eq_refl ltac:(discriminate)
           ltac:(intros id j H; simpl in H; rewrite lookup_empty in H; discriminate)
           eq_refl Hacc Hp eq_refl eq_refl eq_refl eq_refl eq_refl eq_refl
           eq_refl eq_refl eq_refl eq_refl eq_refl))).
Defined.

